(** * A shallow embedding of the GeoJSON to STAC core of osml-data-intake

    Modules follow the Python sources:
    - [Json]           parsed JSON documents and the few Python dict/list
                       operations the code uses;
    - [StacUtils]      [stac_utils.py]: bounding boxes and polygons;
    - [Geo]            GeoJSON geometries as a closed sum type, embedded
                       into [Json.json];
    - [Digest], [GeoJSONProcessor], [StacValidator]: the remaining files.

    Exceptions raised by Python are modelled by [None] in the [option]
    monad; a [try ... except Exception] becomes a match on that option.
    JSON numbers are modelled by integers ([Z]). *)

From Stdlib Require Import ZArith Lia List Bool Ascii String.
From stdpp Require Import base gmap strings list.
From Stdlib Require Import Sorting.Sorted.
Import ListNotations.

Local Open Scope Z_scope.
Local Set Warnings "-register-all".

Module Json.

(** A parsed JSON document, as produced by [json.load]. A JSON object is
    a Python dict: an association list with unique keys, in insertion
    order. *)
Inductive json : Type :=
| JNull
| JBool (b : bool)
| JNum (z : Z)
| JStr (s : string)
| JArr (xs : list json)
| JObj (kvs : list (string * json)).

(** Lookup of a key in a dict. *)
Fixpoint assoc_get {A} (k : string) (kvs : list (string * A)) : option A :=
  match kvs with
  | [] => None
  | (k', v) :: r => if String.eqb k k' then Some v else assoc_get k r
  end.

(** [d.get(k, default)]: raises ([None]) when [d] is not a dict. *)
Definition py_get (d : json) (k : string) (default : json) : option json :=
  match d with
  | JObj kvs => Some (match assoc_get k kvs with Some v => v | None => default end)
  | _ => None
  end.

(** Python truthiness of a JSON value ([not x] is [negb (truthy x)]). *)
Definition truthy (v : json) : bool :=
  match v with
  | JNull => false
  | JBool b => b
  | JNum z => negb (Z.eqb z 0)
  | JStr s => negb (String.eqb s EmptyString)
  | JArr xs => negb (Nat.eqb (length xs) 0)
  | JObj kvs => negb (Nat.eqb (length kvs) 0)
  end.

(** Iterating a JSON value in a [for] loop: a list yields its elements,
    a string its one-character strings and a dict its keys; any other
    value raises [TypeError]. *)
Definition py_iter (v : json) : option (list json) :=
  match v with
  | JArr xs => Some xs
  | JStr s => Some (map (fun c => JStr (String c EmptyString)) (list_ascii_of_string s))
  | JObj kvs => Some (map (fun kv => JStr (fst kv)) kvs)
  | _ => None
  end.

(** [v[i]] for a non-negative index: a list gives its element and a
    string its character ([IndexError] out of range); a dict raises
    [KeyError] (its keys are strings) and any other value [TypeError]. *)
Definition py_getitem (v : json) (i : nat) : option json :=
  match v with
  | JArr xs => nth_error xs i
  | JStr s => match String.get i s with Some c => Some (JStr (String c EmptyString)) | None => None end
  | _ => None
  end.

(** The value of a number or a bool ([True == 1]) in a comparison. *)
Definition py_num (v : json) : option Z :=
  match v with
  | JNum z => Some z
  | JBool b => Some (if b then 1 else 0)
  | _ => None
  end.

(** [a == b]: numbers and bools by value, strings by content, lists
    element-wise, dicts by their key sets and the values under each key;
    values of different kinds are unequal. *)
Fixpoint py_eq (a b : json) : bool :=
  match a, b with
  | JNull, JNull => true
  | (JNum _ | JBool _), (JNum _ | JBool _) =>
      match py_num a, py_num b with Some x, Some y => Z.eqb x y | _, _ => false end
  | JStr s, JStr t => String.eqb s t
  | JArr xs, JArr ys =>
      (fix go (xs ys : list json) : bool :=
         match xs, ys with
         | [], [] => true
         | x :: xs', y :: ys' => py_eq x y && go xs' ys'
         | _, _ => false
         end) xs ys
  | JObj kvs, JObj kvs' =>
      Nat.eqb (length kvs) (length kvs') &&
      (fix go (kvs : list (string * json)) : bool :=
         match kvs with
         | [] => true
         | (k, v) :: r =>
             match assoc_get k kvs' with Some v' => py_eq v v' | None => false end && go r
         end) kvs
  | _, _ => false
  end.

(** [a < b]: numbers and bools by value, strings by code points, lists
    lexicographically (the first elements that are not [==] decide, else
    the lengths); any other pair raises [TypeError] ([None]). For these
    types [a > b] is [b < a]. *)
Fixpoint py_lt (a b : json) : option bool :=
  match a, b with
  | (JNum _ | JBool _), (JNum _ | JBool _) =>
      match py_num a, py_num b with Some x, Some y => Some (Z.ltb x y) | _, _ => None end
  | JStr s, JStr t => Some (match String.compare s t with Lt => true | _ => false end)
  | JArr xs, JArr ys =>
      (fix go (xs ys : list json) : option bool :=
         match xs, ys with
         | x :: xs', y :: ys' => if py_eq x y then go xs' ys' else py_lt x y
         | [], [] => Some false
         | [], _ :: _ => Some true
         | _ :: _, [] => Some false
         end) xs ys
  | _, _ => None
  end.

(** The loop of CPython's [min]/[max]: the first item is kept until an
    item compares better ([better item kept]); a raising comparison
    aborts. *)
Fixpoint min_max_loop (better : json -> json -> option bool) (kept : json) (l : list json)
  : option json :=
  match l with
  | [] => Some kept
  | item :: r =>
      match better item kept with
      | None => None
      | Some true => min_max_loop better item r
      | Some false => min_max_loop better kept r
      end
  end.

(** Python [min] and [max] over a list: [ValueError] on an empty list;
    [min] keeps an item when [item < kept], [max] when [item > kept]. *)
Definition py_min (l : list json) : option json :=
  match l with [] => None | x :: r => min_max_loop (fun item kept => py_lt item kept) x r end.

Definition py_max (l : list json) : option json :=
  match l with [] => None | x :: r => min_max_loop (fun item kept => py_lt kept item) x r end.

(** [map] in the option monad: the first element that raises aborts. *)
Fixpoint map_opt {A B} (f : A -> option B) (l : list A) : option (list B) :=
  match l with
  | [] => Some []
  | x :: r =>
      match f x with
      | None => None
      | Some y => match map_opt f r with None => None | Some ys => Some (y :: ys) end
      end
  end.

(** [[y for x in l for y in f(x)]] in the option monad. *)
Fixpoint flat_map_opt {A B} (f : A -> option (list B)) (l : list A) : option (list B) :=
  match l with
  | [] => Some []
  | x :: r =>
      match f x with
      | None => None
      | Some ys => match flat_map_opt f r with None => None | Some zs => Some (ys ++ zs) end
      end
  end.

End Json.

Import Json.

Module StacUtils.

(** [WORLD_BOUNDS_BBOX = [-180, -90, 180, 90]] *)
Definition WORLD_BOUNDS_BBOX : list json := [JNum (-180); JNum (-90); JNum 180; JNum 90].

(** [calculate_bbox_from_coords]: [coord[0]] and [coord[1]] of every
    coordinate, then component-wise [min]/[max], with Python's
    comparisons: a bbox entry is whatever value [min] or [max] selects. *)
Definition calculate_bbox_from_coords (coordinates : list json) : option (list json) :=
  match map_opt (fun coord => py_getitem coord 0) coordinates with
  | None => None
  | Some lons =>
      match map_opt (fun coord => py_getitem coord 1) coordinates with
      | None => None
      | Some lats =>
          match py_min lons, py_min lats, py_max lons, py_max lats with
          | Some a, Some b, Some c, Some d => Some [a; b; c; d]
          | _, _, _, _ => None
          end
      end
  end.

Definition is_type (t : option json) (name : string) : bool :=
  match t with Some (JStr s) => String.eqb s name | _ => false end.

(** [_extract_coordinates], returning the items its result yields when
    iterated: the LineString/MultiPoint branch returns [coords] itself,
    and both of its consumers iterate it ([all_coords.extend] and the
    comprehensions of [calculate_bbox_from_coords], after [if not
    coordinates], which is false exactly when the iteration is empty),
    so a value that cannot be iterated raises there. The [for sub_geom
    in geom.get("geometries", [])] loop is written as a walk over the
    dict entries so that the recursive call is on a sub-term; iterating
    a string or a dict yields strings, on which [sub_geom.get] raises. *)
Fixpoint _extract_coordinates (geom : json) : option (list json) :=
  match geom with
  | JObj kvs =>
      let geom_type := assoc_get "type" kvs in
      let coords := match assoc_get "coordinates" kvs with Some v => v | None => JArr [] end in
      if is_type geom_type "Point" then Some [coords]
      else if is_type geom_type "LineString" || is_type geom_type "MultiPoint" then
        py_iter coords
      else if is_type geom_type "Polygon" || is_type geom_type "MultiLineString" then
        match py_iter coords with
        | None => None
        | Some rings => flat_map_opt py_iter rings
        end
      else if is_type geom_type "MultiPolygon" then
        match py_iter coords with
        | None => None
        | Some polygons =>
            flat_map_opt (fun polygon =>
              match py_iter polygon with
              | None => None
              | Some rings => flat_map_opt py_iter rings
              end) polygons
        end
      else if is_type geom_type "GeometryCollection" then
        (fix find (l : list (string * json)) : option (list json) :=
           match l with
           | [] => Some []
           | (k, v) :: r =>
               if String.eqb "geometries" k then
                 match v with
                 | JArr subs =>
                     (fix go (gs : list json) : option (list json) :=
                        match gs with
                        | [] => Some []
                        | g :: gs' =>
                            match _extract_coordinates g with
                            | None => None
                            | Some a => match go gs' with None => None | Some b => Some (a ++ b) end
                            end
                        end) subs
                 | _ => match py_iter v with Some [] => Some [] | _ => None end
                 end
               else find r
           end) kvs
      else Some []
  | _ => None
  end.

(** [calculate_bbox_from_geometry]: every exception is caught and turned
    into the world bounds. *)
Definition calculate_bbox_from_geometry (geometry : json) : list json :=
  match _extract_coordinates geometry with
  | None => WORLD_BOUNDS_BBOX
  | Some [] => WORLD_BOUNDS_BBOX
  | Some coordinates =>
      match calculate_bbox_from_coords coordinates with
      | None => WORLD_BOUNDS_BBOX
      | Some bb => bb
      end
  end.

Definition pair (x y : json) : json := JArr [x; y].

(** [geometry_from_bbox]: the unpacking [min_lon, min_lat, max_lon,
    max_lat = bbox] raises unless [bbox] has exactly four entries. *)
Definition geometry_from_bbox (bbox : list json) : option json :=
  match bbox with
  | [min_lon; min_lat; max_lon; max_lat] =>
      Some (JObj [("type", JStr "Polygon");
                  ("coordinates",
                     JArr [JArr [pair min_lon min_lat; pair max_lon min_lat;
                                 pair max_lon max_lat; pair min_lon max_lat;
                                 pair min_lon min_lat]])])
  | _ => None
  end.

End StacUtils.

Module Geo.

(** A GeoJSON position: longitude, latitude and any further numbers (an
    altitude, ignored by the bbox computation). *)
Record position := mkpos { lon : Z; lat : Z; rest : list Z }.

(** GeoJSON geometries as a closed sum type; [GeometryCollection] is the
    recursive case. *)
Inductive geometry : Type :=
| Point (p : position)
| LineString (ps : list position)
| MultiPoint (ps : list position)
| Polygon (rings : list (list position))
| MultiLineString (lines : list (list position))
| MultiPolygon (polys : list (list (list position)))
| GeometryCollection (gs : list geometry).

Definition position_to_json (p : position) : json :=
  JArr (JNum (lon p) :: JNum (lat p) :: map JNum (rest p)).

Definition ring_to_json (r : list position) : json := JArr (map position_to_json r).

Definition obj (t : string) (k : string) (v : json) : json :=
  JObj [("type", JStr t); (k, v)].

(** The JSON document of a geometry, as it appears in a GeoJSON file. *)
Fixpoint geometry_to_json (g : geometry) : json :=
  match g with
  | Point p => obj "Point" "coordinates" (position_to_json p)
  | LineString ps => obj "LineString" "coordinates" (ring_to_json ps)
  | MultiPoint ps => obj "MultiPoint" "coordinates" (ring_to_json ps)
  | Polygon rs => obj "Polygon" "coordinates" (JArr (map ring_to_json rs))
  | MultiLineString rs => obj "MultiLineString" "coordinates" (JArr (map ring_to_json rs))
  | MultiPolygon pss =>
      obj "MultiPolygon" "coordinates" (JArr (map (fun rs => JArr (map ring_to_json rs)) pss))
  | GeometryCollection gs => obj "GeometryCollection" "geometries" (JArr (map geometry_to_json gs))
  end.

(** The coordinate pairs reachable from a geometry, as the spec lists
    them: a Point itself, LineString/MultiPoint directly, Polygon and
    MultiLineString one ring level, MultiPolygon two levels, and the
    concatenation over the members of a GeometryCollection. *)
Fixpoint flatten (g : geometry) : list position :=
  match g with
  | Point p => [p]
  | LineString ps | MultiPoint ps => ps
  | Polygon rs | MultiLineString rs => List.concat rs
  | MultiPolygon pss => List.concat (map (@List.concat _) pss)
  | GeometryCollection gs => flat_map flatten gs
  end.

(** [a b c d] is the component-wise envelope of [pts]: every point lies
    inside, and each bound is attained by some point. *)
Definition is_envelope (pts : list position) (a b c d : Z) : Prop :=
  (forall p, In p pts -> a <= lon p <= c /\ b <= lat p <= d) /\
  (exists p, In p pts /\ lon p = a) /\ (exists p, In p pts /\ lat p = b) /\
  (exists p, In p pts /\ lon p = c) /\ (exists p, In p pts /\ lat p = d).

(** The geometry type names [_extract_coordinates] recognises. *)
Definition known_type (t : option json) : bool :=
  existsb (StacUtils.is_type t)
    ["Point"; "LineString"; "MultiPoint"; "Polygon"; "MultiLineString"; "MultiPolygon";
     "GeometryCollection"].

End Geo.



Module PyStr.

(** The Python string operations the processor uses, on ASCII strings. *)

Definition lower_char (a : ascii) : ascii :=
  let n := nat_of_ascii a in
  if (65 <=? n)%nat && (n <=? 90)%nat then ascii_of_nat (n + 32) else a.

(** [s.lower()] *)
Fixpoint lower (s : string) : string :=
  match s with
  | EmptyString => EmptyString
  | String a r => String (lower_char a) (lower r)
  end.

(** [s.replace(old, new)] for a one-character [old] and [new]. *)
Fixpoint replace_char (old new : ascii) (s : string) : string :=
  match s with
  | EmptyString => EmptyString
  | String a r => String (if Ascii.eqb a old then new else a) (replace_char old new r)
  end.

(** [s.split(sep)] for a one-character separator. *)
Fixpoint split (sep : ascii) (s : string) : list string :=
  match s with
  | EmptyString => [EmptyString]
  | String a r =>
      let parts := split sep r in
      if Ascii.eqb a sep then EmptyString :: parts
      else match parts with
           | p :: ps => String a p :: ps
           | [] => [String a EmptyString]
           end
  end.

(** [s.endswith(suffix)] *)
Definition endswith (s suffix : string) : bool :=
  (String.length suffix <=? String.length s)%nat &&
  String.eqb (substring (String.length s - String.length suffix) (String.length suffix) s) suffix.

(** [s.removesuffix(suffix)]: case-sensitive. *)
Definition removesuffix (s suffix : string) : string :=
  if endswith s suffix then substring 0 (String.length s - String.length suffix) s else s.

Fixpoint drop_through (c : ascii) (rl : list ascii) : option (list ascii) :=
  match rl with
  | [] => None
  | a :: r => if Ascii.eqb a c then Some r else drop_through c r
  end.

(** [s.rsplit(sep, 1)[0]]: everything before the last [sep], or [s]
    itself when [sep] does not occur. *)
Definition rsplit1_head (sep : ascii) (s : string) : string :=
  match drop_through sep (rev (list_ascii_of_string s)) with
  | Some r => string_of_list_ascii (rev r)
  | None => s
  end.

(** [str(n)] for an integer. *)
Fixpoint digits_of_pos (fuel : nat) (n : Z) (acc : string) : string :=
  match fuel with
  | O => acc
  | S f =>
      let acc' := String (ascii_of_nat (48 + Z.to_nat (n mod 10))) acc in
      if n <? 10 then acc' else digits_of_pos f (n / 10) acc'
  end.

Definition str_of_Z (n : Z) : string :=
  if n <? 0 then String "-" (digits_of_pos (Z.to_nat (Z.log2 (- n) + 1)) (- n) EmptyString)
  else digits_of_pos (Z.to_nat (Z.log2 n + 1)) n EmptyString.

End PyStr.

Module Digest.

(** SHA-256 (FIPS 180-4) over a list of bytes, as [hashlib.sha256]
    computes it; words are 32-bit integers with wrap-around written out. *)

(** The first [n] primes, by trial division. *)
Fixpoint primes_from (fuel : nat) (n : nat) (c : Z) (acc : list Z) : list Z :=
  match fuel, n with
  | O, _ | _, O => rev acc
  | S f, S m =>
      if forallb (fun p => negb (c mod p =? 0)) acc
      then primes_from f m (c + 1) (c :: acc)
      else primes_from f n (c + 1) acc
  end.

Definition primes (n : nat) : list Z := primes_from (n * n) n 2 [].

(** Integer cube root by bisection: the largest [x] in [lo, hi) with [x^3 <= n]. *)
Fixpoint icbrt_go (fuel : nat) (n lo hi : Z) : Z :=
  match fuel with
  | O => lo
  | S f =>
      let mid := (lo + hi) / 2 in
      if hi - lo <=? 1 then lo
      else if mid * mid * mid <=? n then icbrt_go f n mid hi else icbrt_go f n lo mid
  end.

Definition icbrt (n : Z) : Z := icbrt_go 64 n 0 (2 ^ 40).

(** Round constants: the first 32 bits of the fractional parts of the cube
    roots of the first 64 primes. *)
Definition K : list Z := Eval vm_compute in
  map (fun p => icbrt (p * 2 ^ 96) mod 2 ^ 32) (primes 64).

(** Initial hash value: the first 32 bits of the fractional parts of the
    square roots of the first 8 primes. *)
Definition H0 : list Z := Eval vm_compute in
  map (fun p => Z.sqrt (p * 2 ^ 64) mod 2 ^ 32) (primes 8).

Definition add32 (a b : Z) : Z := (a + b) mod 2 ^ 32.
Definition not32 (x : Z) : Z := Z.lxor x (2 ^ 32 - 1).
Definition rotr (n x : Z) : Z :=
  Z.lor (Z.shiftr x n) (Z.shiftl x (32 - n) mod 2 ^ 32).

Definition ch (x y z : Z) : Z := Z.lxor (Z.land x y) (Z.land (not32 x) z).
Definition maj (x y z : Z) : Z := Z.lxor (Z.lxor (Z.land x y) (Z.land x z)) (Z.land y z).
Definition bsig0 (x : Z) : Z := Z.lxor (Z.lxor (rotr 2 x) (rotr 13 x)) (rotr 22 x).
Definition bsig1 (x : Z) : Z := Z.lxor (Z.lxor (rotr 6 x) (rotr 11 x)) (rotr 25 x).
Definition ssig0 (x : Z) : Z := Z.lxor (Z.lxor (rotr 7 x) (rotr 18 x)) (Z.shiftr x 3).
Definition ssig1 (x : Z) : Z := Z.lxor (Z.lxor (rotr 17 x) (rotr 19 x)) (Z.shiftr x 10).

(** Big-endian bytes of a number, [n] bytes wide. *)
Fixpoint be_bytes (n : nat) (x : Z) : list Z :=
  match n with
  | O => []
  | S k => be_bytes k (x / 256) ++ [x mod 256]
  end.

(** Message padding: a 1 bit, zeros, and the bit length as 64 bits. *)
Definition pad (msg : list Z) : list Z :=
  let len := Z.of_nat (length msg) in
  msg ++ [128] ++ repeat 0 (Z.to_nat ((55 - len) mod 64)) ++ be_bytes 8 (8 * len).

Fixpoint words (bs : list Z) : list Z :=
  match bs with
  | b0 :: b1 :: b2 :: b3 :: r => (b0 * 2 ^ 24 + b1 * 2 ^ 16 + b2 * 2 ^ 8 + b3) :: words r
  | _ => []
  end.

(** The message schedule W_0 .. W_63, built from the 16 block words. *)
Fixpoint schedule (fuel : nat) (w : list Z) : list Z :=
  match fuel with
  | O => w
  | S f =>
      let t := length w in
      let wt := add32 (add32 (ssig1 (nth (t - 2) w 0)) (nth (t - 7) w 0))
                      (add32 (ssig0 (nth (t - 15) w 0)) (nth (t - 16) w 0)) in
      schedule f (w ++ [wt])
  end.

Definition round (st : list Z) (kw : Z * Z) : list Z :=
  match st with
  | [a; b; c; d; e; f; g; h] =>
      let t1 := add32 (add32 (add32 h (bsig1 e)) (add32 (ch e f g) (fst kw))) (snd kw) in
      let t2 := add32 (bsig0 a) (maj a b c) in
      [add32 t1 t2; a; b; c; add32 d t1; e; f; g]
  | _ => st
  end.

Definition compress (hs : list Z) (block : list Z) : list Z :=
  let w := schedule 48 (words block) in
  let st := fold_left round (combine K w) hs in
  map (fun p => add32 (fst p) (snd p)) (combine hs st).

Fixpoint process_blocks (fuel : nat) (hs : list Z) (bs : list Z) : list Z :=
  match fuel with
  | O => hs
  | S f =>
      match bs with
      | [] => hs
      | _ => process_blocks f (compress hs (firstn 64 bs)) (skipn 64 bs)
      end
  end.

Definition sha256 (msg : list Z) : list Z :=
  let p := pad msg in
  flat_map (be_bytes 4) (process_blocks (length p / 64) H0 p).

Definition hex_char (n : Z) : ascii :=
  if n <? 10 then ascii_of_nat (48 + Z.to_nat n) else ascii_of_nat (87 + Z.to_nat n).

(** [.hexdigest()]: two lower-case hexadecimal digits per byte. *)
Fixpoint hexdigest (bs : list Z) : string :=
  match bs with
  | [] => EmptyString
  | b :: r => String (hex_char (b / 16)) (String (hex_char (b mod 16)) (hexdigest r))
  end.

(** [s.encode("utf-8")] for a string of ASCII characters. *)
Definition encode_ascii (s : string) : list Z :=
  map (fun a => Z.of_nat (nat_of_ascii a)) (list_ascii_of_string s).

End Digest.
Module Dumps.
Local Open Scope string_scope.

(** [json.dumps(obj, sort_keys=True, separators=(",", ":"))] with the
    default [ensure_ascii=True]: characters outside the printable ASCII
    range are written as [\u00XX] escapes. *)

Definition bs : ascii := ascii_of_nat 92.
Definition dq : ascii := ascii_of_nat 34.

Definition hex4 (n : nat) : string :=
  String "0" (String "0" (String (Digest.hex_char (Z.of_nat n / 16))
                              (String (Digest.hex_char (Z.of_nat n mod 16)) EmptyString))).

Definition escape_char (a : ascii) : string :=
  let n := nat_of_ascii a in
  if (n =? 34)%nat then String bs (String dq EmptyString)
  else if (n =? 92)%nat then String bs (String bs EmptyString)
  else if (n =? 10)%nat then String bs "n"
  else if (n =? 13)%nat then String bs "r"
  else if (n =? 9)%nat then String bs "t"
  else if (n =? 8)%nat then String bs "b"
  else if (n =? 12)%nat then String bs "f"
  else if (n <? 32)%nat || (126 <? n)%nat then String bs (String "u" (hex4 n))
  else String a EmptyString.

Fixpoint escape (s : string) : string :=
  match s with
  | EmptyString => EmptyString
  | String a r => escape_char a ++ escape r
  end.

Definition quote (s : string) : string := String dq (escape s ++ String dq EmptyString).

Fixpoint join (sep : string) (l : list string) : string :=
  match l with
  | [] => EmptyString
  | [x] => x
  | x :: r => x ++ sep ++ join sep r
  end.

(** [sort_keys]: a stable insertion sort on the keys. *)
Fixpoint insert_item (kv : string * string) (l : list (string * string)) : list (string * string) :=
  match l with
  | [] => [kv]
  | kv' :: r =>
      match String.compare (fst kv) (fst kv') with
      | Lt => kv :: l
      | _ => kv' :: insert_item kv r
      end
  end.

Definition sort_items (l : list (string * string)) : list (string * string) :=
  fold_right insert_item [] (rev l).

Fixpoint dumps (j : json) : string :=
  match j with
  | JNull => "null"
  | JBool true => "true"
  | JBool false => "false"
  | JNum z => PyStr.str_of_Z z
  | JStr s => quote s
  | JArr xs => "[" ++ join "," (map dumps xs) ++ "]"
  | JObj kvs =>
      let items := map (fun kv => (fst kv, dumps (snd kv))) kvs in
      "{" ++ join "," (map (fun kv => quote (fst kv) ++ ":" ++ snd kv) (sort_items items)) ++ "}"
  end.

End Dumps.

Module PyHeap.

(** Python objects as the processor sees them: dicts are objects in a
    heap, referred to by location, so that a dict reachable from the
    caller's document and mutated in place is visible to the caller.
    Lists are never mutated by the code and are kept as values. *)
Inductive pyval : Type :=
| VNull
| VBool (b : bool)
| VNum (z : Z)
| VStr (s : string)
| VList (xs : list pyval)
| VDict (l : positive).

Definition heap := gmap positive (list (string * pyval)).

(** The JSON value a Python object denotes (what [json.dumps] would
    write); [fuel] bounds the number of dict indirections, and
    [size h] of them suffice for any document [json.load] builds. *)
Fixpoint deref (h : heap) (fuel : nat) (v : pyval) : json :=
  match fuel with
  | O => JNull
  | S f =>
      (fix go (v : pyval) : json :=
         match v with
         | VNull => JNull
         | VBool b => JBool b
         | VNum z => JNum z
         | VStr s => JStr s
         | VList xs => JArr (map go xs)
         | VDict l =>
             match h !! l with
             | Some kvs => JObj (map (fun kv => (fst kv, deref h f (snd kv))) kvs)
             | None => JNull
             end
         end) v
  end.

Definition read (h : heap) (v : pyval) : json := deref h (S (size h)) v.

(** [d.get(k, default)]: raises unless [d] is a dict. *)
Definition dget (h : heap) (d : pyval) (k : string) (default : pyval) : option pyval :=
  match d with
  | VDict l =>
      Some (match h !! l with
            | Some kvs => match assoc_get k kvs with Some v => v | None => default end
            | None => default
            end)
  | _ => None
  end.

Definition dict_items (h : heap) (d : pyval) : option (list (string * pyval)) :=
  match d with
  | VDict l => Some (match h !! l with Some kvs => kvs | None => [] end)
  | _ => None
  end.

Definition ptruthy (h : heap) (v : pyval) : bool :=
  match v with
  | VNull => false
  | VBool b => b
  | VNum z => negb (Z.eqb z 0)
  | VStr s => negb (String.eqb s EmptyString)
  | VList xs => negb (Nat.eqb (length xs) 0)
  | VDict l => match h !! l with Some (_ :: _) => true | _ => false end
  end.

(** [{}]: a new, empty dict. *)
Definition alloc_dict (h : heap) : heap * positive :=
  let l := fresh (dom h) in (<[l := []]> h, l).

(** [d.setdefault(k, v)] *)
Definition setdefault (h : heap) (d : pyval) (k : string) (v : pyval) : option heap :=
  match d with
  | VDict l =>
      let kvs := match h !! l with Some kvs => kvs | None => [] end in
      match assoc_get k kvs with
      | Some _ => Some h
      | None => Some (<[l := kvs ++ [(k, v)]]> h)
      end
  | _ => None
  end.

(** [len(x)] *)
Definition py_len (h : heap) (v : pyval) : option nat :=
  match v with
  | VStr s => Some (String.length s)
  | VList xs => Some (length xs)
  | VDict l => Some (match h !! l with Some kvs => length kvs | None => O end)
  | _ => None
  end.

(** Assigning [d[k] = v] in a dict literal or comprehension that is
    being built: an existing key keeps its place and takes the new value. *)
Fixpoint dict_set (kvs : list (string * json)) (k : string) (v : json) : list (string * json) :=
  match kvs with
  | [] => [(k, v)]
  | (k', v') :: r => if String.eqb k k' then (k', v) :: r else (k', v') :: dict_set r k v
  end.

End PyHeap.

Module GeoJSONProcessor.
Import PyStr.
Local Open Scope string_scope.

(** [DEFAULT_COLLECTION_ID = "OSML"] *)
Definition DEFAULT_COLLECTION_ID : string := "OSML".

(** [extract_collection_from_key] *)
Definition extract_collection_from_key (s3_key : string) : string :=
  let path_parts := split "/" s3_key in
  let collection_base :=
    if (length path_parts <? 2)%nat then
      let filename := nth 0 path_parts EmptyString in
      if endswith (lower filename) ".geojson" then removesuffix filename ".geojson"
      else rsplit1_head "." filename
    else nth (length path_parts - 2) path_parts EmptyString in
  let collection_name := replace_char " " "-" (replace_char "_" "-" (lower collection_base)) in
  if String.eqb collection_name EmptyString then "user-data" else collection_name.

(** The collection-id resolution step of [GeoJSONProcessor.process]. *)
Definition resolve_collection_id (collection_id s3_key : string) : string :=
  if String.eqb collection_id DEFAULT_COLLECTION_ID then extract_collection_from_key s3_key
  else collection_id.

(** [generate_deterministic_id]; [feature.get] raises unless the feature
    is a dict. *)
Definition generate_deterministic_id (feature : json) (collection_id source_key : string)
  : option string :=
  match feature with
  | JObj kvs =>
      let get k default := match assoc_get k kvs with Some v => v | None => default end in
      let hash_components0 :=
        [("collection", JStr collection_id); ("source", JStr source_key);
         ("geometry", get "geometry" (JObj [])); ("properties", get "properties" (JObj []))] in
      let hash_components :=
        if truthy (get "id" JNull) then (hash_components0 ++ [("feature_id", get "id" JNull)])%list
        else hash_components0 in
      let hash_input := Dumps.dumps (JObj hash_components) in
      let content_hash :=
        substring 0 12 (Digest.hexdigest (Digest.sha256 (Digest.encode_ascii hash_input))) in
      let base_id :=
        match get "id" (JStr "feature") with
        | JNum z => str_of_Z z
        | JBool true => "True"
        | JBool false => "False"
        | JStr s => s
        | _ => "feature"
        end in
      let base_id := lower (replace_char "_" "-" (replace_char " " "-" base_id)) in
      Some (collection_id ++ "-" ++ base_id ++ "-" ++ content_hash)
  | _ => None
  end.

End GeoJSONProcessor.

(** The identifier as the spec describes it: the hashed document carries
    [feature_id] whenever the feature has an id, and the readable part is
    that id as a string. *)
Module IdSpec.
Import PyStr.
Local Open Scope string_scope.

Definition spec_base_id (id : option json) : string :=
  match id with
  | Some (JStr s) => s
  | Some (JNum z) => str_of_Z z
  | _ => "feature"
  end.

Definition spec_deterministic_id (kvs : list (string * json)) (collection_id source_key : string)
  : string :=
  let get k default := match assoc_get k kvs with Some v => v | None => default end in
  let components :=
    ([("collection", JStr collection_id); ("source", JStr source_key);
     ("geometry", get "geometry" (JObj [])); ("properties", get "properties" (JObj []))] ++
    match assoc_get "id" kvs with Some v => [("feature_id", v)] | None => [] end)%list in
  let suffix :=
    substring 0 12 (Digest.hexdigest (Digest.sha256 (Digest.encode_ascii (Dumps.dumps (JObj components))))) in
  collection_id ++ "-" ++ lower (replace_char "_" "-" (replace_char " " "-" (spec_base_id (assoc_get "id" kvs))))
    ++ "-" ++ suffix.

End IdSpec.

(** The collection name as the spec describes it: the second-to-last
    path segment, or the stem of the file name (its name without the last
    extension) for a key without a directory. *)
Module CollectionSpec.
Import PyStr.
Local Open Scope string_scope.

Definition stem (filename : string) : string := rsplit1_head "." filename.

Definition spec_collection_from_key (s3_key : string) : string :=
  let parts := split "/" s3_key in
  let base :=
    match parts with
    | [filename] => stem filename
    | _ => nth (length parts - 2) parts EmptyString
    end in
  let name := replace_char " " "-" (replace_char "_" "-" (lower base)) in
  if String.eqb name EmptyString then "user-data" else name.

End CollectionSpec.

(** The parts of [GeoJSONProcessor] that read a whole document. *)
Module GeoJSONDocument.
Import PyHeap StacUtils.
Local Open Scope string_scope.

Record S3Url := { bucket : string; key : string }.

Definition is_str (v : pyval) (s : string) : bool :=
  match v with VStr s' => String.eqb s' s | _ => false end.

(** [geometry or {}], then read as a JSON document. *)
Definition geometry_or_empty (h : heap) (g : pyval) : json :=
  if ptruthy h g then read h g else JObj [].

(** [calculate_bbox_from_geometry(f.get("geometry") or {})] *)
Definition feature_bbox (h : heap) (f : pyval) : option (list json) :=
  match dget h f "geometry" VNull with
  | None => None
  | Some g => Some (calculate_bbox_from_geometry (geometry_or_empty h g))
  end.

(** [_calculate_collection_bbox]. Iterating a truthy [features] value
    that is not a list (a dict, a string, a number) never yields dicts,
    so [f.get] raises: modelled by the [_ => None] case. [b[0]] is taken
    with a default since every bbox here has four entries, and
    [b != list(WORLD_BOUNDS_BBOX)] compares the two lists with [==]. *)
Definition _calculate_collection_bbox (h : heap) (geojson_data : pyval) : option (list json) :=
  match dget h geojson_data "type" VNull with
  | None => None
  | Some geojson_type =>
      if is_str geojson_type "Feature" then
        match dget h geojson_data "geometry" VNull with
        | None => None
        | Some geometry => Some (calculate_bbox_from_geometry (geometry_or_empty h geometry))
        end
      else if is_str geojson_type "FeatureCollection" then
        match dget h geojson_data "features" (VList []) with
        | None => None
        | Some features =>
            if negb (ptruthy h features) then Some WORLD_BOUNDS_BBOX
            else
              match features with
              | VList fs =>
                  match map_opt (feature_bbox h) fs with
                  | None => None
                  | Some bboxes =>
                      let valid_bboxes :=
                        filter (fun b => negb (py_eq (JArr b) (JArr WORLD_BOUNDS_BBOX))) bboxes in
                      match valid_bboxes with
                      | [] => Some WORLD_BOUNDS_BBOX
                      | _ =>
                          match py_min (map (fun b => nth 0 b JNull) valid_bboxes),
                                py_min (map (fun b => nth 1 b JNull) valid_bboxes),
                                py_max (map (fun b => nth 2 b JNull) valid_bboxes),
                                py_max (map (fun b => nth 3 b JNull) valid_bboxes) with
                          | Some a, Some b, Some c, Some d => Some [a; b; c; d]
                          | _, _, _, _ => None
                          end
                      end
                  end
              | _ => None
              end
        end
      else Some WORLD_BOUNDS_BBOX
  end.

(** [build_stac_links] *)
Definition build_stac_links (collection_id item_id : string) : json :=
  JArr [JObj [("href", JStr ("/collections/" ++ collection_id ++ "/items/" ++ item_id));
              ("rel", JStr "self")];
        JObj [("href", JStr ("/collections/" ++ collection_id)); ("rel", JStr "collection");
              ("type", JStr "application/json")]].

(** [build_stac_item] *)
Definition build_stac_item (item_id collection_id : string) (geometry : json) (bbox : list json)
  (properties assets : list (string * json)) : json :=
  JObj [("id", JStr item_id); ("collection", JStr collection_id); ("type", JStr "Feature");
        ("geometry", geometry); ("bbox", JArr bbox); ("properties", JObj properties);
        ("assets", JObj assets); ("links", build_stac_links collection_id item_id);
        ("stac_version", JStr "1.0.0")].

(** One step of [{k: v for k, v in properties.items() if k not in
    ["datetime", "date"]}] merged into the [stac_properties] literal. *)
Definition merge_property (h : heap) (acc : list (string * json)) (kv : string * pyval)
  : list (string * json) :=
  if String.eqb (fst kv) "datetime" || String.eqb (fst kv) "date" then acc
  else dict_set acc (fst kv) (read h (snd kv)).

(** [GeoJSONProcessor._build_stac_item]; [now] is the value of
    [get_current_datetime_iso()]. *)
Definition _build_stac_item (h : heap) (item_id : string) (geometry : json) (bbox : list json)
  (properties : pyval) (collection_id : string) (s3_url : S3Url) (now : string) : option json :=
  match dget h properties "datetime" VNull, dget h properties "date" VNull, dict_items h properties with
  | Some dt, Some d, Some items =>
      let feature_datetime := if ptruthy h dt then dt else d in
      let feature_datetime :=
        if ptruthy h feature_datetime then read h feature_datetime else JStr now in
      let stac_properties :=
        fold_left (merge_property h) items
          [("datetime", feature_datetime); ("data_type", JStr "vector");
           ("geometry_simplified", JBool true)] in
      let assets :=
        [("source", JObj [("href", JStr ("s3://" ++ bucket s3_url ++ "/" ++ key s3_url));
                          ("title", JStr "Source GeoJSON");
                          ("type", JStr "application/geo+json");
                          ("roles", JArr [JStr "data"])])] in
      Some (build_stac_item item_id collection_id geometry bbox stac_properties assets)
  | _, _, _ => None
  end.

(** [x or {}] for a dict-valued expression (the [{}] default of
    [geojson_data.get("properties", {})] is falsy too, so it is modelled
    by [VNull]): a falsy [x] is replaced by a
    new empty dict. *)
Definition or_new_dict (h : heap) (v : pyval) : heap * pyval :=
  if ptruthy h v then (h, v) else let (h', l) := alloc_dict h in (h', VDict l).

(** [GeoJSONProcessor._create_stac_item_from_geojson]: the heap after the
    call (the caller's document included) and the STAC item. *)
Definition _create_stac_item_from_geojson (h : heap) (geojson_data : pyval) (s3_url : S3Url)
  (collection_id item_id now : string) : option (heap * json) :=
  match dget h geojson_data "type" VNull with
  | None => None
  | Some geojson_type =>
      if is_str geojson_type "Feature" then
        match dget h geojson_data "geometry" VNull, dget h geojson_data "properties" VNull with
        | Some g, Some p0 =>
            let geometry := geometry_or_empty h g in
            let (h1, properties) := or_new_dict h p0 in
            match _calculate_collection_bbox h1 geojson_data with
            | None => None
            | Some bbox =>
                match _build_stac_item h1 item_id geometry bbox properties collection_id s3_url now with
                | None => None
                | Some item => Some (h1, item)
                end
            end
        | _, _ => None
        end
      else if is_str geojson_type "FeatureCollection" then
        match dget h geojson_data "features" (VList []), dget h geojson_data "properties" VNull with
        | Some f0, Some p0 =>
            let features := if ptruthy h f0 then f0 else VList [] in
            if negb (ptruthy h features) then None
            else
              let (h1, properties) := or_new_dict h p0 in
              match py_len h1 features with
              | None => None
              | Some n =>
                  match setdefault h1 properties "feature_count" (VNum (Z.of_nat n)) with
                  | None => None
                  | Some h2 =>
                      match _calculate_collection_bbox h2 geojson_data with
                      | None => None
                      | Some bbox =>
                          match geometry_from_bbox bbox with
                          | None => None
                          | Some geometry =>
                              match _build_stac_item h2 item_id geometry bbox properties
                                      collection_id s3_url now with
                              | None => None
                              | Some item => Some (h2, item)
                              end
                          end
                      end
                  end
              end
        | _, _ => None
        end
      else None
  end.

End GeoJSONDocument.

(** Concrete inputs used by the statements below. *)
Module Samples.
Import PyHeap.
Local Open Scope string_scope.

(** A GeoJSON Feature whose id is the number 0. *)
Definition feature0_kvs : list (string * json) :=
  [("type", JStr "Feature"); ("id", JNum 0);
   ("geometry", JObj [("type", JStr "Point"); ("coordinates", StacUtils.pair (JNum 1) (JNum 2))]);
   ("properties", JObj [])].

Definition feature0 : json := JObj feature0_kvs.

(** A FeatureCollection document after [json.load]: the document dict
    at location 1, its non-empty [properties] dict at location 2, one
    feature at location 3 with a Point geometry at location 4. *)
Definition fc_doc : list (string * pyval) :=
  [("type", VStr "FeatureCollection"); ("features", VList [VDict 3]); ("properties", VDict 2)].

Definition fc_heap : heap :=
  list_to_map
    [(1%positive, fc_doc);
     (2%positive, [("name", VStr "airports")]);
     (3%positive, [("type", VStr "Feature"); ("geometry", VDict 4); ("properties", VDict 5)]);
     (4%positive, [("type", VStr "Point"); ("coordinates", VList [VNum 1; VNum 2])]);
     (5%positive, [])].

(** The same document, but its [properties] already carry a
    [feature_count] of 99 while the collection has two features. *)
Definition fc_count_features : list pyval := [VDict 3; VDict 6].

Definition fc_count_doc : list (string * pyval) :=
  [("type", VStr "FeatureCollection"); ("features", VList fc_count_features);
   ("properties", VDict 2)].

Definition fc_heap_count : heap :=
  list_to_map
    [(1%positive, fc_count_doc);
     (2%positive, [("feature_count", VNum 99)]);
     (3%positive, [("type", VStr "Feature"); ("geometry", VDict 4); ("properties", VDict 5)]);
     (4%positive, [("type", VStr "Point"); ("coordinates", VList [VNum 1; VNum 2])]);
     (5%positive, []);
     (6%positive, [("type", VStr "Feature"); ("geometry", VNull); ("properties", VDict 5)])].


Definition s3_sample : GeoJSONDocument.S3Url :=
  {| GeoJSONDocument.bucket := "bucket"; GeoJSONDocument.key := "uploads/airports/a.geojson" |}.

End Samples.

(** What the spec says about the collection-level bbox: the per-feature
    bboxes, and the component-wise union of a list of bboxes. *)
Module CollectionBBoxSpec.
Import PyHeap StacUtils GeoJSONDocument.





End CollectionBBoxSpec.

(** The feature count of whole-document mode, as the statements below
    use it. *)
Module FeatureCountSpec.
Import PyHeap.
Local Open Scope string_scope.

(** The [feature_count] the caller's [properties] dict already holds. *)
Definition caller_feature_count (h : heap) (p : option pyval) : option pyval :=
  match p with
  | Some (VDict pl) =>
      match h !! pl with Some kvs => assoc_get "feature_count" kvs | None => None end
  | _ => None
  end.

(** The caller's [properties] is absent, falsy, or a dict (with the
    distinct keys of a Python dict). *)
Definition properties_ok (h : heap) (p : option pyval) : Prop :=
  match p with
  | None => True
  | Some v =>
      ptruthy h v = false \/
      exists pl kvs, v = VDict pl /\ h !! pl = Some kvs /\ NoDup (map fst kvs)
  end.

(** The dicts reachable from [v] through at most [fuel] dict
    indirections (the walk of [deref]) all lie in the heap, none of them
    is at location [bad], and the walk ends within [fuel]. *)
Fixpoint reach_avoids (h : heap) (bad : option positive) (fuel : nat) (v : pyval) : bool :=
  match fuel with
  | O => false
  | S f =>
      (fix go (v : pyval) : bool :=
         match v with
         | VList xs => forallb go xs
         | VDict l =>
             match bad with Some b => negb (Pos.eqb l b) | None => true end &&
             match h !! l with
             | Some kvs => forallb (fun kv => reach_avoids h bad f (snd kv)) kvs
             | None => false
             end
         | _ => true
         end) v
  end.

(** The features do not share a dict with the caller's [properties]
    (as in any document [json.load] builds, where no object is shared),
    and every dict they refer to is in the heap. *)
Definition features_apart (h : heap) (p : option pyval) (fs : list pyval) : Prop :=
  Forall (fun f => reach_avoids h (match p with Some (VDict pl) => Some pl | _ => None end)
                     (S (size h)) f = true) fs.

(** [item["properties"][k]] *)
Definition item_property (item : json) (k : string) : option json :=
  match item with
  | JObj fields =>
      match assoc_get "properties" fields with
      | Some (JObj ps) => assoc_get k ps
      | _ => None
      end
  | _ => None
  end.

End FeatureCountSpec.

Module ProcessorBase.
Local Open Scope string_scope.

(** Python exceptions raised by the collaborators of the processor. *)
Inductive exn : Type :=
| StacValidationError (msg : string)
| ValueError (msg : string)
| OtherError (msg : string).

(** [str(e)] *)
Definition exn_str (e : exn) : string :=
  match e with StacValidationError m | ValueError m | OtherError m => m end.

(** The Lambda response; [body] is the document that [json.dumps] writes. *)
Record response := { statusCode : Z; body : json }.

(** Modelled from the spec: [ProcessorBase.success_message] of
    processor_base.py, which is not under src/; its unit test fixes it to
    [{"statusCode": 200, "body": json.dumps(message)}]. *)
Definition success_message (message : string) : response :=
  {| statusCode := 200; body := JStr message |}.

(** Modelled from the spec: [ProcessorBase.failure_message] of
    processor_base.py, which is not under src/; its unit test fixes the
    status 500 and a body with the exception's [message] and a
    [stack_trace] list, here the lines [stack_trace]. *)
Definition failure_message (stack_trace : list string) (err : exn) : response :=
  {| statusCode := 500;
     body := JObj [("message", JStr (exn_str err));
                   ("stack_trace", JArr (map JStr stack_trace))] |}.

End ProcessorBase.

Module Deconstructed.
Import ProcessorBase.
Local Open Scope string_scope.

(** A collaborator call: a value, or a raised exception. *)
Inductive result (A : Type) : Type :=
| Ok (a : A)
| Raise (e : exn).
Arguments Ok {A} a.
Arguments Raise {A} e.

Inductive log_entry : Type :=
| LogInfo (msg : string)
| LogWarning (msg : string)
| LogError (msg : string).

(** What the loop changes: the messages handed to the SNS manager
    (body and subject) and the log. *)
Record state := { published : list (string * string); logs : list log_entry }.

Definition log (st : state) (e : log_entry) : state :=
  {| published := published st; logs := (logs st ++ [e])%list |}.

Definition publish (st : state) (m : string * string) : state :=
  {| published := (published st ++ [m])%list; logs := logs st |}.

Definition str (n : nat) : string := PyStr.str_of_Z (Z.of_nat n).

Section Loop.
(** [self._create_stac_item(feature, s3_url, collection_id)] *)
Context {Feature Item : Type}.
Variable _create_stac_item : Feature -> result Item.
(** [validate_stac_item(stac_item)] *)
Variable validate_stac_item : Item -> result unit.
(** [stac_item_to_dict(stac_item)], then [json.dumps] of it and its
    ["id"]: the message body and the item id. *)
Variable item_message : Item -> result (string * string).
(** [self.sns_manager.publish_message(body, subject=...)] *)
Variable publish_message : string -> string -> result unit.
(** The lines of the traceback [failure_message] reports. *)
Variable stack_trace : list string.

(** One iteration of the [for i, feature in enumerate(features)] loop,
    with the running [published_count]. *)
Definition process_feature (n : nat) (acc : state * nat) (x : nat * Feature) : state * nat :=
  let '(st, published_count) := acc in
  let '(i, feature) := x in
  let failed (e : exn) :=
    (log st (LogError ("Failed to process feature " ++ str i ++ ": " ++ exn_str e)),
     published_count) in
  match _create_stac_item feature with
  | Raise e => failed e
  | Ok stac_item =>
      match validate_stac_item stac_item with
      | Raise (StacValidationError m) =>
          (log st (LogError ("STAC item validation failed for feature " ++ str i ++ ": " ++ m)),
           published_count)
      | Raise e => failed e
      | Ok _ =>
          match item_message stac_item with
          | Raise e => failed e
          | Ok (body, item_id) =>
              let subject := "STAC Item: " ++ item_id in
              match publish_message body subject with
              | Raise e => failed e
              | Ok _ =>
                  (log (publish st (body, subject))
                     (LogInfo ("Published STAC item " ++ str (S i) ++ "/" ++ str n ++ ": "
                               ++ item_id)),
                   S published_count)
              end
          end
      end
  end.

(** [GeoJSONProcessor._process_deconstructed] *)
Definition _process_deconstructed (features : list Feature) (st : state) : state * response :=
  let n := length features in
  let st := log st (LogInfo ("Processing " ++ str n ++ " GeoJSON features")) in
  let '(st, published_count) :=
    fold_left (process_feature n) (combine (seq 0 n) features) (st, O) in
  if Nat.eqb published_count 0 then
    (st, failure_message stack_trace
           (ValueError ("Failed to publish any STAC items from " ++ str n ++ " features")))
  else
    let message := "GeoJSON processed successfully: " ++ str published_count ++ "/" ++ str n
                   ++ " STAC items published" in
    let st := if Nat.ltb published_count n
              then log st (LogWarning ("Partial success: " ++ str (n - published_count)
                                       ++ " features failed"))
              else st in
    (st, success_message message).

End Loop.
End Deconstructed.

(** What the spec says of decomposed mode, per feature: the log line the
    feature gets and the message it publishes, if it gets that far;
    neither depends on any other feature. *)
Module DeconstructedSpec.
Import ProcessorBase Deconstructed.
Local Open Scope string_scope.

Section Outcome.
Context {Feature Item : Type}.
Variable _create_stac_item : Feature -> result Item.
Variable validate_stac_item : Item -> result unit.
Variable item_message : Item -> result (string * string).
Variable publish_message : string -> string -> result unit.

Definition feature_outcome (n i : nat) (feature : Feature) : log_entry * option (string * string) :=
  let failed (e : exn) :=
    (LogError ("Failed to process feature " ++ str i ++ ": " ++ exn_str e), None) in
  match _create_stac_item feature with
  | Raise e => failed e
  | Ok stac_item =>
      match validate_stac_item stac_item with
      | Raise (StacValidationError m) =>
          (LogError ("STAC item validation failed for feature " ++ str i ++ ": " ++ m), None)
      | Raise e => failed e
      | Ok _ =>
          match item_message stac_item with
          | Raise e => failed e
          | Ok (body, item_id) =>
              match publish_message body ("STAC Item: " ++ item_id) with
              | Raise e => failed e
              | Ok _ =>
                  (LogInfo ("Published STAC item " ++ str (S i) ++ "/" ++ str n ++ ": " ++ item_id),
                   Some (body, "STAC Item: " ++ item_id))
              end
          end
      end
  end.

(** The outcomes of [features], in order, indexed as by [enumerate]. *)
Definition outcomes (features : list Feature) : list (log_entry * option (string * string)) :=
  map (fun x => feature_outcome (length features) (fst x) (snd x))
      (combine (seq 0 (length features)) features).

End Outcome.
End DeconstructedSpec.

Module SchemaUriMap.
Import PyStr.
Local Open Scope string_scope.

(** [s.replace(old, new)]: every non-overlapping occurrence, left to
    right; an empty [old] matches between any two characters. *)
Fixpoint replace_go (old new : string) (skip : nat) (s : string) : string :=
  match s with
  | EmptyString => EmptyString
  | String c r =>
      match skip with
      | S k => replace_go old new k r
      | O =>
          if String.prefix old s then new ++ replace_go old new (pred (String.length old)) r
          else String c (replace_go old new O r)
      end
  end.

Fixpoint interleave (new s : string) : string :=
  match s with
  | EmptyString => new
  | String c r => new ++ String c (interleave new r)
  end.

Definition replace (s old new : string) : string :=
  match old with
  | EmptyString => interleave new s
  | _ => replace_go old new O s
  end.

(** The ASCII whitespace [int()] skips around a number. *)
Definition is_space (a : ascii) : bool :=
  let n := nat_of_ascii a in ((9 <=? n) && (n <=? 13) || (n =? 32))%nat.

Fixpoint lstrip (l : list ascii) : list ascii :=
  match l with
  | a :: r => if is_space a then lstrip r else l
  | [] => []
  end.

Definition strip (l : list ascii) : list ascii := rev (lstrip (rev (lstrip l))).

Definition digit_value (a : ascii) : option Z :=
  let n := nat_of_ascii a in
  if ((48 <=? n) && (n <=? 57))%nat then Some (Z.of_nat (n - 48)) else None.

(** Base-10 digits, a single [_] allowed between two digits. *)
Fixpoint parse_digits (l : list ascii) (acc : Z) (after_digit : bool) : option Z :=
  match l with
  | [] => if after_digit then Some acc else None
  | a :: r =>
      match digit_value a with
      | Some d => parse_digits r (acc * 10 + d) true
      | None =>
          if Ascii.eqb a "_" && after_digit then parse_digits r acc false else None
      end
  end.

(** [int(s)] on a string: [None] where Python raises [ValueError]. *)
Definition py_int (s : string) : option Z :=
  match strip (list_ascii_of_string s) with
  | "+"%char :: r => parse_digits r 0 false
  | "-"%char :: r => option_map Z.opp (parse_digits r 0 false)
  | l => parse_digits l 0 false
  end.

(** [version_key]: [int] of each ["."]-separated part, 0 where [int] raises. *)
Definition version_key (version_num : string) : list Z :=
  map (fun part => match py_int part with Some z => z | None => 0 end) (split "." version_num).

(** [a < b] on Python lists of ints. *)
Fixpoint list_ltb (a b : list Z) : bool :=
  match a, b with
  | [], [] => false
  | [], _ :: _ => true
  | _ :: _, [] => false
  | x :: a', y :: b' => ((x <? y)%Z || ((x =? y)%Z && list_ltb a' b'))
  end.

(** An entry of [available_versions]: version number, directory name,
    candidate schema path. *)
Definition entry : Type := string * string * string.

Definition entry_key (e : entry) : list Z := version_key (fst (fst e)).

(** [available_versions.sort(key=version_key, reverse=True)]: descending
    and stable, so entries with equal keys keep their order. *)
Fixpoint insert_desc (e : entry) (l : list entry) : list entry :=
  match l with
  | [] => [e]
  | y :: r => if list_ltb (entry_key y) (entry_key e) then e :: y :: r else y :: insert_desc e r
  end.

Definition sort_desc (l : list entry) : list entry :=
  fold_left (fun acc e => insert_desc e acc) l [].

(** pystac's [STACObjectType]; [OtherType] stands for any other value. *)
Inductive STACObjectType : Type := ITEM | COLLECTION | CATALOG | OtherType (name : string).

(** [str(object_type)] *)
Definition object_type_str (t : STACObjectType) : string :=
  match t with
  | ITEM => "Feature" | COLLECTION => "Collection" | CATALOG => "Catalog"
  | OtherType n => n
  end.

(** [schema_paths[object_type]], relative to [schemas_dir]. *)
Definition schema_path (t : STACObjectType) (stac_version : string) : option string :=
  match t with
  | ITEM => Some ("stac/v" ++ stac_version ++ "/item-spec/json-schema/item.json")
  | COLLECTION => Some ("stac/v" ++ stac_version ++ "/collection-spec/json-schema/collection.json")
  | CATALOG => Some ("stac/v" ++ stac_version ++ "/catalog-spec/json-schema/catalog.json")
  | OtherType _ => None
  end.

(** The schema cache as the method sees it, paths relative to
    [schemas_dir]: which paths exist, the entries of [schemas_dir/stac] in
    the order [glob] lists them, which of them are directories, and
    [f"file://{(schemas_dir / p).absolute()}"]. *)
Record FS := {
  path_exists : string -> bool;
  stac_entries : list string;
  is_dir : string -> bool;
  file_uri : string -> string
}.

(** [stac_dir.glob("v*")] *)
Definition glob_v (fs : FS) : list string :=
  List.filter (fun n => match n with String "v"%char _ => true | _ => false end) (stac_entries fs).

(** [name[1:]] *)
Definition drop1 (n : string) : string :=
  match n with String _ r => r | EmptyString => EmptyString end.

(** The scan that builds [available_versions]. *)
Definition available_versions (fs : FS) (p stac_version : string) : list entry :=
  flat_map (fun name =>
              if is_dir fs name then
                let candidate := replace p ("stac/v" ++ stac_version ++ "/") ("stac/" ++ name ++ "/") in
                if path_exists fs candidate then [(drop1 name, name, candidate)] else []
              else [])
           (glob_v fs).

Inductive error_kind : Type := ValueError | FileNotFoundError.

(** A returned URI with the warning logged on the way, or a raised error. *)
Inductive outcome : Type :=
| Found (uri : string) (warning : option string)
| Raised (kind : error_kind) (msg : string).

(** [LocalSchemaUriMap.get_object_schema_uri] *)
Definition get_object_schema_uri (fs : FS) (t : STACObjectType) (stac_version : string) : outcome :=
  match schema_path t stac_version with
  | None => Raised ValueError ("Unsupported STAC object type: " ++ object_type_str t)
  | Some p =>
      if path_exists fs p then Found (file_uri fs p) None
      else
        match sort_desc (available_versions fs p stac_version) with
        | (_, fallback_version_name, fallback_path) :: _ =>
            Found (file_uri fs fallback_path)
                  (Some ("STAC v" ++ stac_version ++ " not found, using " ++ fallback_version_name))
        | [] =>
            Raised FileNotFoundError
              ("No local STAC schema found for " ++ object_type_str t ++ " v" ++ stac_version
               ++ ". Run 'python scripts/update_stac_schemas.py' to download schemas.")
        end
  end.

End SchemaUriMap.

Module SchemaSamples.
Import SchemaUriMap.
Local Open Scope string_scope.

(** A schema cache holding the Item schema of versions 1.1.0 and 0.9, a
    [v2.0] directory without it, and a [README] file. *)
Definition fs_sample : FS :=
  {| path_exists := fun p =>
       existsb (String.eqb p) ["stac/v1.1.0/item-spec/json-schema/item.json";
                               "stac/v0.9/item-spec/json-schema/item.json"];
     stac_entries := ["v0.9"; "README"; "v1.1.0"; "v2.0"];
     is_dir := fun n => negb (String.eqb n "README");
     file_uri := fun p => "file:///opt/schemas/" ++ p |}.

End SchemaSamples.

Module StacValidator.
Import PyStr SchemaUriMap.
Local Open Scope string_scope.

Inductive outcome : Type :=
| Valid
| Invalid (msg : string).

Definition py_type_name (v : json) : string :=
  match v with
  | JNull => "NoneType" | JBool _ => "bool" | JNum _ => "int" | JStr _ => "str"
  | JArr _ => "list" | JObj _ => "dict"
  end.

(** [v.get(k, default)]: the text of the AttributeError a non-dict raises,
    or the value. *)
Definition get_attr (v : json) (k : string) (default : json) : string + json :=
  match py_get v k default with
  | Some r => inr r
  | None => inl ("'" ++ py_type_name v ++ "' object has no attribute 'get'")
  end.

Definition newline : string := String (ascii_of_nat 10) EmptyString.

Definition MULTIPOLYGON_SCHEMA_URI : string := "https://geojson.org/schema/MultiPolygon.json".

Definition placeholder_geometry : json :=
  JObj [("type", JStr "Point"); ("coordinates", JArr [JNum 0; JNum 0])].

Definition placeholder_bbox : json := JArr [JNum 0; JNum 0; JNum 0; JNum 0].

Section Validator.
(** jsonschema: the errors [Draft7Validator(schema, resolver).iter_errors(instance)]
    lists, for a resolver whose referrer is the first argument;
    [best_match]; [str] of an error. *)
Context {error : Type}.
Variable iter_errors : json -> json -> json -> list error.
Variable best_match : list error -> option error.
Variable error_str : error -> string.
(** [str] of a JSON value, as the message formats the item id. *)
Variable py_str : json -> string.
(** [open] and [json.load] of a schema file: the exception text, or the schema. *)
Variable load_schema : string -> string + json.
(** [self.schema_uri_map.local_resolver.get_store()] *)
Variable store : list (string * json).
(** [super()._validate_from_uri], for URIs that are not local files. *)
Variable super_validate : list (string * json) -> STACObjectType -> string -> option string -> outcome.

Definition str_error (e : option error) : string :=
  match e with Some e => error_str e | None => "None" end.

(** [LocalJsonSchemaValidator._validate_multipolygon] *)
Definition _validate_multipolygon (stac_dict : list (string * json)) (geometry stac_schema : json)
  : outcome :=
  match assoc_get MULTIPOLYGON_SCHEMA_URI store with
  | Some multipolygon_schema =>
      match iter_errors stac_schema multipolygon_schema geometry with
      | [] =>
          let stac_dict_simple_geom :=
            PyHeap.dict_set (PyHeap.dict_set stac_dict "geometry" placeholder_geometry)
              "bbox" placeholder_bbox in
          match iter_errors stac_schema stac_schema (JObj stac_dict_simple_geom) with
          | [] => Valid
          | main_errors =>
              Invalid ("STAC item validation failed (structure): " ++ str_error (best_match main_errors))
          end
      | mp_errors =>
          Invalid ("MultiPolygon geometry validation failed: " ++ str_error (best_match mp_errors))
      end
  | None => Invalid "MultiPolygon schema not found for validation"
  end.

(** [LocalJsonSchemaValidator._validate_from_uri]: a STACValidationError
    raised inside is the [Invalid] outcome; any other exception becomes
    one with the ["Schema validation error: "] prefix. *)
Definition _validate_from_uri (stac_dict : list (string * json)) (stac_object_type : STACObjectType)
  (schema_uri : string) (href : option string) : outcome :=
  if String.prefix "file://" schema_uri then
    let schema_path := replace schema_uri "file://" EmptyString in
    match load_schema schema_path with
    | inl e => Invalid ("Schema validation error: " ++ e)
    | inr main_schema =>
        let geometry := match assoc_get "geometry" stac_dict with Some g => g | None => JObj [] end in
        match get_attr geometry "type" (JStr "unknown") with
        | inl e => Invalid ("Schema validation error: " ++ e)
        | inr geom_type =>
            if match geom_type with JStr t => String.eqb t "MultiPolygon" | _ => false end then
              _validate_multipolygon stac_dict geometry main_schema
            else
              match iter_errors main_schema main_schema (JObj stac_dict) with
              | [] => Valid
              | errors =>
                  let stac_id :=
                    match assoc_get "id" stac_dict with Some JNull | None => None | Some v => Some v end in
                  let msg := "Validation failed for " ++ object_type_str stac_object_type ++ " " in
                  let msg := match href with Some h => msg ++ "at " ++ h ++ " " | None => msg end in
                  let msg := match stac_id with
                             | Some i => msg ++ "with ID " ++ py_str i ++ " "
                             | None => msg
                             end in
                  let msg := msg ++ "against schema at " ++ schema_uri in
                  let msg := match best_match errors with
                             | Some best => msg ++ newline ++ error_str best
                             | None => msg
                             end in
                  Invalid msg
              end
        end
    end
  else super_validate stac_dict stac_object_type schema_uri href.

End Validator.
End StacValidator.

Module ValidatorSamples.
Import StacValidator.
Local Open Scope string_scope.

Definition mp_geometry : list (string * json) :=
  [("type", JStr "MultiPolygon");
   ("coordinates", JArr [JArr [JArr [StacUtils.pair (JNum 0) (JNum 0); StacUtils.pair (JNum 1) (JNum 0);
                                     StacUtils.pair (JNum 1) (JNum 1); StacUtils.pair (JNum 0) (JNum 0)]]])].

(** An Item whose geometry is a MultiPolygon. *)
Definition mp_item : list (string * json) :=
  [("type", JStr "Feature"); ("stac_version", JStr "1.0.0"); ("id", JStr "airports-a");
   ("geometry", JObj mp_geometry); ("bbox", JArr [JNum 0; JNum 0; JNum 1; JNum 1]);
   ("properties", JObj [("datetime", JStr "2024-01-01T00:00:00Z")]);
   ("links", JArr []); ("assets", JObj [])].

Definition item_schema_uri : string :=
  "file:///opt/schemas/stac/v1.0.0/item-spec/json-schema/item.json".

(** A schema store that holds the standalone MultiPolygon schema. *)
Definition store_with_mp : list (string * json) :=
  [(MULTIPOLYGON_SCHEMA_URI, JObj [("title", JStr "GeoJSON MultiPolygon")])].

End ValidatorSamples.

(** The processing-mode setting of [GeoJSONProcessor] and the steps of
    [process] around the two processing modes. *)
Module ProcessFlow.
Import PyStr ProcessorBase Deconstructed.
Local Open Scope string_scope.

(** [c.isspace()] for a character read as a Latin-1 code point (0 to
    255): the control characters 9 to 13 and 28 to 31, the space, NEL
    (U+0085) and NO-BREAK SPACE (U+00A0). *)
Definition isspace (a : ascii) : bool :=
  let n := nat_of_ascii a in
  ((9 <=? n) && (n <=? 13) || (28 <=? n) && (n <=? 32) || (n =? 133) || (n =? 160))%nat.

Fixpoint lstrip_ws (l : list ascii) : list ascii :=
  match l with
  | a :: r => if isspace a then lstrip_ws r else l
  | [] => []
  end.

(** [s.strip()] *)
Definition py_strip (s : string) : string :=
  string_of_list_ascii (rev (lstrip_ws (rev (lstrip_ws (list_ascii_of_string s))))).

Definition DECONSTRUCT_FEATURE_COLLECTIONS : string := "DECONSTRUCT_FEATURE_COLLECTIONS".

(** [value.strip().lower() == "true"] *)
Definition setting_true (value : string) : bool := String.eqb (lower (py_strip value)) "true".

(** [os.getenv("DECONSTRUCT_FEATURE_COLLECTIONS", "false").strip().lower() == "true"]
    in [GeoJSONProcessor.__init__]. *)
Definition env_deconstruct (env : option string) : bool :=
  setting_true (match env with Some v => v | None => "false" end).

(** The [for tag in tags] loop of [_get_deconstruct_setting_from_s3_tag]:
    [None] when the loop raises ([tag.get] on a tag that is not a dict,
    [.strip()] on a value that is not a string). *)
Fixpoint scan_tags (tags : list json) : option (option bool) :=
  match tags with
  | [] => Some None
  | tag :: r =>
      match py_get tag "Key" JNull with
      | None => None
      | Some k =>
          if match k with JStr s => String.eqb s DECONSTRUCT_FEATURE_COLLECTIONS | _ => false end then
            match py_get tag "Value" (JStr EmptyString) with
            | Some (JStr v) => Some (Some (setting_true v))
            | _ => None
            end
          else scan_tags r
      end
  end.

(** [GeoJSONProcessor._get_deconstruct_setting_from_s3_tag], given the
    outcome of [self.s3_manager.get_object_tagging]; every exception is
    caught (the warning it logs is left out) and gives [None]. *)
Definition _get_deconstruct_setting_from_s3_tag (tagging : result (list json)) : option bool :=
  match tagging with
  | Raise _ => None
  | Ok tags => match scan_tags tags with Some v => v | None => None end
  end.

(** [f"{b}"] for a bool. *)
Definition py_bool (b : bool) : string := if b then "True" else "False".

Definition json_is_str (v : json) (s : string) : bool :=
  match v with JStr s' => String.eqb s' s | _ => false end.

Section Process.
Context {Item : Type}.
(** [self.sns_request.image_uri] and [self.sns_request.collection_id]. *)
Variable image_uri collection_id : string.
(** [S3Url(self.sns_request.image_uri)] and its [url]. *)
Variable s3_url : GeoJSONDocument.S3Url.
Variable url : string.
(** The value of the environment variable, if set. *)
Variable env : option string.
(** [self.s3_manager.get_object_tagging(bucket, key)] *)
Variable get_object_tagging : GeoJSONDocument.S3Url -> result (list json).
(** [self.s3_manager.download_file(s3_url)]: a local path or [None]. *)
Variable download_file : GeoJSONDocument.S3Url -> result (option string).
(** [open] and [json.load] of a file. *)
Variable load_json : string -> result json.
(** [os.remove(file_path)] *)
Variable remove_file : string -> result unit.
(** [self._create_stac_item_from_geojson(geojson_data, s3_url, collection_id)] *)
Variable _create_stac_item_from_geojson : json -> string -> result Item.
Variable validate_stac_item : Item -> result unit.
(** [json.dumps(stac_item_dict)] and [stac_item_dict['id']]. *)
Variable item_message : Item -> result (string * string).
Variable publish_message : string -> string -> result unit.
(** [self._process_deconstructed(features, s3_url, collection_id)]: the
    state it leaves and its response, or the exception it raises. *)
Variable _process_deconstructed : json -> string -> state -> state * result response.
Variable stack_trace : list string.

(** [GeoJSONProcessor._download_and_parse_geojson] *)
Definition _download_and_parse_geojson (st : state) : state * result json :=
  let wrap (e : exn) :=
    Raise (ValueError ("Failed to download or parse GeoJSON file: " ++ exn_str e)) in
  match download_file s3_url with
  | Raise e => (st, wrap e)
  | Ok None => (st, wrap (ValueError ("Failed to download GeoJSON file from " ++ url)))
  | Ok (Some file_path) =>
      match load_json file_path with
      | Raise e => (st, wrap e)
      | Ok geojson_data =>
          match remove_file file_path with
          | Raise e =>
              (log st (LogWarning ("Could not remove temp file " ++ file_path ++ ": " ++ exn_str e)),
               Ok geojson_data)
          | Ok _ => (st, Ok geojson_data)
          end
      end
  end.

(** [GeoJSONProcessor._process_single] *)
Definition _process_single (geojson_data : json) (cid : string) (st : state) : state * result response :=
  match _create_stac_item_from_geojson geojson_data cid with
  | Raise e => (st, Raise e)
  | Ok stac_item =>
      match validate_stac_item stac_item with
      | Raise (StacValidationError m) =>
          (log st (LogError ("STAC item validation failed: " ++ m)),
           Ok (failure_message stack_trace (StacValidationError m)))
      | Raise e => (st, Raise e)
      | Ok _ =>
          match item_message stac_item with
          | Raise e => (st, Raise e)
          | Ok (body, item_id) =>
              match publish_message body ("STAC Item: " ++ item_id) with
              | Raise e => (st, Raise e)
              | Ok _ =>
                  (publish st (body, "STAC Item: " ++ item_id),
                   Ok (success_message "GeoJSON processed successfully: 1/1 STAC items published"))
              end
          end
      end
  end.

(** The [except Exception as err: return self.failure_message(err)] of [process]. *)
Definition finish (r : state * result response) : state * response :=
  (fst r, match snd r with Raise e => failure_message stack_trace e | Ok resp => resp end).

(** [GeoJSONProcessor.process] *)
Definition process (st : state) : state * response :=
  let st := log st (LogInfo ("Processing GeoJSON file: " ++ image_uri)) in
  let tag_value := _get_deconstruct_setting_from_s3_tag (get_object_tagging s3_url) in
  let deconstruct := match tag_value with Some b => b | None => env_deconstruct env end in
  let st := match tag_value with
            | Some b => log st (LogInfo ("Using S3 tag DECONSTRUCT_FEATURE_COLLECTIONS=" ++ py_bool b))
            | None => st
            end in
  let (st, downloaded) := _download_and_parse_geojson st in
  match downloaded with
  | Raise e => (st, failure_message stack_trace e)
  | Ok geojson_data =>
      let cid := GeoJSONProcessor.resolve_collection_id collection_id (GeoJSONDocument.key s3_url) in
      let st := log st (LogInfo ("Using collection: " ++ cid)) in
      if deconstruct then
        match StacValidator.get_attr geojson_data "type" JNull with
        | inl m => (st, failure_message stack_trace (OtherError m))
        | inr t =>
            if json_is_str t "FeatureCollection" then
              match StacValidator.get_attr geojson_data "features" (JArr []) with
              | inl m => (st, failure_message stack_trace (OtherError m))
              | inr features => finish (_process_deconstructed features cid st)
              end
            else finish (_process_single geojson_data cid st)
        end
      else finish (_process_single geojson_data cid st)
  end.

End Process.
End ProcessFlow.

(** [GeoJSONProcessor._create_stac_item], the per-feature item of
    decomposed mode. *)
Module FeatureItem.
Import PyHeap StacUtils GeoJSONDocument.
Local Open Scope string_scope.

(** The heap after the call and the item; the feature is handed to
    [generate_deterministic_id] as the document it denotes. *)
Definition _create_stac_item (h : heap) (feature : pyval) (s3_url : S3Url) (collection_id now : string)
  : option (heap * json) :=
  match GeoJSONProcessor.generate_deterministic_id (read h feature) collection_id (key s3_url) with
  | None => None
  | Some item_id =>
      match dget h feature "geometry" VNull, dget h feature "properties" VNull with
      | Some g, Some p0 =>
          let geometry := geometry_or_empty h g in
          let bbox := calculate_bbox_from_geometry geometry in
          let (h1, properties) := or_new_dict h p0 in
          match _build_stac_item h1 item_id geometry bbox properties collection_id s3_url now with
          | None => None
          | Some item => Some (h1, item)
          end
      | _, _ => None
      end
  end.

End FeatureItem.

(** [LocalReferenceResolver]: the schema store of the validator. *)
Module SchemaStore.
Local Open Scope string_scope.

Section Store.
(** The schema cache, paths relative to [schemas_dir]: which paths exist;
    [open] and [json.load] of a file (the exception text, or the
    document); the names [stac_dir.glob("v*")] lists and which of them
    are directories; the [.json] files [rglob] finds below a version
    directory, relative to [stac_dir]. *)
Variable path_exists : string -> bool.
Variable load : string -> string + json.
Variable stac_glob_v : list string.
Variable is_dir : string -> bool.
Variable rglob_json : string -> list string.

Definition geojson_geometry_types : list string :=
  ["Feature"; "Geometry"; "FeatureCollection"; "Point"; "LineString"; "Polygon"; "MultiPoint";
   "MultiLineString"; "MultiPolygon"].

Definition geojson_mappings : list (string * string) :=
  map (fun name => ("https://geojson.org/schema/" ++ name ++ ".json", "geojson/" ++ name ++ ".json"))
      geojson_geometry_types.

(** One iteration of the [for remote_uri, local_path in
    geojson_mappings.items()] loop of [_load_geojson_schemas]. *)
Definition load_geojson_schema (acc : list (string * json) * list string) (m : string * string)
  : list (string * json) * list string :=
  let '(store, missing) := acc in
  let '(remote_uri, local_path) := m in
  if path_exists local_path then
    match load local_path with
    | inr schema_data => (PyHeap.dict_set store remote_uri schema_data, missing)
    | inl err => (store, app missing [remote_uri ++ " -> " ++ local_path ++ " (error: " ++ err ++ ")"])
    end
  else (store, app missing [remote_uri ++ " -> " ++ local_path ++ " (missing)"]).

(** [_load_geojson_schemas]: the store and [missing_schemas]. *)
Definition _load_geojson_schemas (store : list (string * json)) : list (string * json) * list string :=
  fold_left load_geojson_schema geojson_mappings (store, []).

(** One iteration of [for schema_file in version_dir.rglob("*.json")]. *)
Definition load_stac_schema (store : list (string * json)) (rel : string) : list (string * json) :=
  match load ("stac/" ++ rel) with
  | inr schema_data => PyHeap.dict_set store ("https://schemas.stacspec.org/" ++ rel) schema_data
  | inl _ => store
  end.

(** One iteration of [for version_dir in stac_dir.glob("v*")]. *)
Definition load_stac_version (store : list (string * json)) (name : string) : list (string * json) :=
  if is_dir name then fold_left load_stac_schema (rglob_json name) store else store.

(** [_load_stac_schemas] *)
Definition _load_stac_schemas (store : list (string * json)) : list (string * json) :=
  if path_exists "stac" then fold_left load_stac_version stac_glob_v store else store.

(** [_build_store], then [get_store()]. *)
Definition get_store : list (string * json) := _load_stac_schemas (fst (_load_geojson_schemas [])).

End Store.
End SchemaStore.

(** The module-level [validate_stac_item] of stac_validator.py. *)
Module ValidateItem.
Import ProcessorBase Deconstructed.
Local Open Scope string_scope.

(** The argument: a JSON string, or a dict (an [Item] is a dict). *)
Inductive item_input : Type :=
| ItemStr (s : string)
| ItemDict (kvs : list (string * json)).

(** What pystac's [validate_core] raises: its STACValidationError, or any
    other exception (the schema lookup's FileNotFoundError, ...). *)
Inductive core_error : Type :=
| CoreValidation (msg : string)
| CoreOther (e : exn).

Section Validate.
(** [json.loads]: the JSONDecodeError text, or the document. *)
Variable json_loads : string -> string + json.
(** [_get_schemas_directory()], [LocalSchemaUriMap(...)],
    [LocalJsonSchemaValidator(...)] and
    [validator.validate_core(item, STACObjectType.ITEM, stac_version)]. *)
Variable validate_core : list (string * json) -> json -> option core_error.

Definition validate_stac_item (item : item_input) : result unit :=
  let parsed :=
    match item with
    | ItemStr s =>
        match json_loads s with
        | inl err => inl ("Invalid JSON: " ++ err)
        | inr j => inr j
        end
    | ItemDict kvs => inr (JObj kvs)
    end in
  match parsed with
  | inl m => Raise (StacValidationError m)
  | inr (JObj kvs) =>
      let stac_version := match assoc_get "stac_version" kvs with Some v => v | None => JStr "1.0.0" end in
      match validate_core kvs stac_version with
      | None => Ok tt
      | Some (CoreValidation m) => Raise (StacValidationError ("STAC validation failed: " ++ m))
      | Some (CoreOther e) => Raise e
      end
  | inr j => Raise (OtherError ("'" ++ StacValidator.py_type_name j ++ "' object has no attribute 'get'"))
  end.

End Validate.
End ValidateItem.

(** intake_handler.py: the Lambda entry point that routes a message to
    the image or the GeoJSON processor. *)
Module IntakeHandler.
Import PyStr ProcessorBase Deconstructed.
Local Open Scope string_scope.

Definition IMAGE_EXTENSIONS : list string :=
  [".tif"; ".tiff"; ".ntf"; ".nitf"; ".jp2"; ".j2k"; ".png"; ".jpg"; ".jpeg"; ".img"].

Definition GEOJSON_EXTENSIONS : list string := [".geojson"; ".json"].

(** [Path(uri).name] on POSIX: the last component, the empty and ["."]
    components being dropped when the path is parsed. *)
Definition path_name (uri : string) : string :=
  List.last (List.filter (fun s => negb (String.eqb s EmptyString || String.eqb s ".")) (split "/" uri))
       EmptyString.

(** Splitting a reversed name at its last ["."]: the characters after the
    dot and those before it, both reversed. *)
Fixpoint split_last_dot (rl : list ascii) : option (list ascii * list ascii) :=
  match rl with
  | [] => None
  | a :: r =>
      if Ascii.eqb a "." then Some ([], r)
      else option_map (fun p => (a :: fst p, snd p)) (split_last_dot r)
  end.

(** [PurePath.suffix]: [name[i:]] for [i = name.rfind(".")] when
    [0 < i < len(name) - 1], otherwise the empty string. *)
Definition suffix (name : string) : string :=
  match split_last_dot (rev (list_ascii_of_string name)) with
  | Some (after_rev, before_rev) =>
      match before_rev, after_rev with
      | _ :: _, _ :: _ => String "." (string_of_list_ascii (rev after_rev))
      | _, _ => EmptyString
      end
  | None => EmptyString
  end.

Section Handler.
(** [str(IMAGE_EXTENSIONS | GEOJSON_EXTENSIONS)]: the order in which a
    set is printed is not fixed by the program. *)
Variable supported_extensions : string.

(** [detect_file_type] *)
Definition detect_file_type (uri : string) : result string :=
  let ext := lower (suffix (path_name uri)) in
  if existsb (String.eqb ext) IMAGE_EXTENSIONS then Ok "image"
  else if existsb (String.eqb ext) GEOJSON_EXTENSIONS then Ok "geojson"
  else Raise (ValueError ("Unsupported file type: '" ++ ext ++ "'. Supported extensions: "
                          ++ supported_extensions)).

(** [json.loads(message)] *)
Variable json_loads : string -> result json.
(** [ImageProcessor(message).process()] and [GeoJSONProcessor(message).process()] *)
Variable image_process geojson_process : string -> response.

(** [handler], from the SNS message [event["Records"][0]["Sns"]["Message"]]. *)
Definition handler (message : string) : result response :=
  match json_loads message with
  | Raise e => Raise e
  | Ok message_data =>
      match py_get message_data "image_uri" (JStr EmptyString) with
      | None =>
          Raise (OtherError ("'" ++ StacValidator.py_type_name message_data
                             ++ "' object has no attribute 'get'"))
      | Some file_uri =>
          if negb (truthy file_uri) then
            Ok {| statusCode := 400; body := JObj [("error", JStr "Missing required field: image_uri")] |}
          else
            match file_uri with
            | JStr uri =>
                match detect_file_type uri with
                | Raise (ValueError m) => Ok {| statusCode := 400; body := JObj [("error", JStr m)] |}
                | Raise e => Raise e
                | Ok file_type =>
                    if String.eqb file_type "image" then Ok (image_process message)
                    else if String.eqb file_type "geojson" then Ok (geojson_process message)
                    else Raise (OtherError ("Unexpected file type: " ++ file_type))
                end
            | v =>
                Raise (OtherError ("expected str, bytes or os.PathLike object, not "
                                   ++ StacValidator.py_type_name v))
            end
      end
  end.

End Handler.
End IntakeHandler.

(** Shapes of results used by the statements below. *)
Module ExtraSpec.
Local Open Scope string_scope.

(** [item[k]] of a STAC item. *)
Definition item_field (item : json) (k : string) : option json :=
  match item with JObj kvs => assoc_get k kvs | _ => None end.

(** [properties.get(k)] on the caller's dict. *)
Definition pget (kvs : list (string * PyHeap.pyval)) (k : string) : PyHeap.pyval :=
  match assoc_get k kvs with Some v => v | None => PyHeap.VNull end.

(** Every character of [s] satisfies [p]. *)
Definition all_chars (p : ascii -> bool) (s : string) : bool :=
  forallb p (list_ascii_of_string s).



End ExtraSpec.

(** Collaborator results for running [process]: an S3 tag set that turns
    decomposed mode on, and an empty FeatureCollection. *)
Module FlowSamples.
Import Deconstructed.
Local Open Scope string_scope.

Definition sample_tags : result (list json) :=
  Ok [JObj [("Key", JStr "DECONSTRUCT_FEATURE_COLLECTIONS"); ("Value", JStr " TRUE ")]].

Definition sample_doc : list (string * json) :=
  [("type", JStr "FeatureCollection"); ("features", JArr [])].

End FlowSamples.

(** * Proofs *)

Module GeoFacts.
Import StacUtils Geo.

(** Induction over geometries, with the members of a collection. *)
Lemma geometry_ind_deep (P : geometry -> Prop)
  (HPt : forall p, P (Point p))
  (HLs : forall ps, P (LineString ps))
  (HMp : forall ps, P (MultiPoint ps))
  (HPg : forall rs, P (Polygon rs))
  (HMl : forall rs, P (MultiLineString rs))
  (HMpg : forall pss, P (MultiPolygon pss))
  (HGc : forall gs, Forall P gs -> P (GeometryCollection gs)) :
  forall g, P g.
Proof.
  fix IH 1. intros [p|ps|ps|rs|rs|pss|gs].
  1-6: clear IH; auto.
  apply HGc. induction gs as [|g gs IHgs]; constructor; [apply IH | exact IHgs].
Qed.

Lemma map_opt_map {A B C} (f : B -> option C) (g : A -> B) (h : A -> C) (l : list A) :
  (forall x, f (g x) = Some (h x)) -> map_opt f (map g l) = Some (map h l).
Proof.
  intros Hf. induction l as [|x l IHl]; simpl; [reflexivity|].
  rewrite Hf, IHl. reflexivity.
Qed.

Lemma flat_map_opt_map {A B C} (f : B -> option (list C)) (g : A -> B) (h : A -> list C) (l : list A) :
  (forall x, f (g x) = Some (h x)) -> flat_map_opt f (map g l) = Some (List.concat (map h l)).
Proof.
  intros Hf. induction l as [|x l IHl]; simpl; [reflexivity|].
  rewrite Hf, IHl. reflexivity.
Qed.

Lemma map_concat {A B} (f : A -> B) (l : list (list A)) :
  map f (List.concat l) = List.concat (map (map f) l).
Proof.
  induction l as [|x l IHl]; simpl; [reflexivity|]. rewrite map_app, IHl. reflexivity.
Qed.

Lemma extract_rings (rs : list (list position)) :
  flat_map_opt py_iter (map ring_to_json rs) = Some (map position_to_json (List.concat rs)).
Proof.
  rewrite map_concat. apply flat_map_opt_map. intros r. reflexivity.
Qed.

(** The coordinates the code extracts from a geometry are exactly the
    JSON form of its flattened positions. *)
Lemma extract_geometry (g : geometry) :
  _extract_coordinates (geometry_to_json g) = Some (map position_to_json (flatten g)).
Proof.
  induction g as [p|ps|ps|rs|rs|pss|gs IH] using geometry_ind_deep; try reflexivity.
  - cbn -[flat_map_opt]. apply extract_rings.
  - cbn -[flat_map_opt]. apply extract_rings.
  - cbn -[flat_map_opt].
    rewrite map_concat, (flat_map_opt_map _ _ (fun rs => List.concat (map (map position_to_json) rs))).
    + f_equal. induction pss as [|rs pss IHp]; simpl; [reflexivity|].
      rewrite IHp, map_concat. reflexivity.
    + intros rs. cbn -[flat_map_opt].
      rewrite extract_rings, map_concat. reflexivity.
  - simpl. induction IH as [|g gs Hg Hgs IHgs]; simpl; [reflexivity|].
    rewrite Hg, IHgs, map_app. reflexivity.
Qed.

Lemma fold_min_bounds (l : list Z) (x : Z) :
  fold_left Z.min l x <= x /\ Forall (fun y => fold_left Z.min l x <= y) l /\
  (fold_left Z.min l x = x \/ In (fold_left Z.min l x) l).
Proof.
  revert x. induction l as [|y l IHl]; intros x; simpl.
  - repeat split; auto; lia.
  - destruct (IHl (Z.min x y)) as (H1 & H2 & H3). repeat split.
    + lia.
    + constructor; [lia | exact H2].
    + destruct H3 as [H3|H3]; [|tauto]. rewrite H3. destruct (Z.min_spec x y); lia.
Qed.

Lemma fold_max_bounds (l : list Z) (x : Z) :
  x <= fold_left Z.max l x /\ Forall (fun y => y <= fold_left Z.max l x) l /\
  (fold_left Z.max l x = x \/ In (fold_left Z.max l x) l).
Proof.
  revert x. induction l as [|y l IHl]; intros x; simpl.
  - repeat split; auto; lia.
  - destruct (IHl (Z.max x y)) as (H1 & H2 & H3). repeat split.
    + lia.
    + constructor; [lia | exact H2].
    + destruct H3 as [H3|H3]; [|tauto]. rewrite H3. destruct (Z.max_spec x y); lia.
Qed.

Lemma fold_min_env {A} (f : A -> Z) (p : A) (ps : list A) :
  (forall q, In q (p :: ps) -> fold_left Z.min (map f ps) (f p) <= f q) /\
  exists q, In q (p :: ps) /\ f q = fold_left Z.min (map f ps) (f p).
Proof.
  destruct (fold_min_bounds (map f ps) (f p)) as (H1 & H2 & H3). split.
  - intros q [<-|Hq]; [exact H1|].
    rewrite List.Forall_forall in H2. apply H2, in_map, Hq.
  - destruct H3 as [H3|H3].
    + exists p. split; [left; reflexivity | symmetry; exact H3].
    + apply in_map_iff in H3 as (q & Hq & Hin). exists q. split; [right; exact Hin | exact Hq].
Qed.

Lemma fold_max_env {A} (f : A -> Z) (p : A) (ps : list A) :
  (forall q, In q (p :: ps) -> f q <= fold_left Z.max (map f ps) (f p)) /\
  exists q, In q (p :: ps) /\ f q = fold_left Z.max (map f ps) (f p).
Proof.
  destruct (fold_max_bounds (map f ps) (f p)) as (H1 & H2 & H3). split.
  - intros q [<-|Hq]; [exact H1|].
    rewrite List.Forall_forall in H2. apply H2, in_map, Hq.
  - destruct H3 as [H3|H3].
    + exists p. split; [left; reflexivity | symmetry; exact H3].
    + apply in_map_iff in H3 as (q & Hq & Hin). exists q. split; [right; exact Hin | exact Hq].
Qed.

(** On numbers, Python's [min] and [max] are [Z.min] and [Z.max]. *)
Lemma min_loop_num (r : list Z) (x : Z) :
  min_max_loop (fun item kept => py_lt item kept) (JNum x) (map JNum r) =
  Some (JNum (fold_left Z.min r x)).
Proof.
  revert x. induction r as [|y r IH]; intros x; [reflexivity|].
  cbn [map min_max_loop py_lt py_num]. destruct (Z.ltb_spec y x); rewrite IH; simpl.
  - replace (Z.min x y) with y by lia. reflexivity.
  - replace (Z.min x y) with x by lia. reflexivity.
Qed.

Lemma max_loop_num (r : list Z) (x : Z) :
  min_max_loop (fun item kept => py_lt kept item) (JNum x) (map JNum r) =
  Some (JNum (fold_left Z.max r x)).
Proof.
  revert x. induction r as [|y r IH]; intros x; [reflexivity|].
  cbn [map min_max_loop py_lt py_num]. destruct (Z.ltb_spec x y); rewrite IH; simpl.
  - replace (Z.max x y) with y by lia. reflexivity.
  - replace (Z.max x y) with x by lia. reflexivity.
Qed.

Lemma py_min_num (x : Z) (r : list Z) :
  py_min (map JNum (x :: r)) = Some (JNum (fold_left Z.min r x)).
Proof. apply min_loop_num. Qed.

Lemma py_max_num (x : Z) (r : list Z) :
  py_max (map JNum (x :: r)) = Some (JNum (fold_left Z.max r x)).
Proof. apply max_loop_num. Qed.

Lemma bbox_from_positions (p : position) (ps : list position) :
  calculate_bbox_from_coords (map position_to_json (p :: ps)) =
  Some (map JNum [fold_left Z.min (map lon ps) (lon p); fold_left Z.min (map lat ps) (lat p);
                  fold_left Z.max (map lon ps) (lon p); fold_left Z.max (map lat ps) (lat p)]).
Proof.
  unfold calculate_bbox_from_coords.
  rewrite (map_opt_map _ _ (fun q => JNum (lon q))) by reflexivity.
  rewrite (map_opt_map _ _ (fun q => JNum (lat q))) by reflexivity.
  rewrite <- !(map_map _ JNum (p :: ps)).
  change (map lon (p :: ps)) with (lon p :: map lon ps).
  change (map lat (p :: ps)) with (lat p :: map lat ps).
  rewrite !py_min_num, !py_max_num. reflexivity.
Qed.

Lemma bbox_envelope (p : position) (ps : list position) :
  is_envelope (p :: ps)
    (fold_left Z.min (map lon ps) (lon p)) (fold_left Z.min (map lat ps) (lat p))
    (fold_left Z.max (map lon ps) (lon p)) (fold_left Z.max (map lat ps) (lat p)).
Proof.
  destruct (fold_min_env lon p ps) as [A1 A2].
  destruct (fold_min_env lat p ps) as [B1 B2].
  destruct (fold_max_env lon p ps) as [C1 C2].
  destruct (fold_max_env lat p ps) as [D1 D2].
  split; [|split; [|split; [|split]]].
  - intros q Hq. specialize (A1 q Hq); specialize (B1 q Hq); specialize (C1 q Hq);
      specialize (D1 q Hq). lia.
  - destruct A2 as (q & ? & ?). eauto.
  - destruct B2 as (q & ? & ?). eauto.
  - destruct C2 as (q & ? & ?). eauto.
  - destruct D2 as (q & ? & ?). eauto.
Qed.

End GeoFacts.

Example bbox_line :
  StacUtils.calculate_bbox_from_geometry
    (JObj [("type", JStr "LineString");
           ("coordinates", JArr [StacUtils.pair (JNum 3) (JNum 4); StacUtils.pair (JNum (-1)) (JNum 7)])])
  = [JNum (-1); JNum 4; JNum 3; JNum 7].
Proof. reflexivity. Qed.

Module BBoxClaims.
Import StacUtils Geo GeoFacts.

Lemma bbox_length (j : json) : length (calculate_bbox_from_geometry j) = 4%nat.
Proof.
  unfold calculate_bbox_from_geometry.
  destruct (_extract_coordinates j) as [[|c cs]|]; try reflexivity.
  unfold calculate_bbox_from_coords.
  destruct (map_opt _ (c :: cs)) as [lons|]; [|reflexivity].
  destruct (map_opt _ (c :: cs)) as [lats|]; [|reflexivity].
  destruct (py_min lons), (py_min lats), (py_max lons), (py_max lats); reflexivity.
Qed.

Lemma bbox_unknown_type (kvs : list (string * json)) :
  known_type (assoc_get "type" kvs) = false ->
  calculate_bbox_from_geometry (JObj kvs) = WORLD_BOUNDS_BBOX.
Proof.
  unfold known_type. simpl. intros H.
  repeat match type of H with
         | (?a || ?b) = false => apply orb_false_elim in H; destruct H as [?H H]
         end.
  unfold calculate_bbox_from_geometry. cbn [_extract_coordinates].
  repeat match goal with Hx : ?e = false |- _ => rewrite Hx; clear Hx end.
  reflexivity.
Qed.

(** C1: [calculate_bbox_from_geometry] returns a four-entry box for any
    JSON input, never raising. For a GeoJSON geometry it is the
    component-wise envelope of the positions flattened from it (Point as
    itself, LineString/MultiPoint directly, Polygon/MultiLineString one
    ring level, MultiPolygon two levels, collections member by member at
    any depth), and the world bounds [-180, -90, 180, 90] when no position
    can be extracted. A null geometry and an unrecognised geometry type
    also give the world bounds. *)
Theorem calculate_bbox_from_geometry_envelope :
  (forall j : json, length (calculate_bbox_from_geometry j) = 4%nat) /\
  (forall g : geometry,
     match flatten g with
     | [] => calculate_bbox_from_geometry (geometry_to_json g) = WORLD_BOUNDS_BBOX
     | _ :: _ =>
         exists a b c d : Z,
           calculate_bbox_from_geometry (geometry_to_json g) = [JNum a; JNum b; JNum c; JNum d] /\
           is_envelope (flatten g) a b c d
     end) /\
  calculate_bbox_from_geometry JNull = WORLD_BOUNDS_BBOX /\
  (forall kvs : list (string * json),
     known_type (assoc_get "type" kvs) = true \/
     calculate_bbox_from_geometry (JObj kvs) = WORLD_BOUNDS_BBOX).
Proof.
  split; [exact bbox_length|]. split; [|split; [reflexivity|]].
  - intros g. unfold calculate_bbox_from_geometry. rewrite extract_geometry.
    destruct (flatten g) as [|p ps] eqn:Hf; [reflexivity|].
    rewrite bbox_from_positions. do 4 eexists. split; [reflexivity|]. apply bbox_envelope.
  - intros kvs. destruct (known_type (assoc_get "type" kvs)) eqn:Hk; [left; reflexivity|].
    right. apply bbox_unknown_type, Hk.
Qed.

End BBoxClaims.

Module PolygonClaims.
Import StacUtils.

(** C10: for a bbox with [min_lon <= max_lon] and [min_lat <= max_lat],
    [geometry_from_bbox] gives a Polygon with one ring of five positions
    whose first and last positions are equal, and
    [calculate_bbox_from_geometry] of that polygon is the bbox again. *)
Theorem geometry_from_bbox_roundtrip (min_lon min_lat max_lon max_lat : Z)
  (Hlon : min_lon <= max_lon) (Hlat : min_lat <= max_lat) :
  exists ring : list json,
    geometry_from_bbox [JNum min_lon; JNum min_lat; JNum max_lon; JNum max_lat] =
      Some (JObj [("type", JStr "Polygon"); ("coordinates", JArr [JArr ring])]) /\
    length ring = 5%nat /\
    hd_error ring = last ring /\
    calculate_bbox_from_geometry (JObj [("type", JStr "Polygon"); ("coordinates", JArr [JArr ring])])
      = [JNum min_lon; JNum min_lat; JNum max_lon; JNum max_lat].
Proof.
  eexists. split; [reflexivity|]. split; [reflexivity|]. split; [reflexivity|].
  set (pos := fun x y => Geo.mkpos x y []).
  change (JObj [("type", JStr "Polygon"); ("coordinates", JArr [JArr _])]) with
    (Geo.geometry_to_json (Geo.Polygon [[pos min_lon min_lat; pos max_lon min_lat;
       pos max_lon max_lat; pos min_lon max_lat; pos min_lon min_lat]])).
  unfold calculate_bbox_from_geometry. rewrite GeoFacts.extract_geometry.
  cbn [Geo.flatten List.concat app]. rewrite GeoFacts.bbox_from_positions.
  cbn. repeat f_equal; lia.
Qed.

Lemma geometry_from_bbox_roundtrip_witness :
  (-10 <= 20 /\ 5 <= 5) /\
  exists ring : list json,
    geometry_from_bbox [JNum (-10); JNum 5; JNum 20; JNum 5] =
      Some (JObj [("type", JStr "Polygon"); ("coordinates", JArr [JArr ring])]) /\
    length ring = 5%nat /\
    hd_error ring = last ring /\
    calculate_bbox_from_geometry (JObj [("type", JStr "Polygon"); ("coordinates", JArr [JArr ring])])
      = [JNum (-10); JNum 5; JNum 20; JNum 5].
Proof.
  split; [lia|]. apply (geometry_from_bbox_roundtrip (-10) 5 20 5); lia.
Defined.

End PolygonClaims.

Example sha256_abc :
  Digest.hexdigest (Digest.sha256 (Digest.encode_ascii "abc")) =
  "ba7816bf8f01cfea414140de5dae2223b00361a396177a9cb410ff61f20015ad"%string.
Proof. vm_compute. reflexivity. Qed.

Example sha256_empty :
  Digest.hexdigest (Digest.sha256 []) =
  "e3b0c44298fc1c149afbf4c8996fb92427ae41e4649b934ca495991b7852b855"%string.
Proof. vm_compute. reflexivity. Qed.

Module IdClaims.
Import GeoJSONProcessor IdSpec Samples.
Local Open Scope string_scope.

(** C2 (code_bug): for a feature whose id is the number 0, the code
    leaves [feature_id] out of the hashed document, because it tests the
    id for truthiness ([if feature.get("id"):]), while the readable part
    of the identifier does use the id ("0"). The spec hashes [feature_id]
    whenever the id is present, which gives a different suffix. The
    strings agree with Python's [json.dumps] and [hashlib.sha256]. *)
Theorem generate_deterministic_id_zero_id :
  generate_deterministic_id feature0 "airports" "uploads/airports/a.geojson"
    = Some "airports-0-2aada9301474" /\
  spec_deterministic_id feature0_kvs "airports" "uploads/airports/a.geojson"
    = "airports-0-de7af8a58da1".
Proof. split; vm_compute; reflexivity. Qed.

End IdClaims.

Module CollectionClaims.
Import GeoJSONProcessor CollectionSpec.
Local Open Scope string_scope.

(** C9 (code_bug): with the sentinel collection id, a key at the bucket
    root named "Airports.GEOJSON" passes the case-insensitive
    [.lower().endswith(".geojson")] test, but the case-sensitive
    [removesuffix(".geojson")] leaves it whole, so the collection is
    "airports.geojson" instead of the file name stem "airports". *)
Theorem extract_collection_from_key_upper_suffix :
  resolve_collection_id "OSML" "Airports.GEOJSON" = "airports.geojson" /\
  spec_collection_from_key "Airports.GEOJSON" = "airports".
Proof. split; vm_compute; reflexivity. Qed.

End CollectionClaims.

Module MutationClaims.
Import PyHeap GeoJSONDocument Samples.
Local Open Scope string_scope.

(** C8 (code_bug): in whole-document mode the FeatureCollection branch
    takes the caller's [properties] dict itself ([geojson_data.get(
    "properties") or {}]) and calls [setdefault] on it, so after the call
    the caller's document carries a [feature_count] it did not have. *)
Theorem create_stac_item_mutates_caller_properties :
  fc_heap !! 2%positive = Some [("name", VStr "airports")] /\
  match _create_stac_item_from_geojson fc_heap (VDict 1) s3_sample "airports" "item-1" "now" with
  | Some (h', _) => h' !! 2%positive = Some [("name", VStr "airports"); ("feature_count", VNum 1)]
  | None => False
  end.
Proof. split; vm_compute; reflexivity. Qed.

End MutationClaims.

Module CollectionBBoxClaims.
Import PyHeap StacUtils GeoJSONDocument CollectionBBoxSpec GeoFacts.














End CollectionBBoxClaims.

Module FeatureCountClaims.
Import PyHeap StacUtils GeoJSONDocument FeatureCountSpec CollectionBBoxSpec.
Local Open Scope string_scope.

Lemma assoc_get_dict_set (k k' : string) (v : json) (acc : list (string * json)) :
  assoc_get k (dict_set acc k' v) = if String.eqb k k' then Some v else assoc_get k acc.
Proof.
  induction acc as [|[k0 v0] r IH]; simpl.
  - destruct (String.eqb k k'); reflexivity.
  - destruct (String.eqb k' k0) eqn:E.
    + apply String.eqb_eq in E; subst k0. simpl.
      destruct (String.eqb k k'); reflexivity.
    + simpl. rewrite IH. destruct (String.eqb k k0) eqn:E2; [|reflexivity].
      apply String.eqb_eq in E2; subst k0.
      rewrite String.eqb_sym, E. reflexivity.
Qed.

Lemma assoc_get_not_in {A} (k : string) (kvs : list (string * A)) :
  k ∉ map fst kvs -> assoc_get k kvs = None.
Proof.
  induction kvs as [|[k0 v0] r IH]; intros Hn; simpl; [reflexivity|].
  destruct (String.eqb k k0) eqn:E.
  - apply String.eqb_eq in E; subst k0. exfalso. apply Hn. simpl. left.
  - apply IH. intros Hin. apply Hn. simpl. right. exact Hin.
Qed.

Lemma assoc_get_app_none {A} (k k' : string) (v : A) (kvs : list (string * A)) :
  assoc_get k' kvs = None ->
  assoc_get k (kvs ++ [(k', v)])%list =
    if String.eqb k k' then Some v else assoc_get k kvs.
Proof.
  induction kvs as [|[k0 v0] r IH]; intros Hn; simpl in *.
  - destruct (String.eqb k k'); reflexivity.
  - destruct (String.eqb k' k0) eqn:E; [discriminate|].
    destruct (String.eqb k k0) eqn:E2; [|apply IH, Hn].
    apply String.eqb_eq in E2; subst k0.
    destruct (String.eqb k k') eqn:E3; [|reflexivity].
    apply String.eqb_eq in E3; subst k'. rewrite String.eqb_refl in E. discriminate.
Qed.

Lemma assoc_get_app_some {A} (k k' : string) (v w : A) (kvs : list (string * A)) :
  assoc_get k kvs = Some w -> assoc_get k (kvs ++ [(k', v)])%list = Some w.
Proof.
  induction kvs as [|[k0 v0] r IH]; intros Hs; simpl in *; [discriminate|].
  destruct (String.eqb k k0); [exact Hs|apply IH, Hs].
Qed.

Lemma nodup_app_none {A} (k : string) (v : A) (kvs : list (string * A)) :
  NoDup (map fst kvs) -> assoc_get k kvs = None -> NoDup (map fst (kvs ++ [(k, v)])%list).
Proof.
  induction kvs as [|[k0 v0] r IH]; intros Hnd Hn; simpl in *.
  - constructor; [apply not_elem_of_nil|constructor].
  - inversion Hnd as [|? ? Hnin Hnd']; subst.
    destruct (String.eqb k k0) eqn:E; [discriminate|].
    constructor; [|apply IH; assumption].
    rewrite map_app. simpl. rewrite elem_of_app, list_elem_of_singleton.
    intros [Hin|Heq]; [contradiction|].
    subst k0. rewrite String.eqb_refl in E. discriminate.
Qed.

(** Merging the caller's properties: a caller's [feature_count] is
    written over the literal's keys, which do not hold it. *)
Lemma fold_merge_feature_count (h : heap) (items : list (string * pyval))
  (acc : list (string * json)) :
  NoDup (map fst items) ->
  assoc_get "feature_count" (fold_left (merge_property h) items acc) =
    match assoc_get "feature_count" items with
    | Some v => Some (read h v)
    | None => assoc_get "feature_count" acc
    end.
Proof.
  revert acc. induction items as [|[k v] r IH]; intros acc Hnd; cbn [fold_left assoc_get]; [reflexivity|].
  inversion Hnd as [|? ? Hnin Hnd']; subst.
  rewrite (IH _ Hnd').
  destruct (String.eqb "feature_count" k) eqn:E.
  - apply String.eqb_eq in E; subst k.
    rewrite (assoc_get_not_in _ _ Hnin).
    unfold merge_property. simpl. rewrite assoc_get_dict_set. reflexivity.
  - destruct (assoc_get "feature_count" r); [reflexivity|].
    unfold merge_property. simpl fst. simpl snd.
    destruct (String.eqb k "datetime" || String.eqb k "date"); [reflexivity|].
    rewrite assoc_get_dict_set, E. reflexivity.
Qed.

Lemma item_property_build (item_id collection_id : string) (geometry : json) (bbox : list json)
  (properties assets : list (string * json)) (k : string) :
  item_property (build_stac_item item_id collection_id geometry bbox properties assets) k =
    assoc_get k properties.
Proof. reflexivity. Qed.

Lemma build_item_feature_count (h : heap) (item_id : string) (geometry : json) (bbox : list json)
  (pl : positive) (kvs_p : list (string * pyval)) (collection_id : string) (s3_url : S3Url)
  (now : string) :
  h !! pl = Some kvs_p -> NoDup (map fst kvs_p) ->
  exists item,
    _build_stac_item h item_id geometry bbox (VDict pl) collection_id s3_url now = Some item /\
    item_property item "feature_count" =
      option_map (read h) (assoc_get "feature_count" kvs_p).
Proof.
  intros Hpl Hnd. unfold _build_stac_item. cbn [dget dict_items]. rewrite Hpl.
  eexists. split; [reflexivity|].
  rewrite item_property_build.
  rewrite (fold_merge_feature_count h kvs_p _ Hnd).
  destruct (assoc_get "feature_count" kvs_p); reflexivity.
Qed.

Lemma caller_feature_count_falsy (h : heap) (p : pyval) :
  ptruthy h p = false -> caller_feature_count h (Some p) = None.
Proof.
  destruct p as [| | | | |pl]; intros Hf; try reflexivity.
  simpl in *. destruct (h !! pl) as [[|kv r]|]; [reflexivity|discriminate|reflexivity].
Qed.

Lemma fresh_ne (h : heap) (l : positive) (kvs : list (string * pyval)) :
  h !! l = Some kvs -> fresh (dom h) <> l.
Proof.
  intros Hl Heq. apply (is_fresh (dom h)). rewrite Heq.
  apply elem_of_dom. eauto.
Qed.

(** Induction over Python values, with the elements of a list. *)
Lemma pyval_ind_deep (P : pyval -> Prop)
  (HN : P VNull) (HB : forall b, P (VBool b)) (HZ : forall z, P (VNum z))
  (HS : forall s, P (VStr s)) (HL : forall xs, Forall P xs -> P (VList xs))
  (HD : forall l, P (VDict l)) :
  forall v, P v.
Proof.
  fix IH 1. intros [| b | z | s | xs | l]; [exact HN|apply HB|apply HZ|apply HS| |apply HD].
  apply HL. induction xs as [|x xs IHxs]; constructor; [apply IH|exact IHxs].
Qed.

Lemma deref_list (h : heap) (f : nat) (xs : list pyval) :
  deref h (S f) (VList xs) = JArr (map (deref h (S f)) xs).
Proof. reflexivity. Qed.

Lemma deref_dict (h : heap) (f : nat) (l : positive) :
  deref h (S f) (VDict l) =
    match h !! l with
    | Some kvs => JObj (map (fun kv => (fst kv, deref h f (snd kv))) kvs)
    | None => JNull
    end.
Proof. reflexivity. Qed.

Lemma reach_list (h : heap) (bad : option positive) (f : nat) (xs : list pyval) :
  reach_avoids h bad (S f) (VList xs) = forallb (reach_avoids h bad (S f)) xs.
Proof. reflexivity. Qed.

Lemma reach_dict (h : heap) (bad : option positive) (f : nat) (l : positive) :
  reach_avoids h bad (S f) (VDict l) =
    match bad with Some b => negb (Pos.eqb l b) | None => true end &&
    match h !! l with
    | Some kvs => forallb (fun kv => reach_avoids h bad f (snd kv)) kvs
    | None => false
    end.
Proof. reflexivity. Qed.

Lemma reach_dict_loc (h : heap) (bad : option positive) (f : nat) (l : positive) :
  reach_avoids h bad (S f) (VDict l) = true -> bad <> Some l /\ h !! l <> None.
Proof.
  rewrite reach_dict. intros H. apply andb_true_iff in H as [Hb Hk]. split.
  - destruct bad as [b|]; [|discriminate]. intros [= ->]. rewrite Pos.eqb_refl in Hb. discriminate.
  - destruct (h !! l); [discriminate|discriminate Hk].
Qed.

(** A value whose dicts avoid [bad] reads the same in a heap that
    differs from [h] only at [bad] or outside [h], and with more fuel. *)
Lemma deref_frame (h h2 : heap) (bad : option positive)
  (Hagree : forall x, bad <> Some x -> h !! x <> None -> h2 !! x = h !! x) :
  forall n v m, reach_avoids h bad n v = true -> (n <= m)%nat -> deref h2 m v = deref h n v.
Proof.
  induction n as [|n IHn]; intros v m Hav Hle; [discriminate|].
  destruct m as [|m]; [lia|].
  revert Hav. induction v as [| b | z | s | xs IHxs | d] using pyval_ind_deep; intros Hav;
    try reflexivity.
  - rewrite reach_list in Hav. rewrite !deref_list. f_equal.
    induction IHxs as [|x xs Hx _ IH]; [reflexivity|].
    cbn [forallb] in Hav. apply andb_true_iff in Hav as [Hx' Hxs].
    cbn [map]. rewrite (Hx Hx'), (IH Hxs). reflexivity.
  - destruct (reach_dict_loc h bad n d Hav) as [Hb Hin].
    rewrite reach_dict in Hav. apply andb_true_iff in Hav as [_ Hk].
    rewrite !deref_dict, (Hagree d Hb Hin).
    destruct (h !! d) as [kvs|]; [|reflexivity].
    f_equal. apply map_ext_in. intros [k v] Hkv. cbn [fst snd]. f_equal.
    apply IHn; [|lia]. rewrite forallb_forall in Hk. exact (Hk _ Hkv).
Qed.

Lemma read_frame (h h2 : heap) (bad : option positive) (n : nat) (v : pyval)
  (Hagree : forall x, bad <> Some x -> h !! x <> None -> h2 !! x = h !! x) :
  reach_avoids h bad n v = true -> (n <= S (size h))%nat -> (n <= S (size h2))%nat ->
  read h2 v = read h v.
Proof.
  intros Hav H1 H2. unfold read.
  rewrite (deref_frame h h2 bad Hagree n v _ Hav H2).
  symmetry. exact (deref_frame h h bad (fun _ _ _ => eq_refl) n v _ Hav H1).
Qed.

Lemma ptruthy_frame (h h2 : heap) (bad : option positive) (n : nat) (v : pyval)
  (Hagree : forall x, bad <> Some x -> h !! x <> None -> h2 !! x = h !! x) :
  reach_avoids h bad (S n) v = true -> ptruthy h2 v = ptruthy h v.
Proof.
  destruct v as [| | | | |d]; intros Hav; try reflexivity.
  destruct (reach_dict_loc h bad n d Hav) as [Hb Hin].
  cbn [ptruthy]. rewrite (Hagree d Hb Hin). reflexivity.
Qed.

Lemma assoc_get_In {A} (k : string) (v : A) (kvs : list (string * A)) :
  assoc_get k kvs = Some v -> In (k, v) kvs.
Proof.
  induction kvs as [|[k0 v0] r IH]; simpl; [discriminate|].
  destruct (String.eqb k k0) eqn:E; [|intros H; right; apply IH, H].
  apply String.eqb_eq in E; subst k0. intros [= ->]. left. reflexivity.
Qed.

Lemma feature_bbox_frame (h h2 : heap) (bad : option positive) (f : pyval)
  (Hagree : forall x, bad <> Some x -> h !! x <> None -> h2 !! x = h !! x)
  (Hsize : (size h <= size h2)%nat) :
  reach_avoids h bad (S (size h)) f = true -> feature_bbox h2 f = feature_bbox h f.
Proof.
  destruct f as [| | | | |fl]; intros Hav; try reflexivity.
  destruct (reach_dict_loc h bad _ fl Hav) as [Hb Hin].
  rewrite reach_dict in Hav. apply andb_true_iff in Hav as [_ Hk].
  unfold feature_bbox. cbn [dget]. rewrite (Hagree fl Hb Hin).
  destruct (h !! fl) as [fkvs|]; [|reflexivity].
  destruct (assoc_get "geometry" fkvs) as [g|] eqn:Hg; [|reflexivity].
  apply assoc_get_In in Hg. rewrite forallb_forall in Hk. specialize (Hk _ Hg). cbn [snd] in Hk.
  destruct (size h) as [|k] eqn:Hs; [discriminate|].
  unfold geometry_or_empty.
  rewrite (ptruthy_frame h h2 bad k g Hagree Hk).
  rewrite (read_frame h h2 bad (S k) g Hagree Hk); [reflexivity|lia|lia].
Qed.

Lemma map_opt_ext_Forall {A B} (P : A -> Prop) (f g : A -> option B) (l : list A) :
  Forall P l -> (forall x, P x -> f x = g x) -> map_opt f l = map_opt g l.
Proof.
  intros HP Hfg. induction HP as [|x l Hx _ IH]; [reflexivity|].
  cbn [map_opt]. rewrite (Hfg x Hx), IH. reflexivity.
Qed.

(** The collection bbox does not depend on the dicts the features do
    not reach. *)
Lemma collection_bbox_frame (h h2 : heap) (bad : option positive) (l : positive)
  (kvs kvs2 : list (string * pyval)) (fs : list pyval)
  (Hagree : forall x, bad <> Some x -> h !! x <> None -> h2 !! x = h !! x)
  (Hsize : (size h <= size h2)%nat)
  (Hdoc : h !! l = Some kvs) (Hdoc2 : h2 !! l = Some kvs2)
  (Htype : assoc_get "type" kvs = Some (VStr "FeatureCollection"))
  (Htype2 : assoc_get "type" kvs2 = Some (VStr "FeatureCollection"))
  (Hfeatures : assoc_get "features" kvs = Some (VList fs))
  (Hfeatures2 : assoc_get "features" kvs2 = Some (VList fs))
  (Hfs : Forall (fun f => reach_avoids h bad (S (size h)) f = true) fs) :
  _calculate_collection_bbox h2 (VDict l) = _calculate_collection_bbox h (VDict l).
Proof.
  unfold _calculate_collection_bbox. cbn [dget].
  rewrite Hdoc, Hdoc2, Htype, Htype2, Hfeatures, Hfeatures2.
  rewrite (map_opt_ext_Forall _ (feature_bbox h2) (feature_bbox h) fs Hfs)
    by (intros f Hf; exact (feature_bbox_frame h h2 bad f Hagree Hsize Hf)).
  reflexivity.
Qed.

Lemma collection_bbox_length (h : heap) (v : pyval) (bbox : list json) :
  _calculate_collection_bbox h v = Some bbox -> length bbox = 4%nat.
Proof.
  unfold _calculate_collection_bbox. intros H.
  repeat case_match; simplify_eq; try reflexivity; apply BBoxClaims.bbox_length.
Qed.

(** The end of the FeatureCollection branch, once the collection bbox
    has been computed and the properties resolved to the dict at [pl]. *)
Lemma feature_collection_tail (h2 : heap) (l pl : positive) (kvs_p : list (string * pyval))
  (bbox : list json) (s3_url : S3Url) (collection_id item_id now : string) :
  _calculate_collection_bbox h2 (VDict l) = Some bbox ->
  h2 !! pl = Some kvs_p -> NoDup (map fst kvs_p) ->
  exists item,
    match geometry_from_bbox bbox with
    | None => None
    | Some geometry =>
        match _build_stac_item h2 item_id geometry bbox (VDict pl) collection_id s3_url now with
        | None => None
        | Some item => Some (h2, item)
        end
    end = Some (h2, item) /\
    item_property item "feature_count" =
      option_map (read h2) (assoc_get "feature_count" kvs_p).
Proof.
  intros Hb Hpl Hnd.
  pose proof (collection_bbox_length _ _ _ Hb) as Hlen.
  destruct bbox as [|a [|b [|c [|d [|e r]]]]]; try discriminate Hlen.
  cbn [geometry_from_bbox].
  destruct (build_item_feature_count h2 item_id
              (JObj [("type", JStr "Polygon");
                     ("coordinates", JArr [JArr [pair a b; pair c b; pair c d; pair a d; pair a b]])])
              [a; b; c; d] pl kvs_p collection_id s3_url now Hpl Hnd) as (item & Hi & Hp).
  exists item. rewrite Hi. split; [reflexivity|exact Hp].
Qed.

(** C7 (amended): in whole-document mode, for a FeatureCollection whose
    [features] is a non-empty list that shares no dict with the
    document's [properties], the item is produced exactly when the
    collection bbox computation does not raise, and then its
    [properties.feature_count] is the number of features unless the
    document's own [properties] already holds a [feature_count], which
    [setdefault] keeps. *)
Theorem create_stac_item_feature_count (h : heap) (l : positive)
  (kvs : list (string * pyval)) (fs : list pyval) (s3_url : S3Url)
  (collection_id item_id now : string)
  (Hdoc : h !! l = Some kvs)
  (Htype : assoc_get "type" kvs = Some (VStr "FeatureCollection"))
  (Hfeatures : assoc_get "features" kvs = Some (VList fs))
  (Hne : fs <> [])
  (Hprops : properties_ok h (assoc_get "properties" kvs))
  (Hapart : features_apart h (assoc_get "properties" kvs) fs) :
  match _calculate_collection_bbox h (VDict l) with
  | None => _create_stac_item_from_geojson h (VDict l) s3_url collection_id item_id now = None
  | Some _ =>
      exists h' item,
        _create_stac_item_from_geojson h (VDict l) s3_url collection_id item_id now
          = Some (h', item) /\
        item_property item "feature_count" =
          Some (match caller_feature_count h (assoc_get "properties" kvs) with
                | Some v => read h v
                | None => JNum (Z.of_nat (length fs))
                end)
  end.
Proof.
  unfold features_apart in Hapart.
  unfold _create_stac_item_from_geojson. cbn [dget]. rewrite Hdoc, Htype, Hfeatures.
  cbn [is_str]. simpl String.eqb. cbn iota beta.
  assert (Hft : ptruthy h (VList fs) = true) by (destruct fs; [congruence|reflexivity]).
  rewrite Hft. cbn iota zeta. rewrite Hft. cbn [negb]. cbn iota.
  remember (match assoc_get "properties" kvs with Some v => v | None => VNull end) as p0 eqn:Hp0.
  unfold or_new_dict. destruct (ptruthy h p0) eqn:Hpt.
  - destruct (assoc_get "properties" kvs) as [p|]; [|subst p0; discriminate].
    subst p0. cbn [properties_ok] in Hprops.
    destruct Hprops as [Hf|(pl & kvs_p & -> & Hpl & Hnd)]; [congruence|].
    cbn [py_len setdefault caller_feature_count]. rewrite Hpl.
    destruct (assoc_get "feature_count" kvs_p) as [v|] eqn:Hfc; cbn iota beta.
    + destruct (_calculate_collection_bbox h (VDict l)) as [bbox|] eqn:Hb; [|reflexivity].
      destruct (feature_collection_tail h l pl kvs_p bbox s3_url collection_id item_id now
                  Hb Hpl Hnd) as (item & Hrun & Hi).
      rewrite Hfc in Hi. exists h, item. split; [exact Hrun|exact Hi].
    + set (fc := ("feature_count", VNum (Z.of_nat (length fs)))).
      set (h2 := <[pl := (kvs_p ++ [fc])%list]> h).
      assert (Hnd2 : NoDup (map fst (kvs_p ++ [fc])%list)) by (apply nodup_app_none; assumption).
      assert (Hget : assoc_get "feature_count" (kvs_p ++ [fc])%list
                       = Some (VNum (Z.of_nat (length fs))))
        by (unfold fc; rewrite (assoc_get_app_none _ _ _ _ Hfc); reflexivity).
      assert (Hpl2 : h2 !! pl = Some (kvs_p ++ [fc])%list) by apply lookup_insert_eq.
      assert (Hagree : forall x, Some pl <> Some x -> h !! x <> None -> h2 !! x = h !! x)
        by (intros x Hx _; apply lookup_insert_ne; congruence).
      assert (Hsize : (size h <= size h2)%nat)
        by (apply Nat.eq_le_incl; symmetry; apply (map_size_insert_Some (M := gmap positive));
            exists kvs_p; exact Hpl).
      assert (Hframe : _calculate_collection_bbox h2 (VDict l) = _calculate_collection_bbox h (VDict l)).
      { destruct (decide (pl = l)) as [->|Hne'].
        - rewrite Hdoc in Hpl. injection Hpl as <-.
          exact (collection_bbox_frame h h2 (Some l) l kvs (kvs ++ [fc])%list fs Hagree Hsize
                   Hdoc Hpl2 Htype (assoc_get_app_some _ _ _ _ _ Htype)
                   Hfeatures (assoc_get_app_some _ _ _ _ _ Hfeatures) Hapart).
        - assert (Hl2 : h2 !! l = Some kvs)
            by (etransitivity; [apply lookup_insert_ne; congruence|exact Hdoc]).
          exact (collection_bbox_frame h h2 (Some pl) l kvs kvs fs Hagree Hsize
                   Hdoc Hl2 Htype Htype Hfeatures Hfeatures Hapart). }
      rewrite Hframe. destruct (_calculate_collection_bbox h (VDict l)) as [bbox|] eqn:Hb;
        [|reflexivity].
      destruct (feature_collection_tail h2 l pl (kvs_p ++ [fc])%list bbox s3_url collection_id
                  item_id now Hframe Hpl2 Hnd2) as (item & Hrun & Hi).
      rewrite Hget in Hi. exists h2, item. split; [exact Hrun|exact Hi].
  - assert (Hcfc : caller_feature_count h (assoc_get "properties" kvs) = None)
      by (destruct (assoc_get "properties" kvs); subst p0;
          [apply caller_feature_count_falsy; exact Hpt|reflexivity]).
    rewrite Hcfc. unfold alloc_dict. set (fr := fresh (dom h)).
    cbn iota zeta. cbn [py_len setdefault].
    assert (E1 : <[fr := []]> h !! fr = Some []) by apply lookup_insert_eq.
    rewrite E1. cbn [assoc_get app]. cbn iota beta.
    set (fc := ("feature_count", VNum (Z.of_nat (length fs)))).
    set (h2 := <[fr := [fc]]> (<[fr := []]> h)).
    assert (Hnotin : h !! fr = None) by (apply not_elem_of_dom, is_fresh).
    assert (Hfr := fresh_ne h l kvs Hdoc). fold fr in Hfr.
    assert (Hl2 : h2 !! l = Some kvs)
      by (etransitivity; [apply lookup_insert_ne; exact Hfr|];
          etransitivity; [apply lookup_insert_ne; exact Hfr|exact Hdoc]).
    assert (Hfr2 : h2 !! fr = Some [fc]) by apply lookup_insert_eq.
    set (bad := match assoc_get "properties" kvs with Some (VDict pl) => Some pl | _ => None end).
    assert (Hagree : forall x, bad <> Some x -> h !! x <> None -> h2 !! x = h !! x).
    { intros x _ Hx. assert (Hxf : fr <> x) by (intros ->; congruence).
      etransitivity; [apply lookup_insert_ne; exact Hxf|]. apply lookup_insert_ne; exact Hxf. }
    assert (Hsize : (size h <= size h2)%nat).
    { assert (E2 : size h2 = size (<[fr := []]> h))
        by (apply (map_size_insert_Some (M := gmap positive)); exists []; apply lookup_insert_eq).
      assert (E3 : size (<[fr := []]> h) = S (size h))
        by (apply (map_size_insert_None (M := gmap positive)); exact Hnotin).
      lia. }
    assert (Hframe : _calculate_collection_bbox h2 (VDict l) = _calculate_collection_bbox h (VDict l))
      by exact (collection_bbox_frame h h2 bad l kvs kvs fs Hagree Hsize Hdoc Hl2
                  Htype Htype Hfeatures Hfeatures Hapart).
    rewrite Hframe. destruct (_calculate_collection_bbox h (VDict l)) as [bbox|] eqn:Hb;
      [|reflexivity].
    destruct (feature_collection_tail h2 l fr [fc] bbox s3_url collection_id item_id now
                Hframe Hfr2 (NoDup_singleton _)) as (item & Hrun & Hi).
    exists h2, item. split; [exact Hrun|exact Hi].
Qed.

(** C7: a counterexample. The document's own properties hold
    [feature_count = 99] and the collection has two features: the item
    keeps 99. *)
Lemma create_stac_item_feature_count_counterexample :
  match _create_stac_item_from_geojson Samples.fc_heap_count (VDict 1) Samples.s3_sample
          "airports" "airports-a" "2024-01-01T00:00:00Z" with
  | Some (_, item) =>
      item_property item "feature_count" = Some (JNum 99) /\
      item_property item "feature_count"
        <> Some (JNum (Z.of_nat (length Samples.fc_count_features)))
  | None => False
  end.
Proof.
  vm_compute. split; [reflexivity|discriminate].
Qed.

Lemma create_stac_item_feature_count_witness :
  match _calculate_collection_bbox Samples.fc_heap (VDict 1) with
  | None =>
      _create_stac_item_from_geojson Samples.fc_heap (VDict 1) Samples.s3_sample
        "airports" "airports-a" "2024-01-01T00:00:00Z" = None
  | Some _ =>
      exists h' item,
        _create_stac_item_from_geojson Samples.fc_heap (VDict 1) Samples.s3_sample
          "airports" "airports-a" "2024-01-01T00:00:00Z" = Some (h', item) /\
        item_property item "feature_count" =
          Some (match caller_feature_count Samples.fc_heap
                        (assoc_get "properties" Samples.fc_doc) with
                | Some v => read Samples.fc_heap v
                | None => JNum (Z.of_nat (length [VDict 3]))
                end)
  end.
Proof.
  apply (create_stac_item_feature_count Samples.fc_heap 1 Samples.fc_doc [VDict 3]).
  - vm_compute. reflexivity.
  - vm_compute. reflexivity.
  - vm_compute. reflexivity.
  - discriminate.
  - right. exists 2%positive, [("name", VStr "airports")].
    split; [reflexivity|]. split; [vm_compute; reflexivity|].
    constructor; [apply not_elem_of_nil|constructor].
  - constructor; [vm_compute; reflexivity|constructor].
Defined.

End FeatureCountClaims.

Module DeconstructedClaims.
Import ProcessorBase Deconstructed DeconstructedSpec.
Local Open Scope string_scope.

Section Loop.
Context {Feature Item : Type}.
Variable _create_stac_item : Feature -> result Item.
Variable validate_stac_item : Item -> result unit.
Variable item_message : Item -> result (string * string).
Variable publish_message : string -> string -> result unit.
Variable stack_trace : list string.

Lemma process_feature_step (n i : nat) (f : Feature) (st : state) (c : nat) :
  process_feature _create_stac_item validate_stac_item item_message publish_message n (st, c) (i, f) =
  (let o := feature_outcome _create_stac_item validate_stac_item item_message publish_message n i f in
   ({| published := (published st ++ option_list o.2)%list; logs := (logs st ++ [o.1])%list |},
    (c + length (option_list o.2))%nat)).
Proof.
  unfold process_feature, feature_outcome, log, publish.
  repeat case_match; cbn; rewrite ?app_nil_r; f_equal; lia.
Qed.

Lemma fold_process_feature (n : nat) (xs : list Feature) (i0 : nat) (st : state) (c : nat) :
  fold_left (process_feature _create_stac_item validate_stac_item item_message publish_message n)
    (combine (seq i0 (length xs)) xs) (st, c) =
  (let os := map (fun x => feature_outcome _create_stac_item validate_stac_item item_message
                             publish_message n (fst x) (snd x))
                 (combine (seq i0 (length xs)) xs) in
   ({| published := (published st ++ omap snd os)%list; logs := (logs st ++ map fst os)%list |},
    (c + length (omap snd os))%nat)).
Proof.
  revert i0 st c. induction xs as [|f xs IH]; intros i0 st c.
  - destruct st; cbn. rewrite !app_nil_r. f_equal. lia.
  - cbn [length seq combine fold_left map]. rewrite process_feature_step, IH. cbn [fst snd].
    destruct (feature_outcome _ _ _ _ n i0 f) as [e [m|]]; cbn;
      rewrite <- !app_assoc; cbn; f_equal; lia.
Qed.

(** C3: in decomposed mode each feature is processed on its own: the
    loop gives every feature, in order, exactly the log line and the
    published message that feature alone determines (a construction,
    validation or publishing failure is logged and the loop goes on).
    With [k] the number of features published out of [n]: [k = 0] gives
    the failure response "Failed to publish any STAC items from n
    features"; otherwise the success response
    "GeoJSON processed successfully: k/n STAC items published", with a
    "Partial success" warning logged exactly when [k < n]. *)
Theorem process_deconstructed_outcome (features : list Feature) (st : state) :
  let n := length features in
  let os := outcomes _create_stac_item validate_stac_item item_message publish_message features in
  let k := length (omap snd os) in
  _process_deconstructed _create_stac_item validate_stac_item item_message publish_message
    stack_trace features st =
  ({| published := (published st ++ omap snd os)%list;
      logs := (logs st ++ [LogInfo ("Processing " ++ str n ++ " GeoJSON features")]
               ++ map fst os
               ++ (if (0 <? k)%nat && (k <? n)%nat
                   then [LogWarning ("Partial success: " ++ str (n - k) ++ " features failed")]
                   else []))%list |},
   if Nat.eqb k 0
   then failure_message stack_trace
          (ValueError ("Failed to publish any STAC items from " ++ str n ++ " features"))
   else success_message ("GeoJSON processed successfully: " ++ str k ++ "/" ++ str n
                         ++ " STAC items published")).
Proof.
  intros n os k. subst n os k. unfold _process_deconstructed, outcomes.
  rewrite fold_process_feature.
  cbn [published logs log plus].
  set (os := map _ (combine (seq 0 _) features)).
  set (k := length (omap snd os)).
  rewrite <- !app_assoc.
  destruct (Nat.eqb k 0) eqn:Hk.
  - apply Nat.eqb_eq in Hk. rewrite Hk. cbn [app]. rewrite app_nil_r. reflexivity.
  - apply Nat.eqb_neq in Hk.
    assert (Hpos : (0 <? k)%nat = true) by (apply Nat.ltb_lt; lia).
    rewrite Hpos. cbn [andb].
    destruct (k <? length features)%nat; unfold log; cbn [published logs];
      rewrite <- ?app_assoc, ?app_nil_r; reflexivity.
Qed.

End Loop.

(** The spec's example: two features, the first fails validation. *)
Example process_deconstructed_one_of_two :
  snd (_process_deconstructed (Feature := nat) (Item := nat)
         (fun f => Ok f)
         (fun i => if Nat.eqb i 0 then Raise (StacValidationError "invalid") else Ok tt)
         (fun i => Ok ("{}", "item-" ++ str i))
         (fun _ _ => Ok tt) [] [0%nat; 1%nat]
         {| published := []; logs := [] |})
  = success_message "GeoJSON processed successfully: 1/2 STAC items published".
Proof. vm_compute. reflexivity. Qed.

End DeconstructedClaims.
Module SchemaUriClaims.
Import PyStr SchemaUriMap.
Local Open Scope string_scope.

Lemma list_ltb_irrefl (a : list Z) : list_ltb a a = false.
Proof.
  induction a as [|x a IH]; simpl; [reflexivity|].
  rewrite Z.ltb_irrefl, Z.eqb_refl, IH. reflexivity.
Qed.

Lemma list_ltb_trans (a b c : list Z) :
  list_ltb a b = true -> list_ltb b c = true -> list_ltb a c = true.
Proof.
  revert b c. induction a as [|x a IH]; intros [|y b] [|z c]; simpl; try discriminate; auto.
  intros Hab Hbc.
  destruct (Z.ltb_spec x y), (Z.eqb_spec x y), (Z.ltb_spec y z), (Z.eqb_spec y z),
    (Z.ltb_spec x z), (Z.eqb_spec x z); simpl in *; try reflexivity; try lia;
    try discriminate; apply (IH b c); assumption.
Qed.

Lemma list_ltb_asym (a b : list Z) : list_ltb a b = true -> list_ltb b a = false.
Proof.
  intros Hab. destruct (list_ltb b a) eqn:Hba; [|reflexivity].
  rewrite <- (list_ltb_irrefl a). symmetry. apply (list_ltb_trans a b a); assumption.
Qed.

(** The first entry of a list is not below any entry of it. *)
Definition head_max (l : list entry) : Prop :=
  match l with
  | [] => True
  | x :: _ => forall y, In y l -> list_ltb (entry_key x) (entry_key y) = false
  end.

Lemma insert_desc_in (e : entry) (l : list entry) (y : entry) :
  In y (insert_desc e l) <-> In y (e :: l).
Proof.
  induction l as [|x l IH]; simpl; [tauto|].
  destruct (list_ltb (entry_key x) (entry_key e)); simpl; [tauto|].
  rewrite IH. simpl. tauto.
Qed.

Lemma insert_desc_head_max (e : entry) (l : list entry) :
  head_max l -> head_max (insert_desc e l).
Proof.
  destruct l as [|x l]; simpl.
  - intros _ y [<-|[]]. apply list_ltb_irrefl.
  - intros Hx. destruct (list_ltb (entry_key x) (entry_key e)) eqn:Hxe; simpl.
    + intros y [<-|[<-|Hy]].
      * apply list_ltb_irrefl.
      * apply list_ltb_asym, Hxe.
      * destruct (list_ltb (entry_key e) (entry_key y)) eqn:Hey; [|reflexivity].
        rewrite <- (Hx y (or_intror Hy)). symmetry.
        apply (list_ltb_trans _ (entry_key e)); assumption.
    + intros y [<-|Hy].
      * apply list_ltb_irrefl.
      * apply insert_desc_in in Hy. destruct Hy as [<-|Hy]; [exact Hxe|].
        apply Hx. right. exact Hy.
Qed.

Lemma sort_desc_go (l acc : list entry) :
  head_max acc ->
  head_max (fold_left (fun acc e => insert_desc e acc) l acc) /\
  (forall y, In y (fold_left (fun acc e => insert_desc e acc) l acc) <-> In y l \/ In y acc).
Proof.
  revert acc. induction l as [|e l IH]; intros acc Hacc; simpl.
  - split; [exact Hacc|tauto].
  - destruct (IH (insert_desc e acc) (insert_desc_head_max e acc Hacc)) as [H1 H2].
    split; [exact H1|]. intros y. rewrite H2, insert_desc_in. simpl. tauto.
Qed.

Lemma sort_desc_spec (l : list entry) :
  head_max (sort_desc l) /\ (forall y, In y (sort_desc l) <-> In y l).
Proof.
  destruct (sort_desc_go l [] I) as [H1 H2]. split; [exact H1|].
  intros y. unfold sort_desc. rewrite H2. simpl. tauto.
Qed.

Lemma prefix_app (s r : string) : String.prefix s (s ++ r) = true.
Proof.
  induction s as [|a s IH]; simpl; [destruct r; reflexivity|].
  destruct (ascii_dec a a); [exact IH|contradiction].
Qed.

Lemma replace_go_skip (old new s r : string) :
  replace_go old new (String.length s) (s ++ r) = replace_go old new O r.
Proof. induction s as [|a s IH]; simpl; [reflexivity|exact IH]. Qed.

(** Replacing the leading [old] of [old ++ rest], for a non-empty [old]. *)
Lemma replace_leading (c : ascii) (old' new rest : string) :
  replace (String c old' ++ rest) (String c old') new =
    new ++ replace_go (String c old') new O rest.
Proof.
  pose proof (prefix_app (String c old') rest) as H.
  change (String c old' ++ rest) with (String c (old' ++ rest)) in H |- *.
  unfold replace. cbn [replace_go]. rewrite H.
  cbn [String.length pred]. rewrite replace_go_skip. reflexivity.
Qed.

(** The schema file of each object type, below its version directory. *)
Definition schema_file (t : STACObjectType) : option string :=
  match t with
  | ITEM => Some "item-spec/json-schema/item.json"
  | COLLECTION => Some "collection-spec/json-schema/collection.json"
  | CATALOG => Some "catalog-spec/json-schema/catalog.json"
  | OtherType _ => None
  end.

Lemma schema_path_file (t : STACObjectType) (v : string) :
  schema_path t v = option_map (fun f => "stac/v" ++ v ++ "/" ++ f) (schema_file t).
Proof. destruct t; reflexivity. Qed.

Lemma append_assoc (a b c : string) : (a ++ b) ++ c = a ++ (b ++ c).
Proof. induction a as [|x a IH]; [reflexivity|]. change (String x ((a ++ b) ++ c) = String x (a ++ (b ++ c))). rewrite IH. reflexivity. Qed.

(** The candidate path for directory [name] is that directory's copy of
    the schema file. *)
Lemma candidate_path (t : STACObjectType) (v name f : string) :
  schema_file t = Some f ->
  replace ("stac/v" ++ v ++ "/" ++ f) ("stac/v" ++ v ++ "/") ("stac/" ++ name ++ "/") =
    "stac/" ++ name ++ "/" ++ f.
Proof.
  intros Hf.
  replace ("stac/v" ++ v ++ "/" ++ f) with (("stac/v" ++ v ++ "/") ++ f)
    by (rewrite !append_assoc; reflexivity).
  change ("stac/v" ++ v ++ "/") with (String "s" ("tac/v" ++ v ++ "/")).
  rewrite replace_leading. change (String "s" ("tac/v" ++ v ++ "/")) with ("stac/v" ++ v ++ "/").
  rewrite !append_assoc. f_equal.
  destruct t; inversion Hf; subst f; reflexivity.
Qed.

(** C5: for an Item, Collection or Catalog schema of version [v]: the
    exact-version file is returned when it exists; otherwise the
    candidates are the [v*] directories of [stac/] holding that object
    type's schema file, and the one returned is one whose version, read as
    a list of integers (non-numeric parts 0), no other candidate exceeds,
    with a warning naming it; with no candidate, a FileNotFoundError
    tells the operator to run the schema download script. *)
Theorem get_object_schema_uri_resolution (fs : FS) (t : STACObjectType) (v f : string)
  (Hf : schema_file t = Some f) :
  let p := "stac/v" ++ v ++ "/" ++ f in
  let avail := available_versions fs p v in
  (path_exists fs p = true -> get_object_schema_uri fs t v = Found (file_uri fs p) None) /\
  (forall num name path, In (num, name, path) avail <->
     In name (stac_entries fs) /\ (exists r, name = String "v" r) /\ is_dir fs name = true /\
     num = drop1 name /\ path = "stac/" ++ name ++ "/" ++ f /\ path_exists fs path = true) /\
  (path_exists fs p = false -> avail = [] ->
     get_object_schema_uri fs t v =
       Raised FileNotFoundError
         ("No local STAC schema found for " ++ object_type_str t ++ " v" ++ v
          ++ ". Run 'python scripts/update_stac_schemas.py' to download schemas.")) /\
  (path_exists fs p = false -> avail <> [] ->
     exists num name path,
       In (num, name, path) avail /\
       get_object_schema_uri fs t v =
         Found (file_uri fs path) (Some ("STAC v" ++ v ++ " not found, using " ++ name)) /\
       forall e, In e avail -> list_ltb (version_key num) (entry_key e) = false).
Proof.
  intros p avail.
  assert (Hget : get_object_schema_uri fs t v =
            if path_exists fs p then Found (file_uri fs p) None
            else match sort_desc avail with
                 | (_, fallback_version_name, fallback_path) :: _ =>
                     Found (file_uri fs fallback_path)
                       (Some ("STAC v" ++ v ++ " not found, using " ++ fallback_version_name))
                 | [] =>
                     Raised FileNotFoundError
                       ("No local STAC schema found for " ++ object_type_str t ++ " v" ++ v
                        ++ ". Run 'python scripts/update_stac_schemas.py' to download schemas.")
                 end)
    by (unfold get_object_schema_uri; rewrite schema_path_file, Hf; reflexivity).
  destruct (sort_desc_spec avail) as [Hmax Hin].
  split; [|split; [|split]].
  - intros He. rewrite Hget, He. reflexivity.
  - intros num name path. unfold avail, available_versions, p.
    rewrite in_flat_map. split.
    + intros (n & Hn & Hx). unfold glob_v in Hn. apply filter_In in Hn as [Hn Hv].
      destruct (is_dir fs n) eqn:Hd; [|destruct Hx].
      rewrite (candidate_path t v n f Hf) in Hx.
      destruct (path_exists fs ("stac/" ++ n ++ "/" ++ f)) eqn:Hp; [|destruct Hx].
      destruct Hx as [Hx|[]]. injection Hx as <- <- <-.
      destruct n as [|c r]; [discriminate|].
      repeat split; auto.
      exists r. destruct (ascii_dec c "v"); [congruence|].
      destruct c as [[] [] [] [] [] [] [] []]; try discriminate; contradiction.
    + intros (Hn & (r & ->) & Hd & -> & -> & Hp). exists (String "v" r). split.
      * unfold glob_v. apply filter_In. split; [exact Hn|reflexivity].
      * rewrite Hd, (candidate_path t v (String "v" r) f Hf), Hp. left. reflexivity.
  - intros He Ha. rewrite Hget, He. fold avail. rewrite Ha. reflexivity.
  - intros He Ha. rewrite Hget, He. fold avail.
    destruct (sort_desc avail) as [|[[num name] path] rest] eqn:Hs.
    + destruct avail as [|e es]; [contradiction|].
      exfalso. apply (proj2 (Hin e)). left. reflexivity.
    + exists num, name, path. split; [|split; [reflexivity|]].
      * apply Hin. left. reflexivity.
      * intros e He'. apply (Hmax e). apply Hin. exact He'.
Qed.

Lemma get_object_schema_uri_resolution_witness :
  get_object_schema_uri SchemaSamples.fs_sample ITEM "1.0.0" =
    Found "file:///opt/schemas/stac/v1.1.0/item-spec/json-schema/item.json"
          (Some "STAC v1.0.0 not found, using v1.1.0") /\
  (let p := "stac/v" ++ "1.0.0" ++ "/" ++ "item-spec/json-schema/item.json" in
   let avail := available_versions SchemaSamples.fs_sample p "1.0.0" in
   (path_exists SchemaSamples.fs_sample p = true ->
      get_object_schema_uri SchemaSamples.fs_sample ITEM "1.0.0" = Found (file_uri SchemaSamples.fs_sample p) None) /\
   (forall num name path, In (num, name, path) avail <->
      In name (stac_entries SchemaSamples.fs_sample) /\ (exists r, name = String "v" r) /\
      is_dir SchemaSamples.fs_sample name = true /\ num = drop1 name /\
      path = "stac/" ++ name ++ "/" ++ "item-spec/json-schema/item.json" /\
      path_exists SchemaSamples.fs_sample path = true) /\
   (path_exists SchemaSamples.fs_sample p = false -> avail = [] ->
      get_object_schema_uri SchemaSamples.fs_sample ITEM "1.0.0" =
        Raised FileNotFoundError
          ("No local STAC schema found for " ++ object_type_str ITEM ++ " v" ++ "1.0.0"
           ++ ". Run 'python scripts/update_stac_schemas.py' to download schemas.")) /\
   (path_exists SchemaSamples.fs_sample p = false -> avail <> [] ->
      exists num name path,
        In (num, name, path) avail /\
        get_object_schema_uri SchemaSamples.fs_sample ITEM "1.0.0" =
          Found (file_uri SchemaSamples.fs_sample path)
                (Some ("STAC v" ++ "1.0.0" ++ " not found, using " ++ name)) /\
        forall e, In e avail -> list_ltb (version_key num) (entry_key e) = false)).
Proof.
  split.
  - vm_compute. reflexivity.
  - apply (get_object_schema_uri_resolution SchemaSamples.fs_sample ITEM "1.0.0"
             "item-spec/json-schema/item.json").
    reflexivity.
Defined.

(** [version_key] on parts Python's [int] rejects or accepts loosely,
    as CPython computes it. *)
Example version_key_samples :
  version_key "1.0.0-beta.2" = [1; 0; 0; 2]%Z /\ version_key " 1_0 .+2.-3" = [10; 2; -3]%Z /\
  version_key EmptyString = [0]%Z /\ version_key "1__0.0_" = [0; 0]%Z.
Proof. vm_compute. repeat split. Qed.

End SchemaUriClaims.

Module ValidatorClaims.
Import PyStr SchemaUriMap StacValidator.
Local Open Scope string_scope.

Lemma starts_with_app (p a b : string) :
  (exists m, a = p ++ m) -> exists m, a ++ b = p ++ m.
Proof.
  intros [m ->]. exists (m ++ b). apply SchemaUriClaims.append_assoc.
Qed.

Ltac starts_with := repeat apply starts_with_app; eexists; reflexivity.

(** C4: a counterexample. With a schema store that lacks the standalone
    MultiPolygon schema, a MultiPolygon item is Invalid although every
    schema accepts every document. *)
Lemma validate_multipolygon_counterexample :
  _validate_from_uri (error := unit) (fun _ _ _ => []) (fun _ => None) (fun _ => "error")
    (fun _ => "airports-a") (fun _ => inr (JObj [])) [] (fun _ _ _ _ => Valid)
    ValidatorSamples.mp_item ITEM ValidatorSamples.item_schema_uri None
  = Invalid "MultiPolygon schema not found for validation".
Proof. vm_compute. reflexivity. Qed.

Section Validator.
Context {error : Type}.
Variable iter_errors : json -> json -> json -> list error.
Variable best_match : list error -> option error.
Variable error_str : error -> string.
Variable py_str : json -> string.
Variable load_schema : string -> string + json.
Variable store : list (string * json).
Variable super_validate : list (string * json) -> STACObjectType -> string -> option string -> outcome.

(** C4 (amended): for an item with a local schema and a geometry dict of
    type MultiPolygon: when the store holds the standalone MultiPolygon
    schema, the geometry is validated against it and the item, its
    geometry replaced by the placeholder Point and its bbox by
    [0,0,0,0], against the item schema; the outcome is Valid iff both
    report no error, and a failure carries the message of the check
    that failed (the geometry check first). When the store lacks that
    schema, the outcome is Invalid ("MultiPolygon schema not found for
    validation"). Any other geometry type is validated whole against the
    item schema. *)
Theorem validate_from_uri_multipolygon (stac_dict : list (string * json)) (t : STACObjectType)
  (schema_uri : string) (href : option string) (main_schema : json) (g : list (string * json))
  (Huri : String.prefix "file://" schema_uri = true)
  (Hload : load_schema (replace schema_uri "file://" EmptyString) = inr main_schema)
  (Hgeom : assoc_get "geometry" stac_dict = Some (JObj g)) :
  let outcome := _validate_from_uri iter_errors best_match error_str py_str load_schema store
                   super_validate stac_dict t schema_uri href in
  let geom_type := match assoc_get "type" g with Some v => v | None => JStr "unknown" end in
  (geom_type = JStr "MultiPolygon" ->
     match assoc_get MULTIPOLYGON_SCHEMA_URI store with
     | None => outcome = Invalid "MultiPolygon schema not found for validation"
     | Some mp =>
         exists simple,
           (forall k, k <> "geometry" -> k <> "bbox" -> assoc_get k simple = assoc_get k stac_dict) /\
           assoc_get "geometry" simple = Some placeholder_geometry /\
           assoc_get "bbox" simple = Some placeholder_bbox /\
           (outcome = Valid <->
              iter_errors main_schema mp (JObj g) = [] /\
              iter_errors main_schema main_schema (JObj simple) = []) /\
           (iter_errors main_schema mp (JObj g) <> [] ->
              exists m, outcome = Invalid ("MultiPolygon geometry validation failed: " ++ m)) /\
           (iter_errors main_schema mp (JObj g) = [] ->
            iter_errors main_schema main_schema (JObj simple) <> [] ->
              exists m, outcome = Invalid ("STAC item validation failed (structure): " ++ m))
     end) /\
  (geom_type <> JStr "MultiPolygon" ->
     (outcome = Valid <-> iter_errors main_schema main_schema (JObj stac_dict) = []) /\
     (iter_errors main_schema main_schema (JObj stac_dict) <> [] ->
        exists m, outcome = Invalid ("Validation failed for " ++ m))).
Proof.
  intros outcome geom_type.
  assert (Hc : forall v : json,
             (match v with JStr s => String.eqb s "MultiPolygon" | _ => false end) = true <->
             v = JStr "MultiPolygon").
  { intros [| | |s| |]; split; intros H; try discriminate.
    - apply String.eqb_eq in H. subst s. reflexivity.
    - injection H as ->. reflexivity. }
  unfold outcome, _validate_from_uri. rewrite Huri, Hload, Hgeom.
  cbn [get_attr py_get]. fold geom_type.
  split; intros Hgt.
  - rewrite (proj2 (Hc geom_type) Hgt). unfold _validate_multipolygon.
    destruct (assoc_get MULTIPOLYGON_SCHEMA_URI store) as [mp|]; [|reflexivity].
    exists (PyHeap.dict_set (PyHeap.dict_set stac_dict "geometry" placeholder_geometry)
              "bbox" placeholder_bbox).
    split; [|split; [|split]].
    + intros k Hk1 Hk2. rewrite !FeatureCountClaims.assoc_get_dict_set.
      destruct (String.eqb_spec k "bbox"); [contradiction|].
      destruct (String.eqb_spec k "geometry"); [contradiction|]. reflexivity.
    + rewrite !FeatureCountClaims.assoc_get_dict_set. reflexivity.
    + rewrite !FeatureCountClaims.assoc_get_dict_set. reflexivity.
    + cbv zeta.
      destruct (iter_errors main_schema mp (JObj g)) as [|e es];
        [destruct (iter_errors main_schema main_schema _) as [|e' es']|].
      * repeat split; auto; intros H; contradiction.
      * split; [split; [discriminate|intros [_ H]; discriminate]|].
        split; [intros H; contradiction|]. intros _ _. starts_with.
      * split; [split; [discriminate|intros [H _]; discriminate]|].
        split; [intros _; starts_with|]. intros H; discriminate.
  - destruct (match geom_type with JStr s => String.eqb s "MultiPolygon" | _ => false end) eqn:E.
    { exfalso. apply Hgt, Hc, E. }
    destruct (iter_errors main_schema main_schema (JObj stac_dict)) as [|e es].
    + split; [tauto|]. intros H; contradiction.
    + split; [split; [discriminate|intros H; discriminate]|]. intros _.
      destruct href, (assoc_get "id" stac_dict) as [[]|], (best_match (e :: es));
        cbv zeta; starts_with.
Qed.

End Validator.

Lemma validate_from_uri_multipolygon_witness :
  let outcome := _validate_from_uri (error := string) (fun _ _ inst => [])
                   (fun errs => head errs) (fun e => e) (fun _ => "airports-a")
                   (fun _ => inr (JObj [])) ValidatorSamples.store_with_mp
                   (fun _ _ _ _ => Valid) ValidatorSamples.mp_item ITEM
                   ValidatorSamples.item_schema_uri None in
  outcome = Valid /\
  (let geom_type := match assoc_get "type" ValidatorSamples.mp_geometry with
                    | Some v => v | None => JStr "unknown" end in
   (geom_type = JStr "MultiPolygon" ->
     match assoc_get MULTIPOLYGON_SCHEMA_URI ValidatorSamples.store_with_mp with
     | None => outcome = Invalid "MultiPolygon schema not found for validation"
     | Some mp =>
         exists simple,
           (forall k, k <> "geometry" -> k <> "bbox" ->
              assoc_get k simple = assoc_get k ValidatorSamples.mp_item) /\
           assoc_get "geometry" simple = Some placeholder_geometry /\
           assoc_get "bbox" simple = Some placeholder_bbox /\
           (outcome = Valid <-> @nil string = [] /\ @nil string = []) /\
           (@nil string <> [] ->
              exists m, outcome = Invalid ("MultiPolygon geometry validation failed: " ++ m)) /\
           (@nil string = [] -> @nil string <> [] ->
              exists m, outcome = Invalid ("STAC item validation failed (structure): " ++ m))
     end) /\
   (geom_type <> JStr "MultiPolygon" ->
     (outcome = Valid <-> @nil string = []) /\
     (@nil string <> [] -> exists m, outcome = Invalid ("Validation failed for " ++ m)))).
Proof.
  split.
  - vm_compute. reflexivity.
  - apply (validate_from_uri_multipolygon (error := string) (fun _ _ inst => [])
             (fun errs => head errs) (fun e => e) (fun _ => "airports-a")
             (fun _ => inr (JObj [])) ValidatorSamples.store_with_mp (fun _ _ _ _ => Valid)
             ValidatorSamples.mp_item ITEM ValidatorSamples.item_schema_uri None (JObj [])
             ValidatorSamples.mp_geometry).
    + reflexivity.
    + vm_compute. reflexivity.
    + reflexivity.
Defined.

End ValidatorClaims.

(** * Properties of the surrounding code *)

Module BBoxOrderClaims.
Import PyHeap StacUtils GeoJSONDocument ExtraSpec GeoFacts.
Local Open Scope string_scope.

Lemma py_lt_num_l (x y : json) (k : Z) (r : bool) :
  py_num x = Some k -> py_lt x y = Some r -> exists k', py_num y = Some k' /\ r = Z.ltb k k'.
Proof.
  destruct x, y; cbn; intros Hx Hlt; try discriminate;
    injection Hx as <-; injection Hlt as <-; eexists; split; reflexivity.
Qed.

Lemma py_lt_num_r (x y : json) (k : Z) (r : bool) :
  py_num y = Some k -> py_lt x y = Some r -> exists k', py_num x = Some k' /\ r = Z.ltb k' k.
Proof.
  destruct x, y; cbn; intros Hy Hlt; try discriminate;
    injection Hy as <-; injection Hlt as <-; eexists; split; reflexivity.
Qed.

(** A numeric result of [min] is at most the first item, which is then
    a number too; dually for [max]. *)
Lemma min_loop_below (kept m : json) (l : list json) (a : Z) :
  min_max_loop (fun item kept => py_lt item kept) kept l = Some m -> py_num m = Some a ->
  exists k, py_num kept = Some k /\ a <= k.
Proof.
  revert kept. induction l as [|x l IH]; intros kept; cbn [min_max_loop].
  - intros [= ->] Ha. exists a. split; [exact Ha | lia].
  - destruct (py_lt x kept) as [[|]|] eqn:Hlt; [| |discriminate]; intros Hl Ha.
    + destruct (IH x Hl Ha) as (k & Hk & Hle).
      destruct (py_lt_num_l x kept k true Hk Hlt) as (k' & Hk' & E).
      exists k'. split; [exact Hk'|]. symmetry in E. apply Z.ltb_lt in E. lia.
    + exact (IH kept Hl Ha).
Qed.

Lemma max_loop_above (kept m : json) (l : list json) (c : Z) :
  min_max_loop (fun item kept => py_lt kept item) kept l = Some m -> py_num m = Some c ->
  exists k, py_num kept = Some k /\ k <= c.
Proof.
  revert kept. induction l as [|x l IH]; intros kept; cbn [min_max_loop].
  - intros [= ->] Hc. exists c. split; [exact Hc | lia].
  - destruct (py_lt kept x) as [[|]|] eqn:Hlt; [| |discriminate]; intros Hl Hc.
    + destruct (IH x Hl Hc) as (k & Hk & Hle).
      destruct (py_lt_num_r kept x k true Hk Hlt) as (k' & Hk' & E).
      exists k'. split; [exact Hk'|]. symmetry in E. apply Z.ltb_lt in E. lia.
    + exact (IH kept Hl Hc).
Qed.

Lemma py_min_head (x : json) (r : list json) (m : json) (a : Z) :
  py_min (x :: r) = Some m -> py_num m = Some a -> exists k, py_num x = Some k /\ a <= k.
Proof. apply min_loop_below. Qed.

Lemma py_max_head (x : json) (r : list json) (m : json) (c : Z) :
  py_max (x :: r) = Some m -> py_num m = Some c -> exists k, py_num x = Some k /\ k <= c.
Proof. apply max_loop_above. Qed.

Lemma py_min_nil : py_min [] = None.
Proof. reflexivity. Qed.

Lemma bbox_from_coords_ordered (cs bb : list json) (a b c d : Z) :
  calculate_bbox_from_coords cs = Some bb -> map py_num bb = [Some a; Some b; Some c; Some d] ->
  a <= c /\ b <= d.
Proof.
  unfold calculate_bbox_from_coords.
  destruct (map_opt _ cs) as [lons|]; [|discriminate].
  destruct (map_opt _ cs) as [lats|]; [|discriminate].
  destruct (py_min lons) as [m1|] eqn:H1; [|discriminate].
  destruct (py_min lats) as [m2|] eqn:H2; [|discriminate].
  destruct (py_max lons) as [m3|] eqn:H3; [|discriminate].
  destruct (py_max lats) as [m4|] eqn:H4; [|discriminate].
  intros [= <-] Hn. cbn [map] in Hn. injection Hn as Ha Hb Hc Hd.
  destruct lons as [|x1 r1]; [discriminate|]. destruct lats as [|x2 r2]; [discriminate|].
  destruct (py_min_head _ _ _ _ H1 Ha) as (k1 & Hk1 & L1).
  destruct (py_max_head _ _ _ _ H3 Hc) as (k3 & Hk3 & L3).
  destruct (py_min_head _ _ _ _ H2 Hb) as (k2 & Hk2 & L2).
  destruct (py_max_head _ _ _ _ H4 Hd) as (k4 & Hk4 & L4).
  rewrite Hk1 in Hk3. rewrite Hk2 in Hk4. injection Hk3 as <-. injection Hk4 as <-. lia.
Qed.

Lemma geometry_bbox_ordered (geometry : json) (a b c d : Z) :
  map py_num (calculate_bbox_from_geometry geometry) = [Some a; Some b; Some c; Some d] ->
  a <= c /\ b <= d.
Proof.
  unfold calculate_bbox_from_geometry.
  destruct (_extract_coordinates geometry) as [[|c0 cs]|];
    try (intros Hn; cbn in Hn; injection Hn as <- <- <- <-; lia).
  destruct (calculate_bbox_from_coords (c0 :: cs)) eqn:H;
    [|intros Hn; cbn in Hn; injection Hn as <- <- <- <-; lia].
  exact (bbox_from_coords_ordered _ _ a b c d H).
Qed.



Lemma map_opt_in {A B} (f : A -> option B) (l : list A) (ys : list B) (y : B) :
  map_opt f l = Some ys -> In y ys -> exists x, In x l /\ f x = Some y.
Proof.
  revert ys. induction l as [|x l IH]; intros ys; simpl.
  - intros [= <-] [].
  - destruct (f x) as [z|] eqn:Hx; [|discriminate].
    destruct (map_opt f l) as [zs|] eqn:Hl; [|discriminate].
    intros [= <-] [<-|Hin]; [eauto|].
    destruct (IH zs eq_refl Hin) as (x' & ? & ?). eauto.
Qed.

Lemma collection_bbox_ordered (h : heap) (geojson_data : pyval) (bb : list json) (a b c d : Z) :
  _calculate_collection_bbox h geojson_data = Some bb ->
  map py_num bb = [Some a; Some b; Some c; Some d] -> a <= c /\ b <= d.
Proof.
  assert (Hw : map py_num WORLD_BOUNDS_BBOX = [Some a; Some b; Some c; Some d] -> a <= c /\ b <= d)
    by (intros Hn; cbn in Hn; injection Hn as <- <- <- <-; lia).
  unfold _calculate_collection_bbox.
  destruct (dget h geojson_data "type" VNull) as [t|]; [|discriminate].
  destruct (is_str t "Feature").
  { destruct (dget h geojson_data "geometry" VNull); [|discriminate].
    intros [= <-]. apply geometry_bbox_ordered. }
  destruct (is_str t "FeatureCollection"); [|intros [= <-]; exact Hw].
  destruct (dget h geojson_data "features" (VList [])) as [fs|]; [|discriminate].
  destruct (negb (ptruthy h fs)); [intros [= <-]; exact Hw|].
  destruct fs as [| | | |fs|]; try discriminate.
  destruct (map_opt (feature_bbox h) fs) as [bboxes|] eqn:Hmap; [|discriminate].
  destruct (filter _ bboxes) as [|v0 vs] eqn:Hf; [intros [= <-]; exact Hw|].
  assert (Hin : In v0 bboxes).
  { assert (Hin : v0 ∈ filter (fun b => negb (py_eq (JArr b) (JArr WORLD_BOUNDS_BBOX))) bboxes)
      by (rewrite Hf; left).
    apply list_elem_of_filter in Hin as [_ Hin]. apply list_elem_of_In, Hin. }
  destruct (map_opt_in _ _ _ _ Hmap Hin) as (f & _ & Hfb).
  unfold feature_bbox in Hfb. destruct (dget h f "geometry" VNull) as [g|]; [|discriminate].
  injection Hfb as Hv0.
  destruct (py_min (map (fun b => nth 0 b JNull) (v0 :: vs))) as [m1|] eqn:H1; [|discriminate].
  destruct (py_min (map (fun b => nth 1 b JNull) (v0 :: vs))) as [m2|] eqn:H2; [|discriminate].
  destruct (py_max (map (fun b => nth 2 b JNull) (v0 :: vs))) as [m3|] eqn:H3; [|discriminate].
  destruct (py_max (map (fun b => nth 3 b JNull) (v0 :: vs))) as [m4|] eqn:H4; [|discriminate].
  intros [= <-] Hn. cbn [map] in Hn. injection Hn as Ha Hb Hc Hd.
  cbn [map] in H1, H2, H3, H4.
  destruct (py_min_head _ _ _ _ H1 Ha) as (k0 & Hk0 & L0).
  destruct (py_min_head _ _ _ _ H2 Hb) as (k1 & Hk1 & L1).
  destruct (py_max_head _ _ _ _ H3 Hc) as (k2 & Hk2 & L2).
  destruct (py_max_head _ _ _ _ H4 Hd) as (k3 & Hk3 & L3).
  pose proof (BBoxClaims.bbox_length (geometry_or_empty h g)) as Hlen. rewrite Hv0 in Hlen.
  destruct v0 as [|e0 [|e1 [|e2 [|e3 [|]]]]]; try discriminate Hlen.
  cbn [nth] in Hk0, Hk1, Hk2, Hk3.
  assert (Hg : map py_num (calculate_bbox_from_geometry (geometry_or_empty h g)) =
               [Some k0; Some k1; Some k2; Some k3])
    by (rewrite Hv0; cbn [map]; rewrite Hk0, Hk1, Hk2, Hk3; reflexivity).
  destruct (geometry_bbox_ordered _ _ _ _ _ Hg). lia.
Qed.



Lemma build_item_fields (h : heap) (item_id : string) (geometry : json) (bbox : list json)
  (properties : pyval) (collection_id : string) (s3_url : S3Url) (now : string) (item : json) :
  _build_stac_item h item_id geometry bbox properties collection_id s3_url now = Some item ->
  item_field item "id" = Some (JStr item_id) /\ item_field item "collection" = Some (JStr collection_id) /\
  item_field item "geometry" = Some geometry /\ item_field item "bbox" = Some (JArr bbox).
Proof.
  unfold _build_stac_item.
  destruct (dget h properties "datetime" VNull); [|discriminate].
  destruct (dget h properties "date" VNull); [|discriminate].
  destruct (dict_items h properties); [|discriminate].
  intros [= <-]. repeat split.
Qed.

Lemma polygon_bbox (a b c d : Z) (geometry : json) :
  a <= c -> b <= d -> geometry_from_bbox (map JNum [a; b; c; d]) = Some geometry ->
  calculate_bbox_from_geometry geometry = map JNum [a; b; c; d].
Proof.
  intros Hac Hbd [= <-]. cbv -[py_min py_max].
  change [JNum a; JNum c; JNum c; JNum a; JNum a] with (map JNum [a; c; c; a; a]).
  change [JNum b; JNum b; JNum d; JNum d; JNum b] with (map JNum [b; b; d; d; b]).
  rewrite !py_min_num, !py_max_num. cbn [fold_left map].
  repeat f_equal; lia.
Qed.

(** X3: for a FeatureCollection document, the whole-document STAC item
    [_create_stac_item_from_geojson] returns carries as [bbox] the box
    its Polygon [geometry] was built from by [geometry_from_bbox]; when
    that box is four integers, computing the bbox of the geometry again
    gives the same box: the item's geometry and bbox agree. *)
Theorem feature_collection_item_bbox_geometry (h : heap) (geojson_data : pyval) (s3_url : S3Url)
  (collection_id item_id now : string)
  (Htype : dget h geojson_data "type" VNull = Some (VStr "FeatureCollection")) :
  match _create_stac_item_from_geojson h geojson_data s3_url collection_id item_id now with
  | Some (_, item) =>
      exists bbox geometry,
        item_field item "bbox" = Some (JArr bbox) /\
        item_field item "geometry" = Some geometry /\
        geometry_from_bbox bbox = Some geometry /\
        (forall min_lon min_lat max_lon max_lat,
           bbox = map JNum [min_lon; min_lat; max_lon; max_lat] ->
           calculate_bbox_from_geometry geometry = bbox)
  | None => True
  end.
Proof.
  unfold _create_stac_item_from_geojson. rewrite Htype. unfold is_str.
  replace (String.eqb "FeatureCollection" "Feature") with false by reflexivity.
  replace (String.eqb "FeatureCollection" "FeatureCollection") with true by reflexivity.
  destruct (dget h geojson_data "features" (VList [])) as [f0|]; [|exact I].
  destruct (dget h geojson_data "properties" VNull) as [p0|]; [|exact I].
  destruct (negb _); [exact I|].
  destruct (or_new_dict h p0) as [h1 properties].
  destruct (py_len h1 _) as [n|]; [|exact I].
  destruct (setdefault h1 properties "feature_count" (VNum (Z.of_nat n))) as [h2|]; [|exact I].
  destruct (_calculate_collection_bbox h2 geojson_data) as [bbox|] eqn:Hb; [|exact I].
  destruct (geometry_from_bbox bbox) as [geometry|] eqn:Hg; [|exact I].
  destruct (_build_stac_item h2 item_id geometry bbox properties collection_id s3_url now)
    as [item|] eqn:Hi; [|exact I].
  destruct (build_item_fields _ _ _ _ _ _ _ _ _ Hi) as (_ & _ & Hgeo & Hbbox).
  exists bbox, geometry. repeat split; try assumption.
  intros a b c d ->.
  destruct (collection_bbox_ordered _ _ _ a b c d Hb eq_refl).
  apply polygon_bbox; assumption.
Qed.

Lemma feature_collection_item_bbox_geometry_witness :
  dget Samples.fc_heap (VDict 1) "type" VNull = Some (VStr "FeatureCollection") /\
  match _create_stac_item_from_geojson Samples.fc_heap (VDict 1) Samples.s3_sample "airports"
          "airports-a" "2024-01-01T00:00:00Z" with
  | Some (_, item) =>
      exists bbox geometry,
        item_field item "bbox" = Some (JArr bbox) /\
        item_field item "geometry" = Some geometry /\
        geometry_from_bbox bbox = Some geometry /\
        (forall min_lon min_lat max_lon max_lat,
           bbox = map JNum [min_lon; min_lat; max_lon; max_lat] ->
           calculate_bbox_from_geometry geometry = bbox)
  | None => True
  end.
Proof.
  split; [vm_compute; reflexivity|].
  apply (feature_collection_item_bbox_geometry Samples.fc_heap (VDict 1) Samples.s3_sample
           "airports" "airports-a" "2024-01-01T00:00:00Z").
  vm_compute. reflexivity.
Defined.

End BBoxOrderClaims.

Module FeatureItemClaims.
Import PyHeap StacUtils GeoJSONDocument FeatureCountSpec ExtraSpec.
Local Open Scope string_scope.

Lemma or_new_dict_keeps (h : heap) (v : pyval) :
  forall l kvs, h !! l = Some kvs -> (fst (or_new_dict h v)) !! l = Some kvs.
Proof.
  intros l kvs Hl. unfold or_new_dict. destruct (ptruthy h v); [exact Hl|].
  unfold alloc_dict. cbv zeta. cbn [fst].
  etransitivity; [apply lookup_insert_ne; exact (FeatureCountClaims.fresh_ne h l kvs Hl)|exact Hl].
Qed.

(** X4: the per-feature item of decomposed mode: when [_create_stac_item]
    succeeds, the item's [id] is [generate_deterministic_id] of the
    feature, its [collection] is the given collection id, its [bbox] is
    [calculate_bbox_from_geometry] of its own [geometry], and every dict
    that existed before the call (the feature and its properties
    included) is left unchanged. *)
Theorem create_stac_item_shape (h : heap) (feature : pyval) (s3_url : S3Url)
  (collection_id now : string) :
  match FeatureItem._create_stac_item h feature s3_url collection_id now with
  | Some (h1, item) =>
      (exists item_id,
         GeoJSONProcessor.generate_deterministic_id (read h feature) collection_id (key s3_url)
           = Some item_id /\ item_field item "id" = Some (JStr item_id)) /\
      item_field item "collection" = Some (JStr collection_id) /\
      (exists geometry,
         item_field item "geometry" = Some geometry /\
         item_field item "bbox" = Some (JArr (calculate_bbox_from_geometry geometry))) /\
      (forall l kvs, h !! l = Some kvs -> h1 !! l = Some kvs)
  | None => True
  end.
Proof.
  unfold FeatureItem._create_stac_item.
  destruct (GeoJSONProcessor.generate_deterministic_id _ _ _) as [item_id|] eqn:Hid; [|exact I].
  destruct (dget h feature "geometry" VNull) as [g|]; [|exact I].
  destruct (dget h feature "properties" VNull) as [p0|]; [|exact I].
  pose proof (or_new_dict_keeps h p0) as Hkeep.
  destruct (or_new_dict h p0) as [h1 properties].
  destruct (_build_stac_item _ _ _ _ _ _ _ _) as [item|] eqn:Hi; [|exact I].
  destruct (BBoxOrderClaims.build_item_fields _ _ _ _ _ _ _ _ _ Hi) as (H1 & H2 & H3 & H4).
  split; [eauto|]. split; [exact H2|]. split; [eauto|]. exact Hkeep.
Qed.

Lemma merge_property_other (h : heap) (k : string) (items : list (string * pyval))
  (acc : list (string * json)) :
  String.eqb k "datetime" || String.eqb k "date" = false ->
  NoDup (map fst items) ->
  assoc_get k (fold_left (merge_property h) items acc) =
    match assoc_get k items with
    | Some v => Some (read h v)
    | None => assoc_get k acc
    end.
Proof.
  intros Hk. revert acc. induction items as [|[k' v] r IH]; intros acc Hnd;
    cbn [fold_left assoc_get]; [reflexivity|].
  inversion Hnd as [|? ? Hnin Hnd']; subst.
  rewrite (IH _ Hnd'). unfold merge_property. cbn [fst snd].
  destruct (String.eqb k k') eqn:E.
  - apply String.eqb_eq in E; subst k'.
    rewrite (FeatureCountClaims.assoc_get_not_in _ _ Hnin), Hk.
    rewrite FeatureCountClaims.assoc_get_dict_set, String.eqb_refl. reflexivity.
  - destruct (assoc_get k r); [reflexivity|].
    destruct (String.eqb k' "datetime" || String.eqb k' "date"); [reflexivity|].
    rewrite FeatureCountClaims.assoc_get_dict_set, E. reflexivity.
Qed.

Lemma merge_property_reserved (h : heap) (k : string) (items : list (string * pyval))
  (acc : list (string * json)) :
  String.eqb k "datetime" || String.eqb k "date" = true ->
  assoc_get k (fold_left (merge_property h) items acc) = assoc_get k acc.
Proof.
  intros Hk. revert acc. induction items as [|[k' v] r IH]; intros acc;
    cbn [fold_left]; [reflexivity|].
  rewrite IH. unfold merge_property. cbn [fst snd].
  destruct (String.eqb k' "datetime" || String.eqb k' "date") eqn:E; [reflexivity|].
  rewrite FeatureCountClaims.assoc_get_dict_set.
  destruct (String.eqb k k') eqn:E2; [|reflexivity].
  apply String.eqb_eq in E2; subst k'. congruence.
Qed.

(** X5: for a properties dict (distinct keys), the item [_build_stac_item]
    returns has as [datetime] the caller's [datetime] if truthy, else its
    [date] if truthy, else the current time; it has no [date] property;
    every other key takes the caller's value when the caller has it
    (overriding the defaults [data_type = "vector"] and
    [geometry_simplified = True]) and the default otherwise. *)
Theorem build_stac_item_properties (h : heap) (item_id : string) (geometry : json)
  (bbox : list json) (pl : positive) (kvs : list (string * pyval)) (collection_id : string)
  (s3_url : S3Url) (now : string)
  (Hpl : h !! pl = Some kvs) (Hnd : NoDup (map fst kvs)) :
  exists item,
    _build_stac_item h item_id geometry bbox (VDict pl) collection_id s3_url now = Some item /\
    item_property item "datetime" =
      Some (if ptruthy h (pget kvs "datetime") then read h (pget kvs "datetime")
            else if ptruthy h (pget kvs "date") then read h (pget kvs "date")
            else JStr now) /\
    item_property item "date" = None /\
    (forall k, k <> "datetime" -> k <> "date" ->
       item_property item k =
         match assoc_get k kvs with
         | Some v => Some (read h v)
         | None => assoc_get k [("data_type", JStr "vector"); ("geometry_simplified", JBool true)]
         end).
Proof.
  unfold _build_stac_item. cbn [dget dict_items]. rewrite Hpl.
  eexists. split; [reflexivity|].
  rewrite !FeatureCountClaims.item_property_build.
  split; [|split].
  - rewrite merge_property_reserved by reflexivity. unfold pget.
    destruct (ptruthy h (match assoc_get "datetime" kvs with Some v => v | None => VNull end)) eqn:E;
      simpl; rewrite ?E; reflexivity.
  - rewrite merge_property_reserved by reflexivity. reflexivity.
  - intros k Hk1 Hk2. rewrite FeatureCountClaims.item_property_build. rewrite (merge_property_other h k kvs _); [|apply orb_false_iff; split; apply String.eqb_neq; assumption|exact Hnd].
    destruct (assoc_get k kvs); [reflexivity|].
    cbn [assoc_get]. rewrite (proj2 (String.eqb_neq k "datetime") Hk1). reflexivity.
Qed.

Lemma build_stac_item_properties_witness :
  let h : heap := {[1%positive := [("date", VStr "2020-01-01"); ("data_type", VStr "points")]]} in
  exists item,
    _build_stac_item h "c-x-0" JNull (map JNum [0; 0; 1; 1]) (VDict 1) "c" Samples.s3_sample "now" = Some item /\
    item_property item "datetime" =
      Some (if ptruthy h (pget [("date", VStr "2020-01-01"); ("data_type", VStr "points")] "datetime")
            then read h (pget [("date", VStr "2020-01-01"); ("data_type", VStr "points")] "datetime")
            else if ptruthy h (pget [("date", VStr "2020-01-01"); ("data_type", VStr "points")] "date")
            then read h (pget [("date", VStr "2020-01-01"); ("data_type", VStr "points")] "date")
            else JStr "now") /\
    item_property item "date" = None /\
    (forall k, k <> "datetime" -> k <> "date" ->
       item_property item k =
         match assoc_get k [("date", VStr "2020-01-01"); ("data_type", VStr "points")] with
         | Some v => Some (read h v)
         | None => assoc_get k [("data_type", JStr "vector"); ("geometry_simplified", JBool true)]
         end).
Proof.
  intros h.
  apply (build_stac_item_properties h "c-x-0" JNull (map JNum [0; 0; 1; 1]) 1
           [("date", VStr "2020-01-01"); ("data_type", VStr "points")]).
  - vm_compute. reflexivity.
  - apply (bool_decide_unpack (NoDup (map fst [("date", VStr "2020-01-01"); ("data_type", VStr "points")]))). vm_compute. exact I.
Defined.

End FeatureItemClaims.

Module IdShapeClaims.
Import PyStr Digest ExtraSpec.
Local Open Scope string_scope.

Lemma ascii_forall (p : ascii -> bool) :
  forallb (fun n => p (ascii_of_nat n)) (seq 0 256) = true -> forall a, p a = true.
Proof.
  intros H a. rewrite <- (ascii_nat_embedding a).
  rewrite forallb_forall in H. apply H. apply in_seq.
  pose proof (nat_ascii_bounded a). lia.
Qed.

Lemma all_chars_cons (p : ascii -> bool) (a : ascii) (s : string) :
  all_chars p (String a s) = p a && all_chars p s.
Proof. reflexivity. Qed.



















Lemma split_nonempty (sep : ascii) (s : string) : split sep s <> [].
Proof.
  destruct s as [|a r]; simpl; [discriminate|].
  destruct (Ascii.eqb a sep); [discriminate|]. destruct (split sep r); discriminate.
Qed.

Lemma split_app (a b : string) : split "/" (a ++ String "/" b) = (split "/" a ++ split "/" b)%list.
Proof.
  induction a as [|c r IH]; [reflexivity|].
  change (String c r ++ String "/" b) with (String c (r ++ String "/" b)).
  cbn [split]. rewrite IH.
  destruct (Ascii.eqb c "/"); [reflexivity|].
  destruct (split "/" r) as [|p ps] eqn:E; [exfalso; exact (split_nonempty _ _ E)|].
  reflexivity.
Qed.

Lemma split_no_sep (b : string) :
  all_chars (fun c => negb (Ascii.eqb c "/")) b = true -> split "/" b = [b].
Proof.
  induction b as [|c r IH]; intros H; [reflexivity|].
  rewrite all_chars_cons in H. apply andb_true_iff in H as [Hc Hr].
  cbn [split]. rewrite (IH Hr). destruct (Ascii.eqb c "/"); [discriminate|reflexivity].
Qed.

Lemma nth_second_last {A} (l : list A) (x d : A) :
  l <> [] -> nth (length (l ++ [x]) - 2) (l ++ [x]) d = List.last l d.
Proof.
  intros Hl. destruct l as [|y l'] using rev_ind; [congruence|].
  rewrite List.last_last, length_app, length_app. simpl.
  replace (length l' + 1 + 1 - 2)%nat with (length l') by lia.
  rewrite <- app_assoc. apply nth_middle.
Qed.

(** X8: for a key with a directory, [dir + "/" + filename] with no
    ["/"] in the file name, [extract_collection_from_key] ignores the file
    name: the collection is the last path segment of [dir], lower-cased,
    with underscores and spaces replaced by hyphens, or ["user-data"]
    when that is empty. *)
Theorem extract_collection_from_key_dir (dir filename : string)
  (Hfile : all_chars (fun c => negb (Ascii.eqb c "/")) filename = true) :
  GeoJSONProcessor.extract_collection_from_key (dir ++ String "/" filename) =
    let name := replace_char " " "-" (replace_char "_" "-" (lower (List.last (split "/" dir) EmptyString))) in
    if String.eqb name EmptyString then "user-data" else name.
Proof.
  unfold GeoJSONProcessor.extract_collection_from_key.
  rewrite split_app, (split_no_sep _ Hfile).
  assert (Hlen : (length (split "/" dir ++ [filename]) <? 2)%nat = false).
  { rewrite length_app. destruct (split "/" dir) eqn:E; [exfalso; exact (split_nonempty _ _ E)|].
    simpl. apply Nat.ltb_ge. lia. }
  cbv zeta. rewrite Hlen. rewrite nth_second_last by apply split_nonempty. reflexivity.
Qed.

Lemma extract_collection_from_key_dir_witness :
  all_chars (fun c => negb (Ascii.eqb c "/")) "a.geojson" = true /\
  GeoJSONProcessor.extract_collection_from_key ("uploads/My_Airports" ++ String "/" "a.geojson") =
    let name := replace_char " " "-" (replace_char "_" "-"
                  (lower (List.last (split "/" "uploads/My_Airports") EmptyString))) in
    if String.eqb name EmptyString then "user-data" else name.
Proof.
  split; [vm_compute; reflexivity|].
  apply (extract_collection_from_key_dir "uploads/My_Airports" "a.geojson").
  vm_compute. reflexivity.
Defined.

End IdShapeClaims.

Module SettingClaims.
Import PyStr ProcessorBase Deconstructed ProcessFlow ExtraSpec.
Local Open Scope string_scope.

Lemma las_app (a b : string) :
  list_ascii_of_string (a ++ b) = (list_ascii_of_string a ++ list_ascii_of_string b)%list.
Proof. induction a as [|c r IH]; simpl; [reflexivity|]. rewrite IH. reflexivity. Qed.

Lemma sla_app (a b : list ascii) :
  string_of_list_ascii (a ++ b) = string_of_list_ascii a ++ string_of_list_ascii b.
Proof. induction a as [|c r IH]; simpl; [reflexivity|]. rewrite IH. reflexivity. Qed.

Lemma all_chars_forallb (p : ascii -> bool) (l : list ascii) :
  all_chars p (string_of_list_ascii l) = forallb p l.
Proof. unfold all_chars. rewrite list_ascii_of_string_of_list_ascii. reflexivity. Qed.

Lemma forallb_rev' (p : ascii -> bool) (l : list ascii) : forallb p (rev l) = forallb p l.
Proof.
  induction l as [|a r IH]; simpl; [reflexivity|].
  rewrite forallb_app, IH. simpl. rewrite andb_true_r, andb_comm. reflexivity.
Qed.

Lemma lstrip_spaces (ws l : list ascii) :
  forallb isspace ws = true -> lstrip_ws (ws ++ l) = lstrip_ws l.
Proof.
  induction ws as [|a r IH]; intros H; [reflexivity|].
  simpl in H. apply andb_true_iff in H as [Ha Hr]. simpl. rewrite Ha. apply IH, Hr.
Qed.

Lemma lstrip_split (l : list ascii) :
  exists ws, l = (ws ++ lstrip_ws l)%list /\ forallb isspace ws = true /\
    match lstrip_ws l with a :: _ => isspace a = false | [] => True end.
Proof.
  induction l as [|a r IH]; [exists []; simpl; repeat split|].
  simpl. destruct (isspace a) eqn:Ha.
  - destruct IH as (ws & Hr & Hws & Hh). exists (a :: ws). simpl. rewrite Ha, Hws, <- Hr.
    repeat split; exact Hh.
  - exists []. simpl. rewrite Ha. repeat split.
Qed.

Lemma strip_middle (ws1 ws2 r : list ascii) (a b : ascii) :
  forallb isspace ws1 = true -> forallb isspace ws2 = true ->
  isspace a = false -> isspace b = false ->
  rev (lstrip_ws (rev (lstrip_ws (ws1 ++ (a :: r ++ [b]) ++ ws2)))) = (a :: r ++ [b])%list.
Proof.
  intros H1 H2 Ha Hb.
  rewrite lstrip_spaces by exact H1. cbn [app lstrip_ws]. rewrite Ha.
  change (a :: (r ++ [b]) ++ ws2)%list with (((a :: r) ++ [b]) ++ ws2)%list.
  rewrite rev_app_distr, lstrip_spaces by (rewrite forallb_rev'; exact H2).
  rewrite rev_app_distr. cbn [rev app lstrip_ws]. rewrite Hb.
  cbn [rev]. rewrite rev_app_distr, rev_involutive. reflexivity.
Qed.

Lemma lower_true_chars (t : string) :
  lower t = "true" ->
  exists a r b, list_ascii_of_string t = (a :: r ++ [b])%list /\ isspace a = false /\ isspace b = false.
Proof.
  destruct t as [|a [|b [|c [|d [|e r]]]]]; simpl; try discriminate.
  intros H. injection H as Ha Hb Hc Hd.
  assert (Ht : forall x, negb (Ascii.eqb (lower_char x) "t") || negb (isspace x) = true)
    by (apply IdShapeClaims.ascii_forall; vm_compute; reflexivity).
  assert (He : forall x, negb (Ascii.eqb (lower_char x) "e") || negb (isspace x) = true)
    by (apply IdShapeClaims.ascii_forall; vm_compute; reflexivity).
  specialize (Ht a); specialize (He d). rewrite Ha in Ht; rewrite Hd in He.
  exists a, [b; c], d. split; [reflexivity|].
  destruct (isspace a), (isspace d); try discriminate; auto.
Qed.

(** X9: the setting read from the [DECONSTRUCT_FEATURE_COLLECTIONS]
    environment variable or S3 tag ([value.strip().lower() == "true"])
    holds exactly when the value is the word [true] in any mix of upper
    and lower case, with optional leading and trailing whitespace. *)
Theorem setting_true_iff (value : string) :
  setting_true value = true <->
  exists pre t post, value = pre ++ t ++ post /\
    all_chars isspace pre = true /\ all_chars isspace post = true /\ lower t = "true".
Proof.
  unfold setting_true, py_strip. split.
  - intros H. apply String.eqb_eq in H.
    destruct (lstrip_split (list_ascii_of_string value)) as (ws1 & H1 & Hws1 & _).
    destruct (lstrip_split (rev (lstrip_ws (list_ascii_of_string value)))) as (ws2 & H2 & Hws2 & _).
    exists (string_of_list_ascii ws1),
      (string_of_list_ascii (rev (lstrip_ws (rev (lstrip_ws (list_ascii_of_string value)))))),
      (string_of_list_ascii (rev ws2)).
    split; [|split; [|split]].
    + rewrite <- sla_app, <- sla_app.
      rewrite <- (string_of_list_ascii_of_string value) at 1. f_equal.
      rewrite H1 at 1. f_equal.
      rewrite <- rev_app_distr, <- H2, rev_involutive. reflexivity.
    + rewrite all_chars_forallb. exact Hws1.
    + rewrite all_chars_forallb, forallb_rev'. exact Hws2.
    + exact H.
  - intros (pre & t & post & -> & Hpre & Hpost & Ht).
    apply String.eqb_eq. rewrite <- Ht. f_equal.
    destruct (lower_true_chars t Ht) as (a & r & b & Hlt & Ha & Hb).
    rewrite !las_app, Hlt. unfold all_chars in Hpre, Hpost.
    rewrite (strip_middle _ _ _ _ _ Hpre Hpost Ha Hb), <- Hlt.
    apply string_of_list_ascii_of_string.
Qed.

Lemma scan_tags_skip (pre post : list json) :
  Forall (fun tag => exists kvs, tag = JObj kvs /\
            json_is_str (match assoc_get "Key" kvs with Some k => k | None => JNull end)
              DECONSTRUCT_FEATURE_COLLECTIONS = false) pre ->
  scan_tags (app pre post) = scan_tags post.
Proof.
  induction 1 as [|t pre (kvs & -> & Hk) _ IH]; [reflexivity|].
  cbn [app scan_tags py_get]. unfold json_is_str in Hk. rewrite Hk. exact IH.
Qed.

(** X10: reading the S3 tag setting. When every tag before a given point
    is a dict whose [Key] is not [DECONSTRUCT_FEATURE_COLLECTIONS], a tag
    set with no such tag gives no setting (the environment decides), and
    otherwise the first tag with that key decides whatever follows it:
    its string [Value] is read as [value.strip().lower() == "true"], a
    missing [Value] gives false, and a non-string [Value] makes the read
    fail, which again gives no setting. *)
Theorem s3_tag_setting (pre : list json)
  (Hpre : Forall (fun tag => exists kvs, tag = JObj kvs /\
            json_is_str (match assoc_get "Key" kvs with Some k => k | None => JNull end)
              DECONSTRUCT_FEATURE_COLLECTIONS = false) pre) :
  _get_deconstruct_setting_from_s3_tag (Ok pre) = None /\
  (forall (tag : list (string * json)) (post : list json),
     assoc_get "Key" tag = Some (JStr DECONSTRUCT_FEATURE_COLLECTIONS) ->
     _get_deconstruct_setting_from_s3_tag (Ok (app pre (JObj tag :: post))) =
       match assoc_get "Value" tag with
       | None => Some false
       | Some (JStr v) => Some (setting_true v)
       | Some _ => None
       end).
Proof.
  split.
  - unfold _get_deconstruct_setting_from_s3_tag.
    rewrite <- (app_nil_r pre), (scan_tags_skip _ _ Hpre). reflexivity.
  - intros tag post Hkey. unfold _get_deconstruct_setting_from_s3_tag.
    rewrite (scan_tags_skip _ _ Hpre). cbn [scan_tags py_get]. rewrite Hkey.
    rewrite String.eqb_refl.
    destruct (assoc_get "Value" tag) as [[]|]; reflexivity.
Qed.

Lemma s3_tag_setting_witness :
  let pre := [JObj [("Key", JStr "owner"); ("Value", JStr "ops")]] in
  Forall (fun tag => exists kvs, tag = JObj kvs /\
            json_is_str (match assoc_get "Key" kvs with Some k => k | None => JNull end)
              DECONSTRUCT_FEATURE_COLLECTIONS = false) pre /\
  _get_deconstruct_setting_from_s3_tag (Ok pre) = None /\
  (forall (tag : list (string * json)) (post : list json),
     assoc_get "Key" tag = Some (JStr DECONSTRUCT_FEATURE_COLLECTIONS) ->
     _get_deconstruct_setting_from_s3_tag (Ok (app pre (JObj tag :: post))) =
       match assoc_get "Value" tag with
       | None => Some false
       | Some (JStr v) => Some (setting_true v)
       | Some _ => None
       end).
Proof.
  intros pre.
  assert (H : Forall (fun tag => exists kvs, tag = JObj kvs /\
            json_is_str (match assoc_get "Key" kvs with Some k => k | None => JNull end)
              DECONSTRUCT_FEATURE_COLLECTIONS = false) pre).
  { constructor; [eexists; split; [reflexivity|vm_compute; reflexivity]|constructor]. }
  split; [exact H|]. apply (s3_tag_setting pre H).
Defined.

End SettingClaims.

Module ProcessFlowClaims.
Import PyStr ProcessorBase Deconstructed ProcessFlow FlowSamples.
Local Open Scope string_scope.

Section Process.
Context {Item : Type}.
Variable image_uri collection_id : string.
Variable s3_url : GeoJSONDocument.S3Url.
Variable url : string.
Variable env : option string.
Variable get_object_tagging : GeoJSONDocument.S3Url -> result (list json).
Variable download_file : GeoJSONDocument.S3Url -> result (option string).
Variable load_json : string -> result json.
Variable remove_file : string -> result unit.
Variable _create_stac_item_from_geojson : json -> string -> result Item.
Variable validate_stac_item : Item -> result unit.
Variable item_message : Item -> result (string * string).
Variable publish_message : string -> string -> result unit.
Variable _process_deconstructed : json -> string -> state -> state * result response.
Variable stack_trace : list string.

Abbreviation process' := (process image_uri collection_id s3_url url env get_object_tagging
  download_file load_json remove_file _create_stac_item_from_geojson validate_stac_item
  item_message publish_message _process_deconstructed stack_trace).
Abbreviation process_single' := (_process_single _create_stac_item_from_geojson validate_stac_item
  item_message publish_message stack_trace).

(** X11: once the file is downloaded and parsed as a dict, [process]
    uses decomposed mode exactly when the setting (the S3 tag when it
    gives one, the environment variable otherwise) is on and the
    document's [type] is ["FeatureCollection"], handing it the
    document's [features] (default [[]]); every other document, and
    every document when the setting is off, goes to single mode. Both
    get the collection id [resolve_collection_id] derives. *)
Theorem process_routing (st : state) (file_path : string) (kvs : list (string * json))
  (Hdl : download_file s3_url = Ok (Some file_path))
  (Hload : load_json file_path = Ok (JObj kvs)) :
  exists st',
    process' st =
      if (match _get_deconstruct_setting_from_s3_tag (get_object_tagging s3_url) with
          | Some b => b
          | None => env_deconstruct env
          end) &&
         json_is_str (match assoc_get "type" kvs with Some t => t | None => JNull end)
           "FeatureCollection"
      then finish stack_trace
             (_process_deconstructed
                (match assoc_get "features" kvs with Some f => f | None => JArr [] end)
                (GeoJSONProcessor.resolve_collection_id collection_id (GeoJSONDocument.key s3_url)) st')
      else finish stack_trace
             (process_single' (JObj kvs)
                (GeoJSONProcessor.resolve_collection_id collection_id (GeoJSONDocument.key s3_url)) st').
Proof.
  unfold process, _download_and_parse_geojson. rewrite Hdl, Hload.
  destruct (_get_deconstruct_setting_from_s3_tag (get_object_tagging s3_url)) as [b|];
    destruct (remove_file file_path);
    cbn [StacValidator.get_attr py_get];
    match goal with
    | |- context [if ?d then _ else _] =>
        destruct d; cbn [andb];
        [destruct (json_is_str (match assoc_get "type" kvs with Some t => t | None => JNull end)
                     "FeatureCollection") | ];
        eexists; reflexivity
    end.
Qed.

(** X12: when the download raises, returns no file, or the file does not
    parse, [process] publishes nothing and answers with the failure
    response of a [ValueError] whose message is
    ["Failed to download or parse GeoJSON file: "] followed by the cause
    (for a missing file, the message
    ["Failed to download GeoJSON file from " + url] raised inside the
    same [try]). *)
Theorem process_download_failure (st : state)
  (Hfail : match download_file s3_url with
           | Ok (Some file_path) => exists e, load_json file_path = Raise e
           | _ => True
           end) :
  published (fst (process' st)) = published st /\
  snd (process' st) =
    failure_message stack_trace
      (ValueError ("Failed to download or parse GeoJSON file: " ++
         match download_file s3_url with
         | Raise e => exn_str e
         | Ok None => "Failed to download GeoJSON file from " ++ url
         | Ok (Some file_path) =>
             match load_json file_path with Raise e => exn_str e | Ok _ => EmptyString end
         end)).
Proof.
  unfold process, _download_and_parse_geojson.
  destruct (download_file s3_url) as [[file_path|]|e].
  - destruct Hfail as [e He]. rewrite He.
    destruct (_get_deconstruct_setting_from_s3_tag (get_object_tagging s3_url)); split; reflexivity.
  - destruct (_get_deconstruct_setting_from_s3_tag (get_object_tagging s3_url)); split; reflexivity.
  - destruct (_get_deconstruct_setting_from_s3_tag (get_object_tagging s3_url)); split; reflexivity.
Qed.

(** X13: single mode publishes at most one message, and only once the
    item was built, validated and serialised and the publication itself
    succeeded; it then answers with success. A [StacValidationError] of
    the item is answered with a failure response (not raised) and
    publishes nothing. *)
Theorem process_single_publication (geojson_data : json) (cid : string) (st : state) :
  ((published (fst (process_single' geojson_data cid st)) = published st /\
    snd (process_single' geojson_data cid st) <>
      Ok (success_message "GeoJSON processed successfully: 1/1 STAC items published")) \/
   (exists stac_item body item_id,
      _create_stac_item_from_geojson geojson_data cid = Ok stac_item /\
      validate_stac_item stac_item = Ok tt /\
      item_message stac_item = Ok (body, item_id) /\
      publish_message body ("STAC Item: " ++ item_id) = Ok tt /\
      published (fst (process_single' geojson_data cid st)) =
        app (published st) [(body, "STAC Item: " ++ item_id)] /\
      snd (process_single' geojson_data cid st) =
        Ok (success_message "GeoJSON processed successfully: 1/1 STAC items published"))) /\
  (forall stac_item m,
     _create_stac_item_from_geojson geojson_data cid = Ok stac_item ->
     validate_stac_item stac_item = Raise (StacValidationError m) ->
     published (fst (process_single' geojson_data cid st)) = published st /\
     snd (process_single' geojson_data cid st) = Ok (failure_message stack_trace (StacValidationError m))).
Proof.
  unfold _process_single. split.
  - destruct (_create_stac_item_from_geojson geojson_data cid) as [stac_item|e];
      [|left; split; [reflexivity|discriminate]].
    destruct (validate_stac_item stac_item) as [[]|e] eqn:Hv;
      [|left; destruct e; (split; [reflexivity|]); intros H;
         first [discriminate H
               |apply (f_equal (fun r => match r with Ok x => statusCode x | Raise _ => 0%Z end)) in H;
                cbn in H; discriminate H]].
    destruct (item_message stac_item) as [[body item_id]|e] eqn:Hm;
      [|left; split; [reflexivity|discriminate]].
    destruct (publish_message body ("STAC Item: " ++ item_id)) as [[]|e] eqn:Hp;
      [|left; split; [reflexivity|discriminate]].
    right. exists stac_item, body, item_id. repeat split; assumption.
  - intros stac_item m Hc Hv. rewrite Hc, Hv. split; reflexivity.
Qed.

End Process.
Lemma process_routing_witness :
  let download_file := fun (_ : GeoJSONDocument.S3Url) => Ok (Some "/tmp/a.geojson") in
  let load_json := fun (_ : string) => Ok (JObj sample_doc) in
  let deconstructed := fun (_ : json) (_ : string) (st : state) =>
    (st, Ok (success_message "decomposed")) in
  download_file Samples.s3_sample = Ok (Some "/tmp/a.geojson") /\
  load_json "/tmp/a.geojson" = Ok (JObj sample_doc) /\
  exists st',
    process (Item := unit) "s3://bucket/uploads/airports/a.geojson" "OSML" Samples.s3_sample
      "s3://bucket/uploads/airports/a.geojson" None (fun _ => sample_tags) download_file
      load_json (fun _ => Ok tt) (fun _ _ => Ok tt) (fun _ => Ok tt) (fun _ => Ok ("{}", "x"))
      (fun _ _ => Ok tt) deconstructed [] {| published := []; logs := [] |} =
      if (match _get_deconstruct_setting_from_s3_tag sample_tags with
          | Some b => b
          | None => env_deconstruct None
          end) &&
         json_is_str (match assoc_get "type" sample_doc with Some t => t | None => JNull end)
           "FeatureCollection"
      then finish []
             (deconstructed
                (match assoc_get "features" sample_doc with Some f => f | None => JArr [] end)
                (GeoJSONProcessor.resolve_collection_id "OSML" (GeoJSONDocument.key Samples.s3_sample)) st')
      else finish []
             (_process_single (fun _ _ => Ok tt) (fun _ => Ok tt) (fun _ => Ok ("{}", "x"))
                (fun _ _ => Ok tt) [] (JObj sample_doc)
                (GeoJSONProcessor.resolve_collection_id "OSML" (GeoJSONDocument.key Samples.s3_sample)) st').
Proof.
  intros download_file load_json deconstructed.
  split; [reflexivity|]. split; [reflexivity|].
  apply (process_routing (Item := unit) "s3://bucket/uploads/airports/a.geojson" "OSML"
           Samples.s3_sample "s3://bucket/uploads/airports/a.geojson" None (fun _ => sample_tags)
           download_file load_json (fun _ => Ok tt) (fun _ _ => Ok tt) (fun _ => Ok tt)
           (fun _ => Ok ("{}", "x")) (fun _ _ => Ok tt) deconstructed []
           {| published := []; logs := [] |} "/tmp/a.geojson" sample_doc).
  - reflexivity.
  - reflexivity.
Defined.

Lemma process_download_failure_witness :
  let download_file := fun (_ : GeoJSONDocument.S3Url) => Ok (@None string) in
  match download_file Samples.s3_sample with
  | Ok (Some file_path) => exists e, (fun (_ : string) => Ok (JObj sample_doc)) file_path = Raise e
  | _ => True
  end /\
  published (fst (process (Item := unit) "s3://bucket/uploads/airports/a.geojson" "OSML"
      Samples.s3_sample "s3://bucket/uploads/airports/a.geojson" None (fun _ => sample_tags)
      download_file (fun _ => Ok (JObj sample_doc)) (fun _ => Ok tt) (fun _ _ => Ok tt)
      (fun _ => Ok tt) (fun _ => Ok ("{}", "x")) (fun _ _ => Ok tt)
      (fun _ _ st => (st, Ok (success_message "decomposed"))) [] {| published := []; logs := [] |}))
    = [] /\
  snd (process (Item := unit) "s3://bucket/uploads/airports/a.geojson" "OSML"
      Samples.s3_sample "s3://bucket/uploads/airports/a.geojson" None (fun _ => sample_tags)
      download_file (fun _ => Ok (JObj sample_doc)) (fun _ => Ok tt) (fun _ _ => Ok tt)
      (fun _ => Ok tt) (fun _ => Ok ("{}", "x")) (fun _ _ => Ok tt)
      (fun _ _ st => (st, Ok (success_message "decomposed"))) [] {| published := []; logs := [] |}) =
    failure_message []
      (ValueError ("Failed to download or parse GeoJSON file: " ++
         match download_file Samples.s3_sample with
         | Raise e => exn_str e
         | Ok None => "Failed to download GeoJSON file from " ++ "s3://bucket/uploads/airports/a.geojson"
         | Ok (Some file_path) =>
             match (fun (_ : string) => Ok (JObj sample_doc)) file_path with
             | Raise e => exn_str e
             | Ok _ => EmptyString
             end
         end)).
Proof.
  intros download_file.
  assert (H : match download_file Samples.s3_sample with
              | Ok (Some file_path) => exists e, (fun (_ : string) => Ok (JObj sample_doc)) file_path = Raise e
              | _ => True
              end) by (simpl; exact I).
  split; [exact H|].
  apply (process_download_failure (Item := unit) "s3://bucket/uploads/airports/a.geojson" "OSML"
           Samples.s3_sample "s3://bucket/uploads/airports/a.geojson" None (fun _ => sample_tags)
           download_file (fun _ => Ok (JObj sample_doc)) (fun _ => Ok tt) (fun _ _ => Ok tt)
           (fun _ => Ok tt) (fun _ => Ok ("{}", "x")) (fun _ _ => Ok tt)
           (fun _ _ st => (st, Ok (success_message "decomposed"))) []
           {| published := []; logs := [] |} H).
Defined.

End ProcessFlowClaims.

Module SchemaStoreClaims.
Import SchemaStore.
Local Open Scope string_scope.

Section Store.
Variable path_exists : string -> bool.
Variable load : string -> string + json.
Variable stac_glob_v : list string.
Variable is_dir : string -> bool.
Variable rglob_json : string -> list string.

Lemma load_geojson_get (ms : list (string * string)) (store : list (string * json))
  (missing : list string) (k : string) :
  NoDup (map fst ms) ->
  assoc_get k (fst (fold_left (load_geojson_schema path_exists load) ms (store, missing))) =
    match assoc_get k ms with
    | Some local_path =>
        if path_exists local_path then
          match load local_path with inr s => Some s | inl _ => assoc_get k store end
        else assoc_get k store
    | None => assoc_get k store
    end.
Proof.
  revert store missing. induction ms as [|[u lp] r IH]; intros store missing Hnd;
    cbn [fold_left]; [reflexivity|].
  inversion Hnd as [|? ? Hnin Hnd']; subst.
  destruct (load_geojson_schema path_exists load (store, missing) (u, lp)) as [store' missing'] eqn:E.
  rewrite (IH _ _ Hnd'). cbn [assoc_get].
  unfold load_geojson_schema in E.
  destruct (String.eqb k u) eqn:Eku.
  - apply String.eqb_eq in Eku; subst u.
    rewrite (FeatureCountClaims.assoc_get_not_in _ _ Hnin).
    destruct (path_exists lp); [|injection E as <- <-; reflexivity].
    destruct (load lp) as [err|sd]; injection E as <- <-; [reflexivity|].
    rewrite FeatureCountClaims.assoc_get_dict_set, String.eqb_refl. reflexivity.
  - assert (Hs : assoc_get k store' = assoc_get k store).
    { destruct (path_exists lp); [|injection E as <- <-; reflexivity].
      destruct (load lp) as [err|sd]; injection E as <- <-; [reflexivity|].
      rewrite FeatureCountClaims.assoc_get_dict_set, Eku. reflexivity. }
    rewrite Hs. destruct (assoc_get k r); reflexivity.
Qed.

Lemma load_stac_keeps (k : string) (store : list (string * json)) :
  (forall rel, String.eqb k ("https://schemas.stacspec.org/" ++ rel) = false) ->
  assoc_get k (_load_stac_schemas path_exists load stac_glob_v is_dir rglob_json store) =
    assoc_get k store.
Proof.
  intros Hk. unfold _load_stac_schemas. destruct (path_exists "stac"); [|reflexivity].
  revert store. induction stac_glob_v as [|name names IH]; intros store; [reflexivity|].
  cbn [fold_left]. rewrite IH. unfold load_stac_version. destruct (is_dir name); [|reflexivity].
  generalize store. induction (rglob_json name) as [|rel rels IHr]; intros st; [reflexivity|].
  cbn [fold_left]. rewrite IHr. unfold load_stac_schema.
  destruct (load ("stac/" ++ rel)); [reflexivity|].
  rewrite FeatureCountClaims.assoc_get_dict_set, Hk. reflexivity.
Qed.

(** X14: in the schema store the validator resolves references against,
    each of the nine GeoJSON schema URIs
    [https://geojson.org/schema/<name>.json] maps to the document loaded
    from [geojson/<name>.json] when that file exists and loads, and is
    absent otherwise (a missing or broken file is only logged); the STAC
    schemas loaded afterwards never replace them. *)
Theorem geojson_schemas_in_store :
  Forall (fun name =>
    assoc_get ("https://geojson.org/schema/" ++ name ++ ".json")
      (get_store path_exists load stac_glob_v is_dir rglob_json) =
    if path_exists ("geojson/" ++ name ++ ".json") then
      match load ("geojson/" ++ name ++ ".json") with inr s => Some s | inl _ => None end
    else None) geojson_geometry_types.
Proof.
  apply Forall_forall. intros name Hin. unfold get_store.
  rewrite load_stac_keeps by (intros rel; reflexivity).
  unfold _load_geojson_schemas.
  rewrite load_geojson_get
    by (apply (bool_decide_unpack (NoDup (map fst geojson_mappings))); vm_compute; exact I).
  assert (Hm : assoc_get ("https://geojson.org/schema/" ++ name ++ ".json") geojson_mappings =
               Some ("geojson/" ++ name ++ ".json")).
  { unfold geojson_geometry_types in Hin.
    apply list_elem_of_In in Hin. simpl in Hin.
    repeat (destruct Hin as [<-|Hin]; [reflexivity|]). destruct Hin. }
  rewrite Hm. destruct (path_exists _); [|reflexivity].
  destruct (load _); reflexivity.
Qed.

End Store.
End SchemaStoreClaims.

Module ValidateItemClaims.
Import ProcessorBase Deconstructed ValidateItem.
Local Open Scope string_scope.

Section Validate.
Variable json_loads : string -> string + json.
Variable validate_core : list (string * json) -> json -> option core_error.

(** X15: the module-level [validate_stac_item]: a JSON string that parses
    to a dict is validated exactly as that dict; a string that does not
    parse raises [StacValidationError("Invalid JSON: ...")]; a dict is
    accepted exactly when the core validation, run with the item's
    [stac_version] (default ["1.0.0"]), reports nothing, and its
    validation errors are re-raised as [StacValidationError] with the
    prefix ["STAC validation failed: "]. *)
Theorem validate_stac_item_wrapper :
  (forall s kvs, json_loads s = inr (JObj kvs) ->
     validate_stac_item json_loads validate_core (ItemStr s) =
     validate_stac_item json_loads validate_core (ItemDict kvs)) /\
  (forall s err, json_loads s = inl err ->
     validate_stac_item json_loads validate_core (ItemStr s) =
     Raise (StacValidationError ("Invalid JSON: " ++ err))) /\
  (forall kvs,
     let stac_version := match assoc_get "stac_version" kvs with Some v => v | None => JStr "1.0.0" end in
     (validate_stac_item json_loads validate_core (ItemDict kvs) = Ok tt <->
      validate_core kvs stac_version = None) /\
     (forall m, validate_core kvs stac_version = Some (CoreValidation m) ->
      validate_stac_item json_loads validate_core (ItemDict kvs) =
      Raise (StacValidationError ("STAC validation failed: " ++ m)))).
Proof.
  split; [|split].
  - intros s kvs H. unfold validate_stac_item. rewrite H. reflexivity.
  - intros s err H. unfold validate_stac_item. rewrite H. reflexivity.
  - intros kvs stac_version. unfold validate_stac_item. fold stac_version. split.
    + destruct (validate_core kvs stac_version) as [[m|e]|]; split; intros H;
        try reflexivity; discriminate H.
    + intros m H. rewrite H. reflexivity.
Qed.

End Validate.
End ValidateItemClaims.

Module IntakeClaims.
Import PyStr ProcessorBase Deconstructed IntakeHandler ExtraSpec.
Local Open Scope string_scope.

Lemma filter_keep_last (l : list string) (name : string) :
  name <> EmptyString -> name <> "." ->
  List.last (List.filter (fun s => negb (String.eqb s EmptyString || String.eqb s ".")) (app l [name]))
    EmptyString = name.
Proof.
  intros H1 H2. rewrite List.filter_app. cbn [List.filter].
  apply String.eqb_neq in H1. apply String.eqb_neq in H2. rewrite H1, H2. cbn [orb negb].
  apply List.last_last.
Qed.

Lemma path_name_file (dir name : string) :
  all_chars (fun c => negb (Ascii.eqb c "/")) name = true ->
  name <> EmptyString -> name <> "." ->
  path_name (dir ++ String "/" name) = name.
Proof.
  intros Hs H1 H2. unfold path_name.
  rewrite IdShapeClaims.split_app, (IdShapeClaims.split_no_sep _ Hs).
  apply filter_keep_last; assumption.
Qed.

Lemma split_last_dot_app (l r : list ascii) :
  forallb (fun c => negb (Ascii.eqb c ".")) l = true ->
  split_last_dot (app l ("."%char :: r)) = Some (l, r).
Proof.
  induction l as [|a l IH]; intros H; [reflexivity|].
  cbn in H. apply andb_true_iff in H as [Ha Hl].
  cbn [app split_last_dot]. destruct (Ascii.eqb a "."); [discriminate|].
  rewrite (IH Hl). reflexivity.
Qed.

Lemma split_last_dot_none (l : list ascii) :
  forallb (fun c => negb (Ascii.eqb c ".")) l = true -> split_last_dot l = None.
Proof.
  induction l as [|a l IH]; intros H; [reflexivity|].
  cbn in H. apply andb_true_iff in H as [Ha Hl].
  cbn [split_last_dot]. destruct (Ascii.eqb a "."); [discriminate|].
  rewrite (IH Hl). reflexivity.
Qed.

Lemma no_dot_rev (x : string) :
  all_chars (fun c => negb (Ascii.eqb c "/") && negb (Ascii.eqb c ".")) x = true ->
  forallb (fun c => negb (Ascii.eqb c ".")) (rev (list_ascii_of_string x)) = true /\
  all_chars (fun c => negb (Ascii.eqb c "/")) x = true.
Proof.
  unfold all_chars. intros H. rewrite forallb_forall in H. split.
  - apply forallb_forall. intros c Hc. apply in_rev in Hc.
    specialize (H c Hc). apply andb_true_iff in H as [_ H]. exact H.
  - apply forallb_forall. intros c Hc.
    specialize (H c Hc). apply andb_true_iff in H as [H _]. exact H.
Qed.

Lemma suffix_ext (stem x : string) :
  stem <> EmptyString -> x <> EmptyString ->
  all_chars (fun c => negb (Ascii.eqb c "/") && negb (Ascii.eqb c ".")) x = true ->
  suffix (stem ++ String "." x) = String "." x.
Proof.
  intros Hs Hx Hxc. destruct (no_dot_rev x Hxc) as [Hr _].
  unfold suffix. rewrite SettingClaims.las_app. cbn [list_ascii_of_string].
  rewrite rev_app_distr. cbn [rev]. rewrite <- app_assoc. cbn [app].
  rewrite (split_last_dot_app _ _ Hr).
  destruct (rev (list_ascii_of_string stem)) eqn:E1.
  { destruct stem; [congruence|]. cbn [list_ascii_of_string rev] in E1.
    apply app_eq_nil in E1 as [_ E1]. discriminate E1. }
  destruct (rev (list_ascii_of_string x)) eqn:E2.
  { destruct x; [congruence|]. cbn [list_ascii_of_string rev] in E2.
    apply app_eq_nil in E2 as [_ E2]. discriminate E2. }
  rewrite <- E2, rev_involutive, string_of_list_ascii_of_string. reflexivity.
Qed.

Abbreviation no_slash := (fun c : ascii => negb (Ascii.eqb c "/")).
Abbreviation no_slash_dot := (fun c : ascii => negb (Ascii.eqb c "/") && negb (Ascii.eqb c ".")).

Lemma name_no_slash (stem x : string) :
  all_chars no_slash stem = true -> all_chars no_slash_dot x = true ->
  all_chars no_slash (stem ++ String "." x) = true.
Proof.
  intros Hs Hx. destruct (no_dot_rev x Hx) as [_ Hx'].
  unfold all_chars in *. rewrite SettingClaims.las_app, forallb_app, Hs. exact Hx'.
Qed.

Lemma detect_ext (supported dir stem x : string) :
  stem <> EmptyString -> all_chars no_slash stem = true ->
  x <> EmptyString -> all_chars no_slash_dot x = true ->
  detect_file_type supported (dir ++ String "/" (stem ++ String "." x)) =
    (let ext := String "." (lower x) in
     if existsb (String.eqb ext) IMAGE_EXTENSIONS then Ok "image"
     else if existsb (String.eqb ext) GEOJSON_EXTENSIONS then Ok "geojson"
     else Raise (ValueError ("Unsupported file type: '" ++ ext ++ "'. Supported extensions: "
                             ++ supported))).
Proof.
  intros Hs Hss Hx Hxc. unfold detect_file_type.
  rewrite path_name_file.
  - rewrite suffix_ext by assumption. reflexivity.
  - apply name_no_slash; assumption.
  - destruct stem; [congruence|]. discriminate.
  - destruct stem as [|c [|c' s]]; [congruence| |discriminate].
    destruct x; [congruence|]. discriminate.
Qed.

(** X16: [detect_file_type] on a URI whose last path component is
    [stem.x] (a non-empty stem without ["/"], a non-empty extension
    without ["/"] or ["."]) decides on the lower-cased [".x"] alone
    (whatever the directory part): an image extension gives ["image"], a
    GeoJSON extension ["geojson"], anything else raises [ValueError]
    naming [".x"] lower-cased. *)
Theorem detect_file_type_extension (supported dir stem x : string)
  (Hstem : stem <> EmptyString) (Hstem_chars : all_chars no_slash stem = true)
  (Hx : x <> EmptyString) (Hx_chars : all_chars no_slash_dot x = true) :
  detect_file_type supported (dir ++ String "/" (stem ++ String "." x)) =
    (let ext := String "." (lower x) in
     if existsb (String.eqb ext) IMAGE_EXTENSIONS then Ok "image"
     else if existsb (String.eqb ext) GEOJSON_EXTENSIONS then Ok "geojson"
     else Raise (ValueError ("Unsupported file type: '" ++ ext ++ "'. Supported extensions: "
                             ++ supported))).
Proof. apply detect_ext; assumption. Qed.

Lemma suffix_none (x : string) :
  all_chars no_slash_dot x = true -> suffix x = EmptyString.
Proof.
  intros Hx. destruct (no_dot_rev x Hx) as [Hr _].
  unfold suffix. rewrite (split_last_dot_none _ Hr). reflexivity.
Qed.

Lemma suffix_hidden (x : string) :
  all_chars no_slash_dot x = true -> suffix (String "." x) = EmptyString.
Proof.
  intros Hx. destruct (no_dot_rev x Hx) as [Hr _].
  unfold suffix. cbn [list_ascii_of_string rev].
  rewrite (split_last_dot_app _ [] Hr). destruct (rev _); reflexivity.
Qed.

(** X17: a last path component with no ["."] at all, or whose only ["."]
    is its first character (a hidden name such as [".geojson"]), has no
    suffix: [detect_file_type] raises [ValueError] with an empty
    extension. *)
Theorem detect_file_type_no_extension (supported dir x : string)
  (Hx : x <> EmptyString) (Hx_chars : all_chars no_slash_dot x = true) :
  let err := Raise (ValueError ("Unsupported file type: ''. Supported extensions: "
                                ++ supported)) in
  detect_file_type supported (dir ++ String "/" x) = err /\
  detect_file_type supported (dir ++ String "/" (String "." x)) = err.
Proof.
  destruct (no_dot_rev x Hx_chars) as [_ Hs]. split; unfold detect_file_type.
  - rewrite path_name_file by (try assumption; intros ->; discriminate Hx_chars).
    rewrite (suffix_none x Hx_chars). reflexivity.
  - rewrite path_name_file.
    + rewrite (suffix_hidden x Hx_chars). reflexivity.
    + rewrite IdShapeClaims.all_chars_cons. exact Hs.
    + discriminate.
    + destruct x; [congruence|]. discriminate.
Qed.

Section Route.
Variable supported : string.
Variable json_loads : string -> result json.
Variable image_process geojson_process : string -> response.

Local Abbreviation handler' := (handler supported json_loads image_process geojson_process).

(** X18: [handler] on an SNS message that decodes to a dict whose
    [image_uri] is a string ending in [stem.x] (as in X16) runs the image
    processor for an image extension, the GeoJSON processor for a GeoJSON
    extension, and otherwise answers 400 with the [ValueError] text of
    [detect_file_type] instead of raising. *)
Theorem handler_routes_by_extension (message dir stem x : string) (kvs : list (string * json))
  (Hmsg : json_loads message = Ok (JObj kvs))
  (Huri : assoc_get "image_uri" kvs = Some (JStr (dir ++ String "/" (stem ++ String "." x))))
  (Hstem : stem <> EmptyString) (Hstem_chars : all_chars no_slash stem = true)
  (Hx : x <> EmptyString) (Hx_chars : all_chars no_slash_dot x = true) :
  handler' message =
    (let ext := String "." (lower x) in
     if existsb (String.eqb ext) IMAGE_EXTENSIONS then Ok (image_process message)
     else if existsb (String.eqb ext) GEOJSON_EXTENSIONS then Ok (geojson_process message)
     else Ok {| statusCode := 400;
                body := JObj [("error", JStr ("Unsupported file type: '" ++ ext
                                              ++ "'. Supported extensions: " ++ supported))] |}).
Proof.
  unfold handler. rewrite Hmsg. cbn [py_get]. rewrite Huri.
  assert (Ht : truthy (JStr (dir ++ String "/" (stem ++ String "." x))) = true).
  { cbn [truthy]. destruct dir; reflexivity. }
  rewrite Ht. cbn [negb]. rewrite detect_ext by assumption. cbv zeta.
  destruct (existsb _ IMAGE_EXTENSIONS); [reflexivity|].
  destruct (existsb _ GEOJSON_EXTENSIONS); reflexivity.
Qed.

(** X19: [handler] on a decoded message: a missing or falsy [image_uri]
    (absent, [null], [""], [0], [false], an empty list or dict) is answered
    with 400 ["Missing required field: image_uri"] without running a
    processor; a truthy [image_uri] that is not a string, or a message that
    is not a JSON object, raises instead of answering; a message that does
    not decode raises the decoding error. *)
Theorem handler_bad_messages (message : string) :
  (forall kvs, json_loads message = Ok (JObj kvs) ->
     truthy (match assoc_get "image_uri" kvs with Some v => v | None => JStr EmptyString end) = false ->
     handler' message =
       Ok {| statusCode := 400; body := JObj [("error", JStr "Missing required field: image_uri")] |}) /\
  (forall kvs v, json_loads message = Ok (JObj kvs) -> assoc_get "image_uri" kvs = Some v ->
     truthy v = true -> (forall s, v <> JStr s) ->
     handler' message = Raise (OtherError ("expected str, bytes or os.PathLike object, not "
                                           ++ StacValidator.py_type_name v))) /\
  (forall j, json_loads message = Ok j -> (forall kvs, j <> JObj kvs) ->
     handler' message = Raise (OtherError ("'" ++ StacValidator.py_type_name j
                                           ++ "' object has no attribute 'get'"))) /\
  (forall e, json_loads message = Raise e -> handler' message = Raise e).
Proof.
  split; [|split; [|split]].
  - intros kvs Hm Hf. unfold handler. rewrite Hm. cbn [py_get]. rewrite Hf. reflexivity.
  - intros kvs v Hm Hu Ht Hs. unfold handler. rewrite Hm. cbn [py_get]. rewrite Hu, Ht.
    cbn [negb]. destruct v; try reflexivity. destruct (Hs s eq_refl).
  - intros j Hm Hj. unfold handler. rewrite Hm.
    destruct j; try reflexivity. exfalso. eapply Hj. reflexivity.
  - intros e Hm. unfold handler. rewrite Hm. reflexivity.
Qed.

End Route.

Lemma detect_file_type_extension_witness :
  detect_file_type "{...}" ("s3://bucket/in" ++ String "/" ("roads" ++ String "." "GeoJSON")) = Ok "geojson".
Proof.
  rewrite (detect_file_type_extension "{...}" "s3://bucket/in" "roads" "GeoJSON");
    [reflexivity|discriminate|reflexivity|discriminate|reflexivity].
Defined.

Lemma detect_file_type_no_extension_witness :
  detect_file_type "{...}" ("s3://bucket/in" ++ String "/" (String "." "geojson")) =
  Raise (ValueError ("Unsupported file type: ''. Supported extensions: " ++ "{...}")).
Proof.
  apply (detect_file_type_no_extension "{...}" "s3://bucket/in" "geojson");
    [discriminate|reflexivity].
Defined.

Lemma handler_routes_by_extension_witness :
  handler "{...}" (fun _ => Ok (JObj [("image_uri", JStr "s3://b/dir/scene.TIF")]))
    (fun _ => {| statusCode := 200; body := JStr "image" |})
    (fun _ => {| statusCode := 200; body := JStr "geojson" |}) "msg" =
  Ok {| statusCode := 200; body := JStr "image" |}.
Proof.
  rewrite (handler_routes_by_extension "{...}" (fun _ => Ok (JObj [("image_uri", JStr "s3://b/dir/scene.TIF")]))
             (fun _ => {| statusCode := 200; body := JStr "image" |})
             (fun _ => {| statusCode := 200; body := JStr "geojson" |})
             "msg" "s3://b/dir" "scene" "TIF" [("image_uri", JStr "s3://b/dir/scene.TIF")]);
    [reflexivity|reflexivity|reflexivity|discriminate|reflexivity|discriminate|reflexivity].
Defined.

End IntakeClaims.

Module ValidatorEdgeClaims.
Import PyStr SchemaUriMap StacValidator PyHeap.
Local Open Scope string_scope.

Lemma dict_set_twice (d : list (string * json)) (k : string) (v1 v2 : json) :
  dict_set (dict_set d k v1) k v2 = dict_set d k v2.
Proof.
  induction d as [|[a x] r IH]; cbn [dict_set].
  - rewrite String.eqb_refl. reflexivity.
  - destruct (String.eqb_spec k a) as [<-|Hne]; cbn [dict_set].
    + rewrite String.eqb_refl. reflexivity.
    + apply String.eqb_neq in Hne. rewrite Hne, IH. reflexivity.
Qed.

(** Setting [k], then another key, then [k] again forgets the first value
    given to [k]. *)
Lemma dict_set_reset (d : list (string * json)) (k k' : string) (v1 v2 g p : json) :
  k <> k' ->
  dict_set (dict_set (dict_set d k v1) k' g) k p = dict_set (dict_set (dict_set d k v2) k' g) k p.
Proof.
  intros Hk. apply String.eqb_neq in Hk.
  assert (Hk' : String.eqb k' k = false) by (rewrite String.eqb_sym; exact Hk).
  induction d as [|[a x] r IH]; cbn [dict_set].
  - do 3 (cbn [dict_set]; rewrite ?Hk', ?String.eqb_refl). reflexivity.
  - destruct (String.eqb_spec k a) as [<-|Hne].
    + do 3 (cbn [dict_set]; rewrite ?Hk', ?String.eqb_refl). reflexivity.
    + assert (Hne' : String.eqb k a = false) by (apply String.eqb_neq; exact Hne).
      cbn [dict_set]. rewrite ?Hne'.
      destruct (String.eqb k' a); cbn [dict_set]; rewrite ?Hne';
        [rewrite !dict_set_twice; reflexivity|rewrite IH; reflexivity].
Qed.

Section Edges.
Context {error : Type}.
Variable iter_errors : json -> json -> json -> list error.
Variable best_match : list error -> option error.
Variable error_str : error -> string.
Variable py_str : json -> string.
Variable load_schema : string -> string + json.
Variable store : list (string * json).
Variable super_validate : list (string * json) -> STACObjectType -> string -> option string -> outcome.

Local Abbreviation validate_from_uri' :=
  (_validate_from_uri iter_errors best_match error_str py_str load_schema store super_validate).

(** X20: for an item validated against a local schema whose geometry is a
    dict of type MultiPolygon, the outcome does not depend on the item's
    [bbox]: the bbox is never checked, whatever value it holds. *)
Theorem validate_multipolygon_ignores_bbox (d : list (string * json)) (t : STACObjectType)
  (schema_uri : string) (href : option string) (g : list (string * json)) (b1 b2 : json)
  (Huri : String.prefix "file://" schema_uri = true)
  (Hgeom : assoc_get "geometry" d = Some (JObj g))
  (Htype : assoc_get "type" g = Some (JStr "MultiPolygon")) :
  validate_from_uri' (dict_set d "bbox" b1) t schema_uri href =
  validate_from_uri' (dict_set d "bbox" b2) t schema_uri href.
Proof.
  unfold _validate_from_uri. rewrite Huri.
  destruct (load_schema _) as [e|main_schema]; [reflexivity|].
  rewrite !FeatureCountClaims.assoc_get_dict_set.
  change (String.eqb "geometry" "bbox") with false. cbv iota. rewrite Hgeom.
  cbn [get_attr py_get]. rewrite Htype.
  change (String.eqb "MultiPolygon" "MultiPolygon") with true. cbv iota.
  unfold _validate_multipolygon.
  destruct (assoc_get MULTIPOLYGON_SCHEMA_URI store); [|reflexivity].
  rewrite (dict_set_reset d "bbox" "geometry" b1 b2) by discriminate.
  reflexivity.
Qed.

(** X21: error and edge behaviour of [_validate_from_uri] for a local
    ([file://]) schema: a schema that fails to load gives
    ["Schema validation error: "] and the load error; a geometry that is
    present but not a dict (for instance [null]) gives
    ["Schema validation error: '<type>' object has no attribute 'get'"]
    whatever the schema; a missing geometry is treated as [{}], so the
    item is validated whole against the schema. *)
Theorem validate_from_uri_edges (d : list (string * json)) (t : STACObjectType)
  (schema_uri : string) (href : option string)
  (Huri : String.prefix "file://" schema_uri = true) :
  let outcome := validate_from_uri' d t schema_uri href in
  let schema_path := replace schema_uri "file://" EmptyString in
  (forall e, load_schema schema_path = inl e -> outcome = Invalid ("Schema validation error: " ++ e)) /\
  (forall s v, load_schema schema_path = inr s -> assoc_get "geometry" d = Some v ->
     (forall g, v <> JObj g) ->
     outcome = Invalid ("Schema validation error: '" ++ py_type_name v
                        ++ "' object has no attribute 'get'")) /\
  (forall s, load_schema schema_path = inr s -> assoc_get "geometry" d = None ->
     (outcome = Valid <-> iter_errors s s (JObj d) = [])).
Proof.
  intros outcome schema_path. unfold outcome, _validate_from_uri. rewrite Huri. fold schema_path.
  split; [|split].
  - intros e He. rewrite He. reflexivity.
  - intros s v Hs Hg Hv. rewrite Hs, Hg.
    destruct v; try reflexivity. exfalso. eapply Hv. reflexivity.
  - intros s Hs Hg. rewrite Hs, Hg. cbn [get_attr py_get assoc_get].
    cbn [String.eqb Ascii.eqb Bool.eqb].
    destruct (iter_errors s s (JObj d)) as [|e es]; [tauto|].
    split; [|intros H; discriminate H].
    intros H. destruct (best_match (e :: es)), href, (assoc_get "id" d) as [[]|];
      discriminate H.
Qed.

End Edges.

Lemma validate_multipolygon_ignores_bbox_witness :
  _validate_from_uri (error := string) (fun _ _ _ => []) (fun errs => head errs) (fun e => e)
    (fun _ => "airports-a") (fun _ => inr (JObj [])) ValidatorSamples.store_with_mp
    (fun _ _ _ _ => Valid) (dict_set ValidatorSamples.mp_item "bbox" (JStr "not a bbox")) ITEM
    ValidatorSamples.item_schema_uri None =
  _validate_from_uri (error := string) (fun _ _ _ => []) (fun errs => head errs) (fun e => e)
    (fun _ => "airports-a") (fun _ => inr (JObj [])) ValidatorSamples.store_with_mp
    (fun _ _ _ _ => Valid) (dict_set ValidatorSamples.mp_item "bbox" placeholder_bbox) ITEM
    ValidatorSamples.item_schema_uri None.
Proof.
  apply (validate_multipolygon_ignores_bbox (error := string) (fun _ _ _ => [])
           (fun errs => head errs) (fun e => e) (fun _ => "airports-a") (fun _ => inr (JObj []))
           ValidatorSamples.store_with_mp (fun _ _ _ _ => Valid) ValidatorSamples.mp_item ITEM
           ValidatorSamples.item_schema_uri None ValidatorSamples.mp_geometry);
    vm_compute; reflexivity.
Defined.

Lemma validate_from_uri_edges_witness :
  _validate_from_uri (error := string) (fun _ _ _ => []) (fun errs => head errs) (fun e => e)
    (fun _ => "airports-a") (fun _ => inr (JObj [])) ValidatorSamples.store_with_mp
    (fun _ _ _ _ => Valid) [("id", JStr "airports-a"); ("geometry", JNull)] ITEM
    ValidatorSamples.item_schema_uri None =
  Invalid ("Schema validation error: '" ++ "NoneType" ++ "' object has no attribute 'get'").
Proof.
  apply (proj1 (proj2 (validate_from_uri_edges (error := string) (fun _ _ _ => [])
           (fun errs => head errs) (fun e => e) (fun _ => "airports-a") (fun _ => inr (JObj []))
           ValidatorSamples.store_with_mp (fun _ _ _ _ => Valid)
           [("id", JStr "airports-a"); ("geometry", JNull)] ITEM
           ValidatorSamples.item_schema_uri None ltac:(vm_compute; reflexivity))))
    with (s := JObj []) (v := JNull); [reflexivity|reflexivity|intros g Hg; discriminate Hg].
Defined.

End ValidatorEdgeClaims.

Module DumpsOrderClaims.
Import PyStr Dumps.
Local Open Scope string_scope.

Lemma compare_lt_trans (s1 s2 s3 : string) :
  String.compare s1 s2 = Lt -> String.compare s2 s3 = Lt -> String.compare s1 s3 = Lt.
Proof.
  revert s2 s3. induction s1 as [|a1 r1 IH]; intros [|a2 r2] [|a3 r3] H1 H2;
    cbn in H1, H2 |- *; try discriminate; try reflexivity.
  unfold Ascii.compare in *.
  destruct (N.compare_spec (N_of_ascii a1) (N_of_ascii a2)) as [E1|E1|E1]; try discriminate;
  destruct (N.compare_spec (N_of_ascii a2) (N_of_ascii a3)) as [E2|E2|E2]; try discriminate;
  destruct (N.compare_spec (N_of_ascii a1) (N_of_ascii a3)) as [E3|E3|E3];
    try lia; try reflexivity.
  eapply IH; eassumption.
Qed.

Lemma compare_lt_asym (s1 s2 : string) :
  String.compare s1 s2 = Lt -> String.compare s2 s1 = Lt -> False.
Proof. intros H1 H2. rewrite String.compare_antisym, H2 in H1. discriminate. Qed.

Definition key_lt (a b : string * string) : Prop := String.compare (fst a) (fst b) = Lt.

Lemma insert_item_perm (kv : string * string) (l : list (string * string)) :
  Permutation (insert_item kv l) (kv :: l).
Proof.
  induction l as [|kv' r IH]; cbn [insert_item]; [reflexivity|].
  destruct (String.compare (fst kv) (fst kv')); try reflexivity;
    (etransitivity; [apply perm_skip, IH|apply perm_swap]).
Qed.

Lemma fold_insert_perm (m : list (string * string)) :
  Permutation (fold_right insert_item [] m) m.
Proof.
  induction m as [|kv m IH]; cbn [fold_right]; [reflexivity|].
  rewrite insert_item_perm, IH. reflexivity.
Qed.

Lemma insert_item_sorted (kv : string * string) (l : list (string * string)) :
  StronglySorted key_lt l -> ~ In (fst kv) (map fst l) ->
  StronglySorted key_lt (insert_item kv l).
Proof.
  induction l as [|kv' r IH]; intros Hs Hn; cbn [insert_item].
  { repeat constructor. }
  inversion Hs as [|? ? Hr Hf]; subst.
  destruct (String.compare (fst kv) (fst kv')) eqn:E.
  - exfalso. apply Hn. left. symmetry. apply String.compare_eq_iff, E.
  - constructor; [exact Hs|]. constructor; [exact E|].
    eapply Forall_impl; [exact Hf|]. intros z Hz. eapply compare_lt_trans; eassumption.
  - constructor.
    + apply IH; [exact Hr|]. intros H. apply Hn. right. exact H.
    + apply (Permutation_Forall (Permutation_sym (insert_item_perm kv r))).
      constructor; [|exact Hf]. unfold key_lt.
      rewrite String.compare_antisym, E. reflexivity.
Qed.

Lemma sort_items_sorted (l : list (string * string)) :
  List.NoDup (map fst l) -> StronglySorted key_lt (sort_items l).
Proof.
  intros Hnd. unfold sort_items.
  assert (Hnd' : List.NoDup (map fst (rev l))) by (rewrite map_rev; apply NoDup_rev, Hnd).
  revert Hnd'. generalize (rev l) as m.
  induction m as [|kv m IH]; intros Hnd'; cbn [fold_right]; [constructor|].
  inversion Hnd' as [|? ? Hn Hm]; subst.
  apply insert_item_sorted; [apply IH, Hm|].
  intros H. apply Hn. apply (Permutation_in _ (Permutation_map fst (fold_insert_perm m)) H).
Qed.

Lemma sorted_perm_eq (l1 l2 : list (string * string)) :
  StronglySorted key_lt l1 -> StronglySorted key_lt l2 -> Permutation l1 l2 -> l1 = l2.
Proof.
  revert l2. induction l1 as [|a r1 IH]; intros l2 H1 H2 Hp.
  { symmetry. apply Permutation_nil, Hp. }
  destruct l2 as [|b r2]; [apply Permutation_sym, Permutation_nil in Hp; discriminate|].
  inversion H1 as [|? ? Hr1 Hf1]; subst. inversion H2 as [|? ? Hr2 Hf2]; subst.
  assert (Ha : In a (b :: r2)) by (apply (Permutation_in _ Hp); left; reflexivity).
  assert (Hb : In b (a :: r1)) by (apply (Permutation_in _ (Permutation_sym Hp)); left; reflexivity).
  destruct Ha as [<-|Ha].
  - f_equal. apply IH; [exact Hr1|exact Hr2|]. apply (Permutation_cons_inv Hp).
  - destruct Hb as [<-|Hb].
    + f_equal. apply IH; [exact Hr1|exact Hr2|]. apply (Permutation_cons_inv Hp).
    + exfalso. rewrite List.Forall_forall in Hf1, Hf2.
      apply (compare_lt_asym (fst a) (fst b)); [apply Hf1, Hb|apply Hf2, Ha].
Qed.

Lemma sort_items_perm_eq (l l' : list (string * string)) :
  Permutation l l' -> NoDup (map fst l) -> sort_items l = sort_items l'.
Proof.
  intros Hp Hnd. apply NoDup_ListNoDup in Hnd. apply sorted_perm_eq.
  - apply sort_items_sorted, Hnd.
  - apply sort_items_sorted. eapply Permutation_NoDup; [apply Permutation_map, Hp|exact Hnd].
  - unfold sort_items. rewrite !fold_insert_perm, <- !Permutation_rev. exact Hp.
Qed.

Lemma dumps_obj_perm (kvs kvs' : list (string * json)) :
  Permutation kvs kvs' -> NoDup (map fst kvs) -> dumps (JObj kvs) = dumps (JObj kvs').
Proof.
  intros Hp Hnd. cbn [dumps].
  rewrite (sort_items_perm_eq (map (fun kv => (fst kv, dumps (snd kv))) kvs)
                              (map (fun kv => (fst kv, dumps (snd kv))) kvs')).
  - reflexivity.
  - apply Permutation_map, Hp.
  - rewrite map_map. cbn [fst]. exact Hnd.
Qed.


(** X22: the id [generate_deterministic_id] gives a feature does not
    depend on the order of the keys of its [properties] dict, nor on the
    order of the feature's own keys: [json.dumps(..., sort_keys=True)]
    sorts them before hashing. *)
Theorem generate_deterministic_id_key_order (fkvs fkvs' p p' : list (string * json))
  (collection_id source_key : string)
  (Hid : assoc_get "id" fkvs = assoc_get "id" fkvs')
  (Hgeom : assoc_get "geometry" fkvs = assoc_get "geometry" fkvs')
  (Hprops : assoc_get "properties" fkvs = Some (JObj p))
  (Hprops' : assoc_get "properties" fkvs' = Some (JObj p'))
  (Hperm : Permutation p p') (Hnd : NoDup (map fst p)) :
  GeoJSONProcessor.generate_deterministic_id (JObj fkvs) collection_id source_key =
  GeoJSONProcessor.generate_deterministic_id (JObj fkvs') collection_id source_key.
Proof.
  pose proof (dumps_obj_perm p p' Hperm Hnd) as Hd.
  unfold GeoJSONProcessor.generate_deterministic_id. cbv zeta.
  rewrite Hid, Hgeom, Hprops, Hprops'.
  remember (JObj p) as P eqn:EP. remember (JObj p') as P' eqn:EP'.
  destruct (truthy _); cbn [dumps List.map List.app fst snd]; rewrite Hd; reflexivity.
Qed.

Lemma generate_deterministic_id_key_order_witness :
  GeoJSONProcessor.generate_deterministic_id
    (JObj [("id", JStr "A_1"); ("properties", JObj [("name", JStr "x"); ("elev", JNum 3)])])
    "airports" "uploads/airports/a.geojson" =
  GeoJSONProcessor.generate_deterministic_id
    (JObj [("properties", JObj [("elev", JNum 3); ("name", JStr "x")]); ("id", JStr "A_1")])
    "airports" "uploads/airports/a.geojson".
Proof.
  apply (generate_deterministic_id_key_order
           [("id", JStr "A_1"); ("properties", JObj [("name", JStr "x"); ("elev", JNum 3)])]
           [("properties", JObj [("elev", JNum 3); ("name", JStr "x")]); ("id", JStr "A_1")]
           [("name", JStr "x"); ("elev", JNum 3)] [("elev", JNum 3); ("name", JStr "x")]);
    [reflexivity|reflexivity|reflexivity|reflexivity|apply perm_swap|].
  apply (bool_decide_unpack (NoDup (map fst [("name", JStr "x"); ("elev", JNum 3)]))).
  vm_compute. exact I.
Defined.

End DumpsOrderClaims.
